(** * Multi-model workflow orchestrator: a shallow embedding

    The development follows [tools/multi_model_workflow.py] (the
    orchestrator, its five workflows, model selection and the report)
    and [tools/specialized_agents.py] (the nine agents, their prompt
    builders, the model round-trip and the consensus workflow).

    - Python dictionaries are finite maps from strings to JSON-like
      values (numbers are integers); a string is its sequence of UTF-8
      bytes.
    - Exceptions are an inductive type; a function that may raise
      returns a [result].
    - An awaited coroutine is a computation in a state-and-exception
      monad [M].  The state holds the [context] mapping that a run
      shares among its steps by reference, the log of the calls issued
      to the model provider, and the wall clock.
    - A coroutine handed to [asyncio.gather] is a [coroutine]: a tree
      that is either finished or suspended at a provider call.  The
      event loop starts the gathered coroutines in argument order, each
      running until a provider call of it yields, and then resumes
      them in the order the provider's answers arrive.  The functions
      a custom task runs through are given both as [M] computations
      and, in [Coroutine], as coroutines; awaiting the coroutine is the
      [M] computation.
    - What the modules import from elsewhere is a [Runtime]: the
      provider registry and the providers' answers, Python's [repr],
      [json.dumps] and [str.upper], whether a provider call yields to
      the event loop before it is answered, and the order in which the
      answers to pending calls arrive.  Constructing [ModelContext] and
      [ModelProviderRegistry] is taken not to fail, and logging is left
      out. *)

From Stdlib Require Import Ascii String.
From stdpp Require Import base gmap strings list pretty.

Set Warnings "-register-all".
Local Open Scope string_scope.

(** ** Values, dictionaries, exceptions *)

(** The values a decoded JSON argument can take.  Nested objects keep
    their insertion order; the top-level dictionaries ([task], the
    shared context, the argument dictionary handed to an agent) are
    only ever read by key and are finite maps. *)
Inductive value : Type :=
  | VNone
  | VBool (b : bool)
  | VInt (n : Z)
  | VStr (s : string)
  | VList (l : list value)
  | VDict (d : list (string * value)).

Abbreviation dict := (gmap string value).

(** The exceptions that cross a function boundary in the two modules.
    [ProviderError] stands for whatever the provider abstraction raises,
    identified by its [str()]. *)
Inductive exn : Type :=
  | KeyError (key : string)
  | IndexError (msg : string)
  | TypeError (msg : string)
  | AttributeError (msg : string)
  | RuntimeError (msg : string)
  | ProviderError (msg : string)
  | ToolExecutionError (msg : string).

(** [str(e)]: a [KeyError] prints the [repr] of its key, the others
    print their message. *)
Definition str_exn (e : exn) : string :=
  match e with
  | KeyError k => "'" +:+ k +:+ "'"
  | IndexError m | TypeError m | AttributeError m | RuntimeError m
  | ProviderError m | ToolExecutionError m => m
  end.

Inductive result (A : Type) : Type :=
  | Ok (a : A)
  | Raise (e : exn).
Arguments Ok {A} a.
Arguments Raise {A} e.

(** ** The provider round-trip and the run state *)

(** One call [provider.generate_response(messages=[{"role": "user",
    "content": content}], model=model, thinking_mode=thinking_mode)]. *)
Record Call : Type := mkCall {
  call_content : string;
  call_model : value;
  call_thinking_mode : value
}.

(** A reading of the wall clock, as [datetime.datetime.now()] returns it. *)
Record datetime : Type := mkDatetime {
  year : nat; month : nat; day : nat;
  hour : nat; minute : nat; second : nat
}.

(** [shared_context] is the one mapping object every step of a run
    receives by reference; [calls] is the log of provider round-trips,
    oldest first; [clock] is what the wall clock reads. *)
Record State : Type := mkState {
  shared_context : dict;
  calls : list Call;
  clock : datetime
}.

Definition M (A : Type) : Type := State -> result A * State.

Definition ret {A} (a : A) : M A := fun s => (Ok a, s).
Definition raise {A} (e : exn) : M A := fun s => (Raise e, s).
Definition bind {A B} (m : M A) (k : A -> M B) : M B :=
  fun s => match m s with
           | (Ok a, s') => k a s'
           | (Raise e, s') => (Raise e, s')
           end.
(** [try: m except Exception as e: h e] *)
Definition try_except {A} (m : M A) (h : exn -> M A) : M A :=
  fun s => match m s with
           | (Ok a, s') => (Ok a, s')
           | (Raise e, s') => h e s'
           end.
(** Lifting of a pure computation that may raise. *)
Definition lift {A} (r : result A) : M A := fun s => (r, s).

Notation "'do' x <- m ; k" := (bind m (fun x => k))
  (at level 10, x name, m at level 100, k at level 200).

(** A coroutine as the event loop sees it: it has finished, with what
    it returned or raised, or it is suspended at
    [await provider.generate_response(...)] and resumes with the
    provider's answer or failure. *)
Inductive coroutine (A : Type) : Type :=
  | Finished (outcome : result A)
  | Awaiting (c : Call) (resume : result string -> coroutine A).
Arguments Finished {A} outcome.
Arguments Awaiting {A} c resume.

(** ** Python built-ins used by the two modules *)

(** [d[key]] *)
Definition dict_item (d : dict) (key : string) : result value :=
  match d !! key with
  | Some v => Ok v
  | None => Raise (KeyError key)
  end.

(** [d.get(key, default)] *)
Definition dict_get (d : dict) (key : string) (default : value) : value :=
  match d !! key with
  | Some v => v
  | None => default
  end.

(** [v == s] for a string literal [s] *)
Definition eq_str (v : value) (s : string) : bool :=
  match v with
  | VStr s' => bool_decide (s' = s)
  | _ => false
  end.

(** Truth value of an object, as tested by [if v]. *)
Definition truthy (v : value) : bool :=
  match v with
  | VNone => false
  | VBool b => b
  | VInt n => negb (Z.eqb n 0)
  | VStr s => negb (bool_decide (s = ""))
  | VList l => match l with [] => false | _ => true end
  | VDict d => match d with [] => false | _ => true end
  end.

Definition type_name (v : value) : string :=
  match v with
  | VNone => "NoneType"
  | VBool _ => "bool"
  | VInt _ => "int"
  | VStr _ => "str"
  | VList _ => "list"
  | VDict _ => "dict"
  end.

(** The items of [l] as strings, or the [TypeError] that [str.join]
    raises at the first item (index [i] onwards) that is not a [str]. *)
Fixpoint str_items (i : nat) (l : list value) : result (list string) :=
  match l with
  | [] => Ok []
  | VStr s :: l' =>
      match str_items (S i) l' with
      | Ok ss => Ok (s :: ss)
      | Raise e => Raise e
      end
  | v :: _ =>
      Raise (TypeError ("sequence item " +:+ pretty i +:+
                        ": expected str instance, " +:+ type_name v +:+ " found"))
  end.

Fixpoint chars (s : string) : list string :=
  match s with
  | EmptyString => []
  | String c s' => String c EmptyString :: chars s'
  end.

(** [sep.join(v)]: [v] is iterated, so a list yields its items, a string
    its characters and a dictionary its keys. *)
Definition str_join (sep : string) (v : value) : result string :=
  match v with
  | VList l =>
      match str_items 0 l with
      | Ok ss => Ok (String.concat sep ss)
      | Raise e => Raise e
      end
  | VStr s => Ok (String.concat sep (chars s))
  | VDict d => Ok (String.concat sep (d.*1))
  | _ => Raise (TypeError "can only join an iterable")
  end.

(** ** The runtime the modules run against *)

(** What lies outside the two modules: Python's [repr] of containers,
    [json.dumps(_, indent=2)] and [str.upper()] (on the UTF-8 bytes of a
    string), the provider registry, the provider's answer to a call
    (which may depend on the calls issued before it) and the time the
    clock shows once the answer is there, whether a call of a gathered
    coroutine yields to the event loop before it is answered
    ([suspends], again a matter of the calls issued before), and the
    order in which the answers to the pending calls of gathered
    coroutines arrive: each entry of [completion_order] picks one of the
    coroutines then suspended. *)
Record Runtime : Type := mkRuntime {
  py_repr : value -> string;
  json_dumps : value -> string;
  str_upper : string -> string;
  get_provider_for_model : value -> bool;
  generate_response : list Call -> Call -> result string;
  clock_after : list Call -> Call -> datetime -> datetime;
  suspends : list Call -> Call -> bool;
  completion_order : list nat
}.

Definition result_bind {A B} (r : result A) (k : A -> result B) : result B :=
  match r with
  | Ok a => k a
  | Raise e => Raise e
  end.

Section WithRuntime.

Context (rt : Runtime).

(** [str(v)], as an f-string placeholder formats [v]. *)
Definition py_str (v : value) : string :=
  match v with
  | VNone => "None"
  | VBool true => "True"
  | VBool false => "False"
  | VInt n => pretty n
  | VStr s => s
  | VList _ | VDict _ => py_repr rt v
  end.

(** [await provider.generate_response(...)]: the call is logged and the
    provider answers. *)
Definition provider_generate_response (c : Call) : M string :=
  fun s => (generate_response rt (calls s) c,
            mkState (shared_context s) (calls s ++ [c])%list
                    (clock_after rt (calls s) c (clock s))).

(** [await co]: the coroutine runs to its end with nothing else running
    in between, each of its calls answered as soon as it is issued. *)
Fixpoint await {A} (co : coroutine A) : M A :=
  match co with
  | Finished outcome => lift outcome
  | Awaiting c resume =>
      fun s => let '(answer, s') := provider_generate_response c s in
               await (resume answer) s'
  end.

(** ** Prompt builders ([specialized_agents.py]) *)

(** Build architecture-focused context *)
Definition _build_architecture_context (prompt files : value) : result string :=
  result_bind (if truthy files then str_join ", " files else Ok "None provided") (fun files_listing =>
  Ok ("
🏗️ SYSTEM ARCHITECTURE ANALYSIS

**Task:** " +:+
      py_str prompt +:+
      "

**Context:** Analyze the provided files and design system architecture.

**Requirements:**
- Focus on scalability, maintainability, and performance
- Consider security implications
- Provide clear technical recommendations
- Use architectural patterns where appropriate

**Files to analyze:** " +:+
      files_listing +:+
      "

**Output Format:**
1. Architecture Overview
2. Component Design
3. Data Flow
4. Technology Recommendations
5. Implementation Phases

Please provide a comprehensive architecture analysis.
")).

(** Build implementation-focused context *)
Definition _build_implementation_context (prompt files : value) : result string :=
  result_bind (if truthy files then str_join ", " files else Ok "None provided") (fun files_listing =>
  Ok ("
💻 IMPLEMENTATION TASK

**Task:** " +:+
      py_str prompt +:+
      "

**Context:** Implement the specified feature or fix.

**Requirements:**
- Follow existing code patterns
- Maintain code quality standards
- Include necessary error handling
- Add appropriate comments

**Files to reference:** " +:+
      files_listing +:+
      "

**Output Format:**
- Code implementation
- Explanation of approach
- Any assumptions made
- Testing recommendations

Please provide the implementation.
")).

(** Build optimization-focused context *)
Definition _build_optimization_context (prompt files : value) : result string :=
  result_bind (if truthy files then str_join ", " files else Ok "None provided") (fun files_listing =>
  Ok ("
⚡ PERFORMANCE OPTIMIZATION ANALYSIS

**Task:** " +:+
      py_str prompt +:+
      "

**Context:** Analyze performance issues and provide optimization recommendations.

**Requirements:**
- Identify bottlenecks and inefficiencies
- Suggest specific improvements
- Consider memory usage, CPU usage, and I/O
- Provide measurable optimization targets

**Files to analyze:** " +:+
      files_listing +:+
      "

**Output Format:**
1. Performance Issues Identified
2. Optimization Recommendations
3. Expected Performance Gains
4. Implementation Priority

Please provide detailed optimization analysis.
")).

(** Build content-focused context *)
Definition _build_content_context (prompt files : value) : result string :=
  result_bind (if truthy files then str_join ", " files else Ok "None provided") (fun files_listing =>
  Ok ("
📝 CONTENT GENERATION

**Task:** " +:+
      py_str prompt +:+
      "

**Context:** Create engaging, well-structured content.

**Requirements:**
- Use clear, professional language
- Structure content logically
- Include relevant examples where appropriate
- Maintain consistent tone and style

**Reference materials:** " +:+
      files_listing +:+
      "

**Output Format:**
- Well-structured content
- Clear explanations
- Appropriate formatting
- Actionable insights

Please generate the requested content.
")).

(** Build consensus-focused context *)
Definition _build_consensus_context (prompt files models : value) : result string :=
  result_bind (str_join ", " models) (fun models_joined =>
  result_bind (if truthy files then str_join ", " files else Ok "None provided") (fun files_listing =>
  Ok ("
🤝 MULTI-MODEL CONSENSUS ANALYSIS

**Task:** " +:+
      py_str prompt +:+
      "

**Models participating:** " +:+
      models_joined +:+
      "

**Context:** Multiple AI models will analyze this task from different perspectives.

**Requirements:**
- Each model provides unique insights
- Models should challenge and build on each other's ideas
- Focus on comprehensive analysis
- Reach consensus on key recommendations

**Files to analyze:** " +:+
      files_listing +:+
      "

**Output Format:**
1. Model 1 Analysis
2. Model 2 Analysis  
3. Model 3 Analysis
4. Consensus Recommendations
5. Action Items

Please provide comprehensive consensus analysis.
"))).

(** Build puzzle generation context *)
Definition _build_puzzle_generation_context (prompt theme difficulty variation_count : value) : result string :=
  Ok ("
🧩 PROCEDURAL PUZZLE GENERATION

**Theme:** " +:+
      py_str theme +:+
      "
**Difficulty:** " +:+
      py_str difficulty +:+
      "
**Variations:** " +:+
      py_str variation_count +:+
      "

**Task:** " +:+
      py_str prompt +:+
      "

**Context:** Generate multiple puzzle variations for a horror-themed game.

**Requirements:**
- Each variation should be unique but thematically consistent
- Maintain appropriate difficulty level
- Include clear solution paths
- Support replayability

**Output Format:**
For each variation:
1. Puzzle Description
2. Solution Logic
3. Difficulty Assessment
4. Replay Value

Please generate " +:+
      py_str variation_count +:+
      " puzzle variations.
").

(** Build dynamic difficulty context *)
Definition _build_difficulty_context (player_data current_difficulty metrics : value) : result string :=
  Ok ("
🎯 DYNAMIC DIFFICULTY ADJUSTMENT

**Current Difficulty:** " +:+
      py_str current_difficulty +:+
      "
**Player Performance:** " +:+
      json_dumps rt player_data +:+
      "
**Metrics:** " +:+
      json_dumps rt metrics +:+
      "

**Context:** Analyze player performance and suggest difficulty adjustments.

**Requirements:**
- Consider player skill progression
- Balance challenge vs frustration
- Maintain engagement
- Provide specific adjustment recommendations

**Output Format:**
1. Performance Analysis
2. Difficulty Assessment
3. Adjustment Recommendations
4. Implementation Strategy

Please provide difficulty adjustment recommendations.
").

(** Build narrative content context *)
Definition _build_narrative_context (story_prompt theme tone length : value) : result string :=
  Ok ("
📖 HORROR NARRATIVE GENERATION

**Theme:** " +:+
      py_str theme +:+
      "
**Tone:** " +:+
      py_str tone +:+
      "
**Length:** " +:+
      py_str length +:+
      "

**Task:** " +:+
      py_str story_prompt +:+
      "

**Context:** Create engaging horror narrative content for VHS aesthetic game.

**Requirements:**
- Maintain consistent horror atmosphere
- Use appropriate VHS-era references
- Build tension and suspense
- Support multiple narrative paths

**Output Format:**
- Narrative text
- Scene descriptions
- Character development
- Plot progression

Please generate compelling horror narrative content.
").

(** Build asset optimization context *)
Definition _build_asset_context (asset_paths target_size requirements : value) : result string :=
  result_bind (str_join ", " asset_paths) (fun asset_paths_joined =>
  Ok ("
🎨 VHS ASSET OPTIMIZATION

**Assets:** " +:+
      asset_paths_joined +:+
      "
**Target Size:** " +:+
      py_str target_size +:+
      "
**Requirements:** " +:+
      json_dumps rt requirements +:+
      "

**Context:** Optimize assets for VHS aesthetic while maintaining performance.

**Requirements:**
- Preserve VHS aesthetic qualities
- Optimize for target file size
- Maintain visual quality
- Consider loading performance

**Output Format:**
1. Current Asset Analysis
2. Optimization Recommendations
3. Expected Results
4. Implementation Steps

Please provide detailed asset optimization analysis.
")).

(** ** Model execution and the consensus workflow *)

(** Execute the task with the specified model *)
Definition _execute_with_model (model : value) (context : string)
    (thinking_mode : value) : M string :=
  try_except
    (if negb (get_provider_for_model rt model)
     then raise (ToolExecutionError ("Model " +:+ py_str model +:+ " not available"))
     else provider_generate_response (mkCall context model thinking_mode))
    (fun e => raise (ToolExecutionError
       ("Failed to execute with model " +:+ py_str model +:+ ": " +:+ str_exn e))).

(** Analyze responses from multiple models to find consensus *)
Fixpoint consensus_sections (responses : list (value * string)) : result string :=
  match responses with
  | [] => Ok ""
  | (VStr model, response) :: rest =>
      result_bind (consensus_sections rest) (fun sections =>
      Ok ("### " +:+ str_upper rt model +:+ " Analysis:
" +:+ response +:+ "

" +:+ sections))
  | (v, _) :: _ =>
      Raise (AttributeError ("'" +:+ type_name v +:+ "' object has no attribute 'upper'"))
  end.

Definition _analyze_consensus (responses : list (value * string)) : M string :=
  do sections <- lift (consensus_sections responses);
  ret ("## CONSENSUS ANALYSIS

" +:+ sections +:+ "## SYNTHESIS AND RECOMMENDATIONS

" +:+ "Based on the multiple model analyses, here are the key consensus points:

" +:+ "1. **Common Recommendations**
" +:+ "2. **Areas of Agreement**
" +:+ "3. **Divergent Opinions**
" +:+ "4. **Final Recommendations**

").

(** The [for model in models] loop of [_execute_consensus_workflow];
    [models] is the whole list, [todo] what is left of it. *)
Fixpoint consensus_responses (prompt files models thinking_mode : value)
    (todo : list value) : M (list (value * string)) :=
  match todo with
  | [] => ret []
  | model :: todo' =>
      if get_provider_for_model rt model then
        do context <- lift (_build_consensus_context prompt files models);
        do response <- provider_generate_response (mkCall context model thinking_mode);
        do responses <- consensus_responses prompt files models thinking_mode todo';
        ret ((model, response) :: responses)
      else consensus_responses prompt files models thinking_mode todo'
  end.

(** The items a [for] loop over [v] visits. *)
Definition iterate (v : value) : result (list value) :=
  match v with
  | VList l => Ok l
  | VStr s => Ok (VStr <$> chars s)
  | VDict d => Ok (VStr <$> d.*1)
  | _ => Raise (TypeError ("'" +:+ type_name v +:+ "' object is not iterable"))
  end.

(** Execute consensus workflow with multiple models *)
Definition _execute_consensus_workflow (prompt files models thinking_mode : value)
    : M string :=
  try_except
    (do todo <- lift (iterate models);
     do responses <- consensus_responses prompt files models thinking_mode todo;
     _analyze_consensus responses)
    (fun e => raise (ToolExecutionError ("Consensus workflow failed: " +:+ str_exn e))).

(** ** The specialized agents *)

Inductive agent : Type :=
  | ArchitectureAgent
  | ImplementationAgent
  | OptimizationAgent
  | ContentAgent
  | ConsensusAgent
  | ProceduralPuzzleAgent
  | DynamicDifficultyAgent
  | NarrativeAgent
  | AssetOptimizationAgent.

Definition preferred_model (a : agent) : string :=
  match a with
  | ArchitectureAgent => "gemini-pro"
  | ImplementationAgent => "gemini-flash"
  | OptimizationAgent => "ollama"
  | ContentAgent => "claude-haiku"
  | ConsensusAgent => "consensus"
  | ProceduralPuzzleAgent => "gemini-pro"
  | DynamicDifficultyAgent => "gemini-pro"
  | NarrativeAgent => "claude-haiku"
  | AssetOptimizationAgent => "ollama"
  end.

Definition thinking_mode (a : agent) : string :=
  match a with
  | ArchitectureAgent => "high"
  | ImplementationAgent => "medium"
  | OptimizationAgent => "medium"
  | ContentAgent => "medium"
  | ConsensusAgent => "high"
  | ProceduralPuzzleAgent => "high"
  | DynamicDifficultyAgent => "medium"
  | NarrativeAgent => "high"
  | AssetOptimizationAgent => "medium"
  end.

(** Execute architecture planning with gemini-pro *)
Definition ArchitectureAgent_execute (arguments : dict) : M string :=
  do prompt <- lift (dict_item arguments "prompt");
  let files := dict_get arguments "files" (VList []) in
  let model := dict_get arguments "model" (VStr (preferred_model ArchitectureAgent)) in
  let thinking := dict_get arguments "thinking_mode" (VStr (thinking_mode ArchitectureAgent)) in
  do context <- lift (_build_architecture_context prompt files);
  _execute_with_model model context thinking.

(** Execute implementation tasks with gemini-flash *)
Definition ImplementationAgent_execute (arguments : dict) : M string :=
  do prompt <- lift (dict_item arguments "prompt");
  let files := dict_get arguments "files" (VList []) in
  let model := dict_get arguments "model" (VStr (preferred_model ImplementationAgent)) in
  let thinking := dict_get arguments "thinking_mode" (VStr (thinking_mode ImplementationAgent)) in
  do context <- lift (_build_implementation_context prompt files);
  _execute_with_model model context thinking.

(** Execute optimization analysis with local models *)
Definition OptimizationAgent_execute (arguments : dict) : M string :=
  do prompt <- lift (dict_item arguments "prompt");
  let files := dict_get arguments "files" (VList []) in
  let model := dict_get arguments "model" (VStr (preferred_model OptimizationAgent)) in
  let thinking := dict_get arguments "thinking_mode" (VStr (thinking_mode OptimizationAgent)) in
  do context <- lift (_build_optimization_context prompt files);
  _execute_with_model model context thinking.

(** Execute content generation with claude-haiku *)
Definition ContentAgent_execute (arguments : dict) : M string :=
  do prompt <- lift (dict_item arguments "prompt");
  let files := dict_get arguments "files" (VList []) in
  let model := dict_get arguments "model" (VStr (preferred_model ContentAgent)) in
  let thinking := dict_get arguments "thinking_mode" (VStr (thinking_mode ContentAgent)) in
  do context <- lift (_build_content_context prompt files);
  _execute_with_model model context thinking.

(** Execute consensus analysis with multiple models *)
Definition ConsensusAgent_execute (arguments : dict) : M string :=
  do prompt <- lift (dict_item arguments "prompt");
  let files := dict_get arguments "files" (VList []) in
  let models := dict_get arguments "models"
                  (VList [VStr "gemini-pro"; VStr "gpt-5"; VStr "claude-haiku"]) in
  let thinking := dict_get arguments "thinking_mode" (VStr (thinking_mode ConsensusAgent)) in
  _execute_consensus_workflow prompt files models thinking.

(** Execute procedural puzzle generation *)
Definition ProceduralPuzzleAgent_execute (arguments : dict) : M string :=
  do prompt <- lift (dict_item arguments "prompt");
  let theme := dict_get arguments "theme" (VStr "horror") in
  let difficulty := dict_get arguments "difficulty" (VStr "medium") in
  let variation_count := dict_get arguments "variations" (VInt 3) in
  do context <- lift (_build_puzzle_generation_context prompt theme difficulty variation_count);
  _execute_with_model (VStr (preferred_model ProceduralPuzzleAgent)) context
                      (VStr (thinking_mode ProceduralPuzzleAgent)).

(** Execute dynamic difficulty analysis *)
Definition DynamicDifficultyAgent_execute (arguments : dict) : M string :=
  do player_data <- lift (dict_item arguments "player_data");
  let current_difficulty := dict_get arguments "current_difficulty" (VStr "medium") in
  let performance_metrics := dict_get arguments "metrics" (VDict []) in
  do context <- lift (_build_difficulty_context player_data current_difficulty performance_metrics);
  _execute_with_model (VStr (preferred_model DynamicDifficultyAgent)) context
                      (VStr (thinking_mode DynamicDifficultyAgent)).

(** Execute narrative content generation *)
Definition NarrativeAgent_execute (arguments : dict) : M string :=
  do story_prompt <- lift (dict_item arguments "prompt");
  let theme := dict_get arguments "theme" (VStr "slasher") in
  let tone := dict_get arguments "tone" (VStr "creepy") in
  let length := dict_get arguments "length" (VStr "medium") in
  do context <- lift (_build_narrative_context story_prompt theme tone length);
  _execute_with_model (VStr (preferred_model NarrativeAgent)) context
                      (VStr (thinking_mode NarrativeAgent)).

(** Execute asset optimization *)
Definition AssetOptimizationAgent_execute (arguments : dict) : M string :=
  do asset_paths <- lift (dict_item arguments "assets");
  let target_size := dict_get arguments "target_size" (VStr "512KB") in
  let aesthetic_requirements := dict_get arguments "requirements" (VDict []) in
  do context <- lift (_build_asset_context asset_paths target_size aesthetic_requirements);
  _execute_with_model (VStr (preferred_model AssetOptimizationAgent)) context
                      (VStr (thinking_mode AssetOptimizationAgent)).

(** [(await agent.execute(arguments))[0].text] *)
Definition agent_execute (a : agent) : dict -> M string :=
  match a with
  | ArchitectureAgent => ArchitectureAgent_execute
  | ImplementationAgent => ImplementationAgent_execute
  | OptimizationAgent => OptimizationAgent_execute
  | ContentAgent => ContentAgent_execute
  | ConsensusAgent => ConsensusAgent_execute
  | ProceduralPuzzleAgent => ProceduralPuzzleAgent_execute
  | DynamicDifficultyAgent => DynamicDifficultyAgent_execute
  | NarrativeAgent => NarrativeAgent_execute
  | AssetOptimizationAgent => AssetOptimizationAgent_execute
  end.

(** ** The orchestrator ([multi_model_workflow.py]) *)

(** [self.agents] *)
Definition agents : gmap string agent :=
  list_to_map [
    ("architecture", ArchitectureAgent);
    ("implementation", ImplementationAgent);
    ("optimization", OptimizationAgent);
    ("content", ContentAgent);
    ("consensus", ConsensusAgent);
    ("procedural_puzzle", ProceduralPuzzleAgent);
    ("dynamic_difficulty", DynamicDifficultyAgent);
    ("narrative", NarrativeAgent);
    ("asset_optimization", AssetOptimizationAgent)
  ].

(** [self.agents[name]] *)
Definition agents_item (name : string) : M agent :=
  match agents !! name with
  | Some a => ret a
  | None => raise (KeyError name)
  end.

(** The base table of [_select_model]. *)
Definition model_map : gmap string string :=
  list_to_map [
    ("architecture", "gemini-pro");
    ("implementation", "gemini-flash");
    ("optimization", "ollama");
    ("content", "claude-haiku");
    ("procedural_puzzle", "gemini-pro");
    ("dynamic_difficulty", "gemini-pro");
    ("narrative", "claude-haiku");
    ("asset_optimization", "ollama")
  ].

(** Select optimal model based on agent type and strategy *)
Definition _select_model (agent_type strategy : string) : string :=
  let base_model := default "gemini-flash" (model_map !! agent_type) in
  if bool_decide (strategy = "cost_optimized") then
    if bool_decide (base_model = "gemini-pro") then "gemini-flash"
    else if bool_decide (base_model = "claude-haiku") then "gemini-flash"
    else base_model
  else if bool_decide (strategy = "performance_optimized") then
    if bool_decide (base_model = "gemini-flash") then "gemini-pro"
    else if bool_decide (base_model = "ollama") then "gemini-pro"
    else base_model
  else if bool_decide (strategy = "balanced") then
    if bool_decide (base_model = "gemini-pro") then "gemini-flash"
    else if bool_decide (base_model = "ollama") then "gemini-flash"
    else base_model
  else base_model.

(** [n] written with at least [width] digits, zero-padded. *)
Definition zero_pad (width n : nat) : string :=
  let digits := pretty n in
  String.concat "" (replicate (width - String.length digits) "0") +:+ digits.

(** [d.strftime("%Y-%m-%d %H:%M:%S")] *)
Definition strftime (d : datetime) : string :=
  zero_pad 4 (year d) +:+ "-" +:+ zero_pad 2 (month d) +:+ "-" +:+ zero_pad 2 (day d)
  +:+ " " +:+ zero_pad 2 (hour d) +:+ ":" +:+ zero_pad 2 (minute d) +:+ ":"
  +:+ zero_pad 2 (second d).

(** Get current timestamp for reports *)
Definition _get_timestamp : M string :=
  fun s => (Ok (strftime (clock s)), s).

Definition nl : string := String (ascii_of_nat 10) EmptyString.

(** The [for i, (step_name, step_result) in enumerate(steps, i)] loop of
    the report. *)
Fixpoint report_steps (i : nat) (steps : list (value * string)) : string :=
  match steps with
  | [] => ""
  | (step_name, step_result) :: rest =>
      "## Step " +:+ pretty i +:+ ": " +:+ py_str step_name +:+ nl +:+ nl
      +:+ step_result +:+ nl +:+ nl
      +:+ "---" +:+ nl +:+ nl
      +:+ report_steps (S i) rest
  end.

(** Generate comprehensive workflow report *)
Definition _generate_workflow_report (workflow_name : string)
    (steps : list (value * string)) : M string :=
  do timestamp <- _get_timestamp;
  ret ("# " +:+ workflow_name +:+ " Workflow Report" +:+ nl +:+ nl
       +:+ "**Generated:** " +:+ timestamp +:+ nl
       +:+ "**Total Steps:** " +:+ pretty (length steps) +:+ nl +:+ nl
       +:+ report_steps 1 steps
       +:+ "## Workflow Summary" +:+ nl +:+ nl
       +:+ "- **Workflow Type:** " +:+ workflow_name +:+ nl
       +:+ "- **Steps Completed:** " +:+ pretty (length steps) +:+ nl
       +:+ "- **Status:** Completed Successfully" +:+ nl +:+ nl
       +:+ "## Recommendations" +:+ nl +:+ nl
       +:+ "1. Review each step's output for quality and completeness" +:+ nl
       +:+ "2. Implement recommendations in order of priority" +:+ nl
       +:+ "3. Test changes thoroughly before deployment" +:+ nl
       +:+ "4. Monitor performance and user feedback" +:+ nl +:+ nl).

(** *** Reading the shared context

    Every function below receives the run's [context] by reference; the
    mapping itself lives in the state. *)

(** [context.get(key, default)] *)
Definition context_get (key : string) (default : value) : M value :=
  fun s => (Ok (dict_get (shared_context s) key default), s).

(** [key in context] *)
Definition context_contains (key : string) : M bool :=
  fun s => (Ok (bool_decide (is_Some (shared_context s !! key))), s).

(** [task.get("type") == ty] *)
Definition has_type (ty : string) (task : dict) : bool :=
  eq_str (dict_get task "type" VNone) ty.

(** [next(task for task in tasks if task.get("type") == ty)]; the
    [StopIteration] of an exhausted generator leaves the enclosing
    coroutine as a [RuntimeError]. *)
Definition next_task (tasks : list dict) (ty : string) : M dict :=
  match List.find (has_type ty) tasks with
  | Some task => ret task
  | None => raise (RuntimeError "coroutine raised StopIteration")
  end.

(** *** Steps of the game development workflow *)

(** Execute architecture planning step *)
Definition _execute_architecture_step (tasks : list dict) (model_strategy : string)
    : M string :=
  do arch_task <- next_task tasks "architecture";
  do agent <- agents_item "architecture";
  do prompt <- lift (dict_item arch_task "prompt");
  agent_execute agent (list_to_map [
    ("prompt", prompt);
    ("files", dict_get arch_task "files" (VList []));
    ("model", VStr (_select_model "architecture" model_strategy));
    ("thinking_mode", VStr "high")]).

(** The [for task in impl_tasks] loop of the implementation step. *)
Fixpoint implementation_results (impl_tasks : list dict) (model_strategy : string)
    : M (list string) :=
  match impl_tasks with
  | [] => ret []
  | task :: rest =>
      do agent <- agents_item "implementation";
      do prompt <- lift (dict_item task "prompt");
      do result <- agent_execute agent (list_to_map [
        ("prompt", prompt);
        ("files", dict_get task "files" (VList []));
        ("model", VStr (_select_model "implementation" model_strategy));
        ("thinking_mode", VStr "medium")]);
      do results <- implementation_results rest model_strategy;
      ret (result :: results)
  end.

(** Execute implementation step *)
Definition _execute_implementation_step (tasks : list dict) (model_strategy : string)
    : M string :=
  let impl_tasks := List.filter (has_type "implementation") tasks in
  do results <- implementation_results impl_tasks model_strategy;
  ret (String.concat (nl +:+ nl) results).

(** Execute content creation step *)
Definition _execute_content_step (tasks : list dict) (model_strategy : string)
    : M string :=
  do content_task <- next_task tasks "content";
  do agent <- agents_item "content";
  do prompt <- lift (dict_item content_task "prompt");
  agent_execute agent (list_to_map [
    ("prompt", prompt);
    ("files", dict_get content_task "files" (VList []));
    ("model", VStr (_select_model "content" model_strategy));
    ("thinking_mode", VStr "medium")]).

(** Execute optimization step *)
Definition _execute_optimization_step (tasks : list dict) (model_strategy : string)
    : M string :=
  do opt_task <- next_task tasks "optimization";
  do agent <- agents_item "optimization";
  do prompt <- lift (dict_item opt_task "prompt");
  agent_execute agent (list_to_map [
    ("prompt", prompt);
    ("files", dict_get opt_task "files" (VList []));
    ("model", VStr (_select_model "optimization" model_strategy));
    ("thinking_mode", VStr "medium")]).

(** *** Steps of the puzzle generation workflow *)

(** Analyze puzzle theme and requirements *)
Definition _analyze_puzzle_theme (tasks : list dict) : M string :=
  do theme_task <- next_task tasks "theme_analysis";
  do agent <- agents_item "content";
  do prompt <- lift (dict_item theme_task "prompt");
  agent_execute agent (list_to_map [
    ("prompt", prompt);
    ("model", VStr "claude-haiku");
    ("thinking_mode", VStr "medium")]).

(** Generate procedural puzzle variations *)
Definition _generate_puzzle_variations (tasks : list dict) (model_strategy : string)
    : M string :=
  do gen_task <- next_task tasks "procedural_generation";
  do agent <- agents_item "procedural_puzzle";
  do prompt <- lift (dict_item gen_task "prompt");
  do theme <- context_get "theme" (VStr "horror");
  do difficulty <- context_get "difficulty" (VStr "medium");
  do variations <- context_get "variations" (VInt 3);
  agent_execute agent (list_to_map [
    ("prompt", prompt);
    ("theme", theme);
    ("difficulty", difficulty);
    ("variations", variations);
    ("model", VStr (_select_model "procedural_puzzle" model_strategy));
    ("thinking_mode", VStr "high")]).

(** Balance puzzle difficulty dynamically *)
Definition _balance_difficulty (tasks : list dict) (model_strategy : string)
    : M string :=
  do diff_task <- next_task tasks "difficulty_balancing";
  do agent <- agents_item "dynamic_difficulty";
  do player_data <- context_get "player_data" (VDict []);
  do current_difficulty <- context_get "current_difficulty" (VStr "medium");
  do metrics <- context_get "metrics" (VDict []);
  agent_execute agent (list_to_map [
    ("player_data", player_data);
    ("current_difficulty", current_difficulty);
    ("metrics", metrics);
    ("model", VStr (_select_model "dynamic_difficulty" model_strategy));
    ("thinking_mode", VStr "medium")]).

(** Integrate narrative elements with puzzles *)
Definition _integrate_narrative (tasks : list dict) (model_strategy : string)
    : M string :=
  do narrative_task <- next_task tasks "narrative_integration";
  do agent <- agents_item "narrative";
  do prompt <- lift (dict_item narrative_task "prompt");
  do theme <- context_get "theme" (VStr "slasher");
  do tone <- context_get "tone" (VStr "creepy");
  do length <- context_get "length" (VStr "medium");
  agent_execute agent (list_to_map [
    ("prompt", prompt);
    ("theme", theme);
    ("tone", tone);
    ("length", length);
    ("model", VStr (_select_model "narrative" model_strategy));
    ("thinking_mode", VStr "high")]).

(** *** Steps of the content creation workflow *)

(** Develop horror story narrative *)
Definition _develop_story (tasks : list dict) (model_strategy : string) : M string :=
  do story_task <- next_task tasks "story_development";
  do agent <- agents_item "narrative";
  do prompt <- lift (dict_item story_task "prompt");
  do theme <- context_get "theme" (VStr "cosmic_horror");
  do tone <- context_get "tone" (VStr "atmospheric");
  do length <- context_get "length" (VStr "long");
  agent_execute agent (list_to_map [
    ("prompt", prompt);
    ("theme", theme);
    ("tone", tone);
    ("length", length);
    ("model", VStr (_select_model "narrative" model_strategy));
    ("thinking_mode", VStr "high")]).

(** Create horror game characters *)
Definition _create_characters (tasks : list dict) (model_strategy : string)
    : M string :=
  do char_task <- next_task tasks "character_creation";
  do agent <- agents_item "content";
  do prompt <- lift (dict_item char_task "prompt");
  agent_execute agent (list_to_map [
    ("prompt", prompt);
    ("model", VStr (_select_model "content" model_strategy));
    ("thinking_mode", VStr "medium")]).

(** Write horror scenes and sequences *)
Definition _write_scenes (tasks : list dict) (model_strategy : string) : M string :=
  do scene_task <- next_task tasks "scene_writing";
  do agent <- agents_item "narrative";
  do prompt <- lift (dict_item scene_task "prompt");
  do theme <- context_get "theme" (VStr "slasher");
  do tone <- context_get "tone" (VStr "tense");
  do length <- context_get "length" (VStr "medium");
  agent_execute agent (list_to_map [
    ("prompt", prompt);
    ("theme", theme);
    ("tone", tone);
    ("length", length);
    ("model", VStr (_select_model "narrative" model_strategy));
    ("thinking_mode", VStr "high")]).

(** Generate VHS aesthetic assets *)
Definition _generate_assets (tasks : list dict) (model_strategy : string) : M string :=
  do asset_task <- next_task tasks "asset_generation";
  do agent <- agents_item "asset_optimization";
  do target_size <- context_get "target_size" (VStr "512KB");
  do requirements <- context_get "requirements" (VDict []);
  agent_execute agent (list_to_map [
    ("assets", dict_get asset_task "assets" (VList []));
    ("target_size", target_size);
    ("requirements", requirements);
    ("model", VStr (_select_model "asset_optimization" model_strategy));
    ("thinking_mode", VStr "medium")]).

(** *** Steps of the optimization workflow *)

(** Analyze performance bottlenecks *)
Definition _analyze_performance (tasks : list dict) (model_strategy : string)
    : M string :=
  do perf_task <- next_task tasks "performance_analysis";
  do agent <- agents_item "optimization";
  do prompt <- lift (dict_item perf_task "prompt");
  agent_execute agent (list_to_map [
    ("prompt", prompt);
    ("files", dict_get perf_task "files" (VList []));
    ("model", VStr (_select_model "optimization" model_strategy));
    ("thinking_mode", VStr "medium")]).

(** Identify performance bottlenecks *)
Definition _identify_bottlenecks (tasks : list dict) (model_strategy : string)
    : M string :=
  do bottleneck_task <- next_task tasks "bottleneck_identification";
  do agent <- agents_item "optimization";
  do prompt <- lift (dict_item bottleneck_task "prompt");
  agent_execute agent (list_to_map [
    ("prompt", prompt);
    ("files", dict_get bottleneck_task "files" (VList []));
    ("model", VStr (_select_model "optimization" model_strategy));
    ("thinking_mode", VStr "medium")]).

(** Generate optimization recommendations *)
Definition _generate_optimizations (tasks : list dict) (model_strategy : string)
    : M string :=
  do opt_task <- next_task tasks "optimization_recommendations";
  do agent <- agents_item "optimization";
  do prompt <- lift (dict_item opt_task "prompt");
  agent_execute agent (list_to_map [
    ("prompt", prompt);
    ("files", dict_get opt_task "files" (VList []));
    ("model", VStr (_select_model "optimization" model_strategy));
    ("thinking_mode", VStr "medium")]).

(** Create optimization implementation plan *)
Definition _create_implementation_plan (tasks : list dict) (model_strategy : string)
    : M string :=
  do plan_task <- next_task tasks "implementation_plan";
  do agent <- agents_item "architecture";
  do prompt <- lift (dict_item plan_task "prompt");
  agent_execute agent (list_to_map [
    ("prompt", prompt);
    ("files", dict_get plan_task "files" (VList []));
    ("model", VStr (_select_model "architecture" model_strategy));
    ("thinking_mode", VStr "high")]).

(** *** The custom workflow *)

(** [agent_name not in self.agents] followed by [self.agents[agent_name]]:
    a string is looked up, a list or a dictionary cannot be hashed, and
    any other key is absent. *)
Definition agents_find (agent_name : value) : result (option (string * agent)) :=
  match agent_name with
  | VStr name => Ok (pair name <$> agents !! name)
  | VList _ | VDict _ =>
      Raise (TypeError ("unhashable type: '" +:+ type_name agent_name +:+ "'"))
  | _ => Ok None
  end.

(** The agent-specific parameters added to [task_args]. *)
Definition agent_specific_args (agent_name : string) (task : dict) (task_args : dict)
    : dict :=
  if bool_decide (agent_name = "procedural_puzzle") then
    <["variations" := dict_get task "variations" (VInt 3)]>
      (<["difficulty" := dict_get task "difficulty" (VStr "medium")]>
         (<["theme" := dict_get task "theme" (VStr "horror")]> task_args))
  else if bool_decide (agent_name = "dynamic_difficulty") then
    <["metrics" := dict_get task "metrics" (VDict [])]>
      (<["current_difficulty" := dict_get task "current_difficulty" (VStr "medium")]>
         (<["player_data" := dict_get task "player_data" (VDict [])]> task_args))
  else if bool_decide (agent_name = "narrative") then
    <["length" := dict_get task "length" (VStr "medium")]>
      (<["tone" := dict_get task "tone" (VStr "creepy")]>
         (<["theme" := dict_get task "theme" (VStr "slasher")]> task_args))
  else if bool_decide (agent_name = "asset_optimization") then
    <["requirements" := dict_get task "requirements" (VDict [])]>
      (<["target_size" := dict_get task "target_size" (VStr "512KB")]>
         (<["assets" := dict_get task "assets" (VList [])]> task_args))
  else task_args.

(** Execute a single task with appropriate agent *)
Definition _execute_single_task (task : dict) (model_strategy : string) : M string :=
  let task_type := dict_get task "type" VNone in
  let agent_name := dict_get task "agent" task_type in
  do found <- lift (agents_find agent_name);
  match found with
  | None => raise (ToolExecutionError ("Unknown agent: " +:+ py_str agent_name))
  | Some (name, agent) =>
      do prompt <- lift (dict_item task "prompt");
      let task_args : dict := list_to_map [
        ("prompt", prompt);
        ("model", VStr (_select_model name model_strategy));
        ("thinking_mode", dict_get task "thinking_mode" (VStr "medium"))] in
      agent_execute agent (agent_specific_args name task task_args)
  end.

End WithRuntime.

(** ** The coroutines of a custom task *)

(** The functions a custom task runs through, as the coroutines that
    [asyncio.gather] schedules: the same bodies, suspended at each
    provider call. *)
Module Coroutine.

Definition ret {A} (a : A) : coroutine A := Finished (Ok a).
Definition raise {A} (e : exn) : coroutine A := Finished (Raise e).
Definition lift {A} (r : result A) : coroutine A := Finished r.

Fixpoint bind {A B} (co : coroutine A) (k : A -> coroutine B) : coroutine B :=
  match co with
  | Finished (Ok a) => k a
  | Finished (Raise e) => Finished (Raise e)
  | Awaiting c resume => Awaiting c (fun answer => bind (resume answer) k)
  end.

(** [try: co except Exception as e: h e] *)
Fixpoint try_except {A} (co : coroutine A) (h : exn -> coroutine A) : coroutine A :=
  match co with
  | Finished (Ok a) => Finished (Ok a)
  | Finished (Raise e) => h e
  | Awaiting c resume => Awaiting c (fun answer => try_except (resume answer) h)
  end.

(** [await provider.generate_response(...)] *)
Definition provider_generate_response (c : Call) : coroutine string :=
  Awaiting c Finished.

Declare Scope coroutine_scope.
Notation "'do' x <- m ; k" := (bind m (fun x => k))
  (at level 10, x name, m at level 100, k at level 200) : coroutine_scope.
Local Open Scope coroutine_scope.

Section WithRuntime.

Context (rt : Runtime).

(** Execute the task with the specified model *)
Definition _execute_with_model (model : value) (context : string)
    (thinking_mode : value) : coroutine string :=
  try_except
    (if negb (get_provider_for_model rt model)
     then raise (ToolExecutionError ("Model " +:+ py_str rt model +:+ " not available"))
     else provider_generate_response (mkCall context model thinking_mode))
    (fun e => raise (ToolExecutionError
       ("Failed to execute with model " +:+ py_str rt model +:+ ": " +:+ str_exn e))).

Definition _analyze_consensus (responses : list (value * string)) : coroutine string :=
  do sections <- lift (consensus_sections rt responses);
  ret ("## CONSENSUS ANALYSIS

" +:+ sections +:+ "## SYNTHESIS AND RECOMMENDATIONS

" +:+ "Based on the multiple model analyses, here are the key consensus points:

" +:+ "1. **Common Recommendations**
" +:+ "2. **Areas of Agreement**
" +:+ "3. **Divergent Opinions**
" +:+ "4. **Final Recommendations**

").

(** The [for model in models] loop of [_execute_consensus_workflow];
    [models] is the whole list, [todo] what is left of it. *)
Fixpoint consensus_responses (prompt files models thinking_mode : value)
    (todo : list value) : coroutine (list (value * string)) :=
  match todo with
  | [] => ret []
  | model :: todo' =>
      if get_provider_for_model rt model then
        do context <- lift (_build_consensus_context rt prompt files models);
        do response <- provider_generate_response (mkCall context model thinking_mode);
        do responses <- consensus_responses prompt files models thinking_mode todo';
        ret ((model, response) :: responses)
      else consensus_responses prompt files models thinking_mode todo'
  end.

(** Execute consensus workflow with multiple models *)
Definition _execute_consensus_workflow (prompt files models thinking_mode : value)
    : coroutine string :=
  try_except
    (do todo <- lift (iterate models);
     do responses <- consensus_responses prompt files models thinking_mode todo;
     _analyze_consensus responses)
    (fun e => raise (ToolExecutionError ("Consensus workflow failed: " +:+ str_exn e))).

(** Execute architecture planning with gemini-pro *)
Definition ArchitectureAgent_execute (arguments : dict) : coroutine string :=
  do prompt <- lift (dict_item arguments "prompt");
  let files := dict_get arguments "files" (VList []) in
  let model := dict_get arguments "model" (VStr (preferred_model ArchitectureAgent)) in
  let thinking := dict_get arguments "thinking_mode" (VStr (thinking_mode ArchitectureAgent)) in
  do context <- lift (_build_architecture_context rt prompt files);
  _execute_with_model model context thinking.

(** Execute implementation tasks with gemini-flash *)
Definition ImplementationAgent_execute (arguments : dict) : coroutine string :=
  do prompt <- lift (dict_item arguments "prompt");
  let files := dict_get arguments "files" (VList []) in
  let model := dict_get arguments "model" (VStr (preferred_model ImplementationAgent)) in
  let thinking := dict_get arguments "thinking_mode" (VStr (thinking_mode ImplementationAgent)) in
  do context <- lift (_build_implementation_context rt prompt files);
  _execute_with_model model context thinking.

(** Execute optimization analysis with local models *)
Definition OptimizationAgent_execute (arguments : dict) : coroutine string :=
  do prompt <- lift (dict_item arguments "prompt");
  let files := dict_get arguments "files" (VList []) in
  let model := dict_get arguments "model" (VStr (preferred_model OptimizationAgent)) in
  let thinking := dict_get arguments "thinking_mode" (VStr (thinking_mode OptimizationAgent)) in
  do context <- lift (_build_optimization_context rt prompt files);
  _execute_with_model model context thinking.

(** Execute content generation with claude-haiku *)
Definition ContentAgent_execute (arguments : dict) : coroutine string :=
  do prompt <- lift (dict_item arguments "prompt");
  let files := dict_get arguments "files" (VList []) in
  let model := dict_get arguments "model" (VStr (preferred_model ContentAgent)) in
  let thinking := dict_get arguments "thinking_mode" (VStr (thinking_mode ContentAgent)) in
  do context <- lift (_build_content_context rt prompt files);
  _execute_with_model model context thinking.

(** Execute consensus analysis with multiple models *)
Definition ConsensusAgent_execute (arguments : dict) : coroutine string :=
  do prompt <- lift (dict_item arguments "prompt");
  let files := dict_get arguments "files" (VList []) in
  let models := dict_get arguments "models"
                  (VList [VStr "gemini-pro"; VStr "gpt-5"; VStr "claude-haiku"]) in
  let thinking := dict_get arguments "thinking_mode" (VStr (thinking_mode ConsensusAgent)) in
  _execute_consensus_workflow prompt files models thinking.

(** Execute procedural puzzle generation *)
Definition ProceduralPuzzleAgent_execute (arguments : dict) : coroutine string :=
  do prompt <- lift (dict_item arguments "prompt");
  let theme := dict_get arguments "theme" (VStr "horror") in
  let difficulty := dict_get arguments "difficulty" (VStr "medium") in
  let variation_count := dict_get arguments "variations" (VInt 3) in
  do context <- lift (_build_puzzle_generation_context rt prompt theme difficulty
                        variation_count);
  _execute_with_model (VStr (preferred_model ProceduralPuzzleAgent)) context
                      (VStr (thinking_mode ProceduralPuzzleAgent)).

(** Execute dynamic difficulty analysis *)
Definition DynamicDifficultyAgent_execute (arguments : dict) : coroutine string :=
  do player_data <- lift (dict_item arguments "player_data");
  let current_difficulty := dict_get arguments "current_difficulty" (VStr "medium") in
  let performance_metrics := dict_get arguments "metrics" (VDict []) in
  do context <- lift (_build_difficulty_context rt player_data current_difficulty
                        performance_metrics);
  _execute_with_model (VStr (preferred_model DynamicDifficultyAgent)) context
                      (VStr (thinking_mode DynamicDifficultyAgent)).

(** Execute narrative content generation *)
Definition NarrativeAgent_execute (arguments : dict) : coroutine string :=
  do story_prompt <- lift (dict_item arguments "prompt");
  let theme := dict_get arguments "theme" (VStr "slasher") in
  let tone := dict_get arguments "tone" (VStr "creepy") in
  let length := dict_get arguments "length" (VStr "medium") in
  do context <- lift (_build_narrative_context rt story_prompt theme tone length);
  _execute_with_model (VStr (preferred_model NarrativeAgent)) context
                      (VStr (thinking_mode NarrativeAgent)).

(** Execute asset optimization *)
Definition AssetOptimizationAgent_execute (arguments : dict) : coroutine string :=
  do asset_paths <- lift (dict_item arguments "assets");
  let target_size := dict_get arguments "target_size" (VStr "512KB") in
  let aesthetic_requirements := dict_get arguments "requirements" (VDict []) in
  do context <- lift (_build_asset_context rt asset_paths target_size
                        aesthetic_requirements);
  _execute_with_model (VStr (preferred_model AssetOptimizationAgent)) context
                      (VStr (thinking_mode AssetOptimizationAgent)).

(** [(await agent.execute(arguments))[0].text] *)
Definition agent_execute (a : agent) : dict -> coroutine string :=
  match a with
  | ArchitectureAgent => ArchitectureAgent_execute
  | ImplementationAgent => ImplementationAgent_execute
  | OptimizationAgent => OptimizationAgent_execute
  | ContentAgent => ContentAgent_execute
  | ConsensusAgent => ConsensusAgent_execute
  | ProceduralPuzzleAgent => ProceduralPuzzleAgent_execute
  | DynamicDifficultyAgent => DynamicDifficultyAgent_execute
  | NarrativeAgent => NarrativeAgent_execute
  | AssetOptimizationAgent => AssetOptimizationAgent_execute
  end.

(** Execute a single task with appropriate agent *)
Definition _execute_single_task (task : dict) (model_strategy : string)
    : coroutine string :=
  let task_type := dict_get task "type" VNone in
  let agent_name := dict_get task "agent" task_type in
  do found <- lift (agents_find agent_name);
  match found with
  | None => raise (ToolExecutionError ("Unknown agent: " +:+ py_str rt agent_name))
  | Some (name, agent) =>
      do prompt <- lift (dict_item task "prompt");
      let task_args : dict := list_to_map [
        ("prompt", prompt);
        ("model", VStr (_select_model name model_strategy));
        ("thinking_mode", dict_get task "thinking_mode" (VStr "medium"))] in
      agent_execute agent (agent_specific_args name task task_args)
  end.

End WithRuntime.

End Coroutine.

(** ** The event loop under [asyncio.gather] *)

(** A gathered coroutine suspended at a provider call: its position
    among the gathered coroutines, the calls issued before its pending
    call, that call, and how it resumes. *)
Record Suspended (A : Type) : Type := mkSuspended {
  position : nat;
  issued_before : list Call;
  pending_call : Call;
  resume_with : result string -> coroutine A
}.
Arguments mkSuspended {A} position issued_before pending_call resume_with.
Arguments position {A} _.
Arguments issued_before {A} _.
Arguments pending_call {A} _.
Arguments resume_with {A} _ _.

(** The outcome held by a slot.  The slots are read once every
    coroutine has finished, so the empty case is never reached (see
    [gather_spec]). *)
Definition slot_outcome {A} (slot : option (result A)) : result A :=
  match slot with
  | Some outcome => outcome
  | None => Raise (RuntimeError "coroutine not completed")
  end.

(** ** The orchestrator, continued *)

Section Workflows.

Context (rt : Runtime).

(** The event loop runs the coroutine at position [i] until it
    finishes, which fills its slot of the result list, or until a
    provider call of it yields to the event loop, which leaves the
    coroutine suspended with the call issued; a call that does not
    yield is answered on the spot. *)
Fixpoint run_until_suspended {A} (i : nat) (co : coroutine A)
    (pending : list (Suspended A)) (slots : list (option (result A))) (s : State)
    : list (Suspended A) * list (option (result A)) * State :=
  match co with
  | Finished outcome => (pending, <[i := Some outcome]> slots, s)
  | Awaiting c resume =>
      if suspends rt (calls s) c then
        ((pending ++ [mkSuspended i (calls s) c resume])%list, slots,
         mkState (shared_context s) (calls s ++ [c])%list (clock s))
      else
        let '(answer, s') := provider_generate_response rt c s in
        run_until_suspended i (resume answer) pending slots s'
  end.

(** The gathered coroutines are started in argument order, from
    position [i] on. *)
Fixpoint start_all {A} (i : nat) (coros : list (coroutine A))
    (pending : list (Suspended A)) (slots : list (option (result A))) (s : State)
    : list (Suspended A) * list (option (result A)) * State :=
  match coros with
  | [] => (pending, slots, s)
  | co :: rest =>
      let '(pending', slots', s') := run_until_suspended i co pending slots s in
      start_all (S i) rest pending' slots' s'
  end.

(** The provider's answer to the pending call of [p] arrives. *)
Definition answer_arrives {A} (p : Suspended A) (s : State) : result string * State :=
  (generate_response rt (issued_before p) (pending_call p),
   mkState (shared_context s) (calls s)
           (clock_after rt (issued_before p) (pending_call p) (clock s))).

(** Once the completion order is used up, the suspended coroutines are
    completed one after the other. *)
Fixpoint complete_all {A} (pending : list (Suspended A))
    (slots : list (option (result A))) (s : State)
    : list (option (result A)) * State :=
  match pending with
  | [] => (slots, s)
  | p :: rest =>
      let '(answer, s1) := answer_arrives p s in
      let '(outcome, s2) := await rt (resume_with p answer) s1 in
      complete_all rest (<[position p := Some outcome]> slots) s2
  end.

(** The turns of the event loop once every coroutine has started: at
    each turn the head of [order] picks the suspended coroutine whose
    answer arrives; the coroutine resumes and runs until it finishes or
    is suspended again. *)
Fixpoint event_loop {A} (order : list nat) (pending : list (Suspended A))
    (slots : list (option (result A))) (s : State)
    : list (option (result A)) * State :=
  match order with
  | [] => complete_all pending slots s
  | k :: order' =>
      match pending !! (k `mod` length pending) with
      | Some p =>
          let '(answer, s1) := answer_arrives p s in
          let '(pending', slots', s2) :=
            run_until_suspended (position p) (resume_with p answer)
              (delete (k `mod` length pending) pending) slots s1 in
          event_loop order' pending' slots' s2
      | None => (slots, s)
      end
  end.

(** [await asyncio.gather] over [coros], with [return_exceptions=True] *)
Definition gather {A} (coros : list (coroutine A)) : M (list (result A)) :=
  fun s =>
    let '(pending, slots, s1) :=
      start_all 0 coros [] (replicate (length coros) None) s in
    let '(slots', s2) := event_loop (completion_order rt) pending slots s1 in
    (Ok (slot_outcome <$> slots'), s2).

(** [tasks[i]] *)
Definition list_item {A} (l : list A) (i : nat) : result A :=
  match l !! i with
  | Some x => Ok x
  | None => Raise (IndexError "list index out of range")
  end.

(** The [for i, result in enumerate(results)] loop of the parallel
    branch, from index [i] on. *)
Fixpoint parallel_steps (tasks : list dict) (i : nat) (results : list (result string))
    : M (list (value * string)) :=
  match results with
  | [] => ret []
  | result :: rest =>
      do task <- lift (list_item tasks i);
      let name := dict_get task "name" (VStr ("Task " +:+ pretty (i + 1))) in
      let step := match result with
                  | Raise e => (name, "Error: " +:+ str_exn e)
                  | Ok text => (name, text)
                  end in
      do steps <- parallel_steps tasks (S i) rest;
      ret (step :: steps)
  end.

(** The [for task in tasks] loop of the sequential branch. *)
Fixpoint sequential_steps (tasks : list dict) (model_strategy : string)
    : M (list (value * string)) :=
  match tasks with
  | [] => ret []
  | task :: rest =>
      do step <- try_except
        (do result <- _execute_single_task rt task model_strategy;
         ret (dict_get task "name" (VStr "Task"), result))
        (fun e => ret (dict_get task "name" (VStr "Task"), "Error: " +:+ str_exn e));
      do steps <- sequential_steps rest model_strategy;
      ret (step :: steps)
  end.

(** Execute custom workflow *)
Definition _execute_custom_workflow (tasks : list dict) (parallel : bool)
    (model_strategy : string) : M string :=
  do workflow_steps <-
    (if parallel then
       do results <- gather ((fun task => Coroutine._execute_single_task rt task model_strategy)
                             <$> tasks);
       parallel_steps tasks 0 results
     else sequential_steps tasks model_strategy);
  _generate_workflow_report rt "Custom Workflow" workflow_steps.

(** *** The four named workflows *)

(** [any(task.get("type") == ty for task in tasks)] *)
Definition any_of_type (ty : string) (tasks : list dict) : bool :=
  existsb (has_type ty) tasks.

(** [if included: workflow_steps.append((name, await step))] *)
Definition append_step_if (included : bool) (name : string) (step : M string)
    (workflow_steps : list (value * string)) : M (list (value * string)) :=
  if included then
    do step_result <- step;
    ret (workflow_steps ++ [(VStr name, step_result)])%list
  else ret workflow_steps.

(** Execute game development workflow *)
Definition _execute_game_development_workflow (tasks : list dict) (parallel : bool)
    (model_strategy : string) : M string :=
  let workflow_steps := [] in
  do workflow_steps <- append_step_if (any_of_type "architecture" tasks)
       "Architecture Planning" (_execute_architecture_step rt tasks model_strategy)
       workflow_steps;
  do workflow_steps <- append_step_if (any_of_type "implementation" tasks)
       "Implementation" (_execute_implementation_step rt tasks model_strategy)
       workflow_steps;
  do workflow_steps <- append_step_if (any_of_type "content" tasks)
       "Content Creation" (_execute_content_step rt tasks model_strategy)
       workflow_steps;
  do workflow_steps <- append_step_if (any_of_type "optimization" tasks)
       "Performance Optimization" (_execute_optimization_step rt tasks model_strategy)
       workflow_steps;
  _generate_workflow_report rt "Game Development" workflow_steps.

(** Execute puzzle generation workflow *)
Definition _execute_puzzle_generation_workflow (tasks : list dict) (parallel : bool)
    (model_strategy : string) : M string :=
  let workflow_steps := [] in
  do workflow_steps <- append_step_if true
       "Theme Analysis" (_analyze_puzzle_theme rt tasks) workflow_steps;
  do workflow_steps <- append_step_if true
       "Puzzle Generation" (_generate_puzzle_variations rt tasks model_strategy)
       workflow_steps;
  do with_difficulty <- context_contains "difficulty_adjustment";
  do workflow_steps <- append_step_if with_difficulty
       "Difficulty Balancing" (_balance_difficulty rt tasks model_strategy)
       workflow_steps;
  do with_narrative <- context_contains "narrative";
  do workflow_steps <- append_step_if with_narrative
       "Narrative Integration" (_integrate_narrative rt tasks model_strategy)
       workflow_steps;
  _generate_workflow_report rt "Puzzle Generation" workflow_steps.

(** Execute content creation workflow *)
Definition _execute_content_creation_workflow (tasks : list dict) (parallel : bool)
    (model_strategy : string) : M string :=
  let workflow_steps := [] in
  do workflow_steps <- append_step_if true
       "Story Development" (_develop_story rt tasks model_strategy) workflow_steps;
  do with_characters <- context_contains "characters";
  do workflow_steps <- append_step_if with_characters
       "Character Creation" (_create_characters rt tasks model_strategy) workflow_steps;
  do workflow_steps <- append_step_if true
       "Scene Writing" (_write_scenes rt tasks model_strategy) workflow_steps;
  do with_assets <- context_contains "assets";
  do workflow_steps <- append_step_if with_assets
       "Asset Generation" (_generate_assets rt tasks model_strategy) workflow_steps;
  _generate_workflow_report rt "Content Creation" workflow_steps.

(** Execute optimization workflow *)
Definition _execute_optimization_workflow (tasks : list dict) (parallel : bool)
    (model_strategy : string) : M string :=
  let workflow_steps := [] in
  do workflow_steps <- append_step_if true
       "Performance Analysis" (_analyze_performance rt tasks model_strategy)
       workflow_steps;
  do workflow_steps <- append_step_if true
       "Bottleneck Identification" (_identify_bottlenecks rt tasks model_strategy)
       workflow_steps;
  do workflow_steps <- append_step_if true
       "Optimization Recommendations" (_generate_optimizations rt tasks model_strategy)
       workflow_steps;
  do workflow_steps <- append_step_if true
       "Implementation Strategy" (_create_implementation_plan rt tasks model_strategy)
       workflow_steps;
  _generate_workflow_report rt "Optimization" workflow_steps.

(** Execute a multi-model workflow.  The entries of [arguments] are
    taken as already unpacked ([workflow_type] and [tasks] are required
    by the input schema, [context] is the mapping held in the state);
    the value is the text of the single [TextContent] returned. *)
Definition execute (workflow_type : string) (tasks : list dict) (parallel : bool)
    (model_strategy : string) : M string :=
  if bool_decide (workflow_type = "game_development") then
    _execute_game_development_workflow tasks parallel model_strategy
  else if bool_decide (workflow_type = "puzzle_generation") then
    _execute_puzzle_generation_workflow tasks parallel model_strategy
  else if bool_decide (workflow_type = "content_creation") then
    _execute_content_creation_workflow tasks parallel model_strategy
  else if bool_decide (workflow_type = "optimization") then
    _execute_optimization_workflow tasks parallel model_strategy
  else if bool_decide (workflow_type = "custom") then
    _execute_custom_workflow tasks parallel model_strategy
  else raise (ToolExecutionError ("Unknown workflow type: " +:+ workflow_type)).

End Workflows.

(** ** Notions used to state the properties *)

(** [needle in text] *)
Fixpoint occurs (needle text : string) : bool :=
  String.prefix needle text ||
  match text with
  | EmptyString => false
  | String _ text' => occurs needle text'
  end.

(** The substitution tables of the model-selection strategies, as the
    design describes them: each strategy maps some base models to a
    replacement, and any other strategy has no entry. *)
Definition strategy_substitutions (strategy : string) : list (string * string) :=
  if bool_decide (strategy = "cost_optimized") then
    [("gemini-pro", "gemini-flash"); ("claude-haiku", "gemini-flash")]
  else if bool_decide (strategy = "performance_optimized") then
    [("gemini-flash", "gemini-pro"); ("ollama", "gemini-pro")]
  else if bool_decide (strategy = "balanced") then
    [("gemini-pro", "gemini-flash"); ("ollama", "gemini-flash")]
  else [].

(** The first entry of an association table for [key]. *)
Fixpoint assoc (key : string) (table : list (string * string)) : option string :=
  match table with
  | [] => None
  | (k, v) :: table' => if bool_decide (key = k) then Some v else assoc key table'
  end.

(** The five workflow types [execute] dispatches on. *)
Definition workflow_types : list string :=
  ["game_development"; "puzzle_generation"; "content_creation"; "optimization"; "custom"].

(** The text a step of the custom workflow records for an outcome. *)
Definition step_text (outcome : result string) : string :=
  match outcome with
  | Ok text => text
  | Raise e => "Error: " +:+ str_exn e
  end.

(** A computation leaves the shared context as it found it. *)
Definition preserves_context {A} (m : M A) : Prop :=
  ∀ s, shared_context (m s).2 = shared_context s.

(** The name the custom workflow gives the step of the task at position
    [i]: the task's own name if it has one, else ["Task"] in the
    sequential branch and ["Task <i+1>"] in the parallel branch. *)
Definition step_name (parallel : bool) (i : nat) (task : dict) : value :=
  dict_get task "name"
    (VStr (if parallel then "Task " +:+ pretty (i + 1) else "Task")).

(** The same runtime with another completion order of gathered
    coroutines. *)
Definition with_completion_order (rt : Runtime) (order : list nat) : Runtime :=
  mkRuntime (py_repr rt) (json_dumps rt) (str_upper rt) (get_provider_for_model rt)
            (generate_response rt) (clock_after rt) (suspends rt) order.

(** [completes rt log from co outcome]: the coroutine [co] ends with
    [outcome] when each call it issues is answered by the provider as a
    call issued at some point of the log [log], past [from] and past
    the call it issued before. *)
Inductive completes (rt : Runtime) (log : list Call) {A : Type}
    : list Call → coroutine A → result A → Prop :=
  | completes_finished from outcome :
      from `prefix_of` log →
      completes rt log from (Finished outcome) outcome
  | completes_awaiting from before c resume outcome :
      from `prefix_of` before →
      completes rt log (before ++ [c])%list (resume (generate_response rt before c)) outcome →
      completes rt log from (Awaiting c resume) outcome.

(** The state in which the sequential branch of the custom workflow
    starts the task at position [i]: the state the tasks before it
    left, one after the other. *)
Fixpoint state_before (rt : Runtime) (model_strategy : string) (tasks : list dict)
    (i : nat) (s : State) : State :=
  match i, tasks with
  | S i', task :: rest =>
      state_before rt model_strategy rest i'
                   (_execute_single_task rt task model_strategy s).2
  | _, _ => s
  end.

(** The provider answers a call the same way whatever calls came
    before it. *)
Definition history_independent (rt : Runtime) : Prop :=
  ∀ log1 log2 c, generate_response rt log1 c = generate_response rt log2 c.

(** The outcome of a computation depends on the state through the
    shared context only, not through the call log or the clock. *)
Definition reads_context_only {A} (m : M A) : Prop :=
  ∀ s1 s2, shared_context s1 = shared_context s2 → (m s1).1 = (m s2).1.

(** What the consensus workflow returns when no model contributed: the
    heading and the static synthesis section, with no per-model section
    in between. *)
Definition synthesis_only : string :=
  "## CONSENSUS ANALYSIS" +:+ nl +:+ nl
  +:+ "## SYNTHESIS AND RECOMMENDATIONS" +:+ nl +:+ nl
  +:+ "Based on the multiple model analyses, here are the key consensus points:"
  +:+ nl +:+ nl
  +:+ "1. **Common Recommendations**" +:+ nl
  +:+ "2. **Areas of Agreement**" +:+ nl
  +:+ "3. **Divergent Opinions**" +:+ nl
  +:+ "4. **Final Recommendations**" +:+ nl +:+ nl.

(** The steps of the four named workflows that look their task up with
    [next], each with the task type it looks for. *)
Definition first_match_steps (rt : Runtime)
    : list (string * (list dict → string → M string)) :=
  [ ("architecture", _execute_architecture_step rt);
    ("content", _execute_content_step rt);
    ("optimization", _execute_optimization_step rt);
    ("theme_analysis", λ tasks _, _analyze_puzzle_theme rt tasks);
    ("procedural_generation", _generate_puzzle_variations rt);
    ("difficulty_balancing", _balance_difficulty rt);
    ("narrative_integration", _integrate_narrative rt);
    ("story_development", _develop_story rt);
    ("character_creation", _create_characters rt);
    ("scene_writing", _write_scenes rt);
    ("asset_generation", _generate_assets rt);
    ("performance_analysis", _analyze_performance rt);
    ("bottleneck_identification", _identify_bottlenecks rt);
    ("optimization_recommendations", _generate_optimizations rt);
    ("implementation_plan", _create_implementation_plan rt) ].

(** The four named workflow types. *)
Definition named_workflow_types : list string :=
  ["game_development"; "puzzle_generation"; "content_creation"; "optimization"].

(** [tasks] without every task whose type already occurred earlier in
    the list ([seen] holds the types met so far); tasks of type
    "implementation" and tasks whose type is not a string are all
    kept. *)
Fixpoint drop_later_of_type (seen : list string) (tasks : list dict) : list dict :=
  match tasks with
  | [] => []
  | task :: rest =>
      match dict_get task "type" VNone with
      | VStr ty =>
          if bool_decide (ty = "implementation") then
            task :: drop_later_of_type seen rest
          else if bool_decide (ty ∈ seen) then drop_later_of_type seen rest
          else task :: drop_later_of_type (ty :: seen) rest
      | _ => task :: drop_later_of_type seen rest
      end
  end.

(** [implementation_runs rt strategy tasks s texts s']: running the
    implementation step on each task of [tasks] alone, one after the
    other from state [s], succeeds each time, yields [texts] in that
    order and ends in state [s']. *)
Inductive implementation_runs (rt : Runtime) (model_strategy : string)
    : list dict → State → list string → State → Prop :=
  | implementation_runs_nil s :
      implementation_runs rt model_strategy [] s [] s
  | implementation_runs_cons task rest s text s1 texts s2 :
      _execute_implementation_step rt [task] model_strategy s = (Ok text, s1) →
      implementation_runs rt model_strategy rest s1 texts s2 →
      implementation_runs rt model_strategy (task :: rest) s (text :: texts) s2.

(** ** The agent registry ([specialized_agents.py]) *)

(** The [name] every agent class passes to [SpecializedAgent.__init__]. *)
Definition name (a : agent) : string :=
  match a with
  | ArchitectureAgent => "architecture"
  | ImplementationAgent => "implementation"
  | OptimizationAgent => "optimization"
  | ContentAgent => "content"
  | ConsensusAgent => "consensus"
  | ProceduralPuzzleAgent => "procedural_puzzle"
  | DynamicDifficultyAgent => "dynamic_difficulty"
  | NarrativeAgent => "narrative"
  | AssetOptimizationAgent => "asset_optimization"
  end.

(** Registry of specialized agents *)
Definition SPECIALIZED_AGENTS : gmap string agent :=
  list_to_map [
    ("architecture", ArchitectureAgent);
    ("implementation", ImplementationAgent);
    ("optimization", OptimizationAgent);
    ("content", ContentAgent);
    ("consensus", ConsensusAgent);
    ("procedural_puzzle", ProceduralPuzzleAgent);
    ("dynamic_difficulty", DynamicDifficultyAgent);
    ("narrative", NarrativeAgent);
    ("asset_optimization", AssetOptimizationAgent)
  ].

(** Get a specialized agent by type *)
Definition get_specialized_agent (agent_type : string) : option agent :=
  SPECIALIZED_AGENTS !! agent_type.

(** The models [_select_model] chooses among. *)
Definition known_models : list string :=
  ["gemini-pro"; "gemini-flash"; "ollama"; "claude-haiku"].

(** The strategies that substitute models; any other strategy string
    leaves the base model as it is. *)
Definition substituting_strategies : list string :=
  ["cost_optimized"; "performance_optimized"; "balanced"].

(** Every exception a computation raises satisfies [P]. *)
Definition raises_only {A} (P : exn → Prop) (m : M A) : Prop :=
  ∀ s e s', m s = (Raise e, s') → P e.

(** The key each agent's [execute] reads with [arguments[...]]. *)
Definition required_key (a : agent) : string :=
  match a with
  | DynamicDifficultyAgent => "player_data"
  | AssetOptimizationAgent => "assets"
  | _ => "prompt"
  end.

(** The agents whose [execute] passes [self.preferred_model] and
    [self.thinking_mode] to [_execute_with_model]. *)
Definition fixed_model_agents : list agent :=
  [ProceduralPuzzleAgent; DynamicDifficultyAgent; NarrativeAgent; AssetOptimizationAgent].

(** The builders of the four agents that take a prompt and files. *)
Definition prompt_files_builders (rt : Runtime) : list (value → value → result string) :=
  [ _build_architecture_context rt; _build_implementation_context rt;
    _build_optimization_context rt; _build_content_context rt ].

(** The heading and the closing section of the consensus text. *)
Definition consensus_heading : string := "## CONSENSUS ANALYSIS" +:+ nl +:+ nl.

Definition synthesis_section : string :=
  "## SYNTHESIS AND RECOMMENDATIONS" +:+ nl +:+ nl
  +:+ "Based on the multiple model analyses, here are the key consensus points:"
  +:+ nl +:+ nl
  +:+ "1. **Common Recommendations**" +:+ nl
  +:+ "2. **Areas of Agreement**" +:+ nl
  +:+ "3. **Divergent Opinions**" +:+ nl
  +:+ "4. **Final Recommendations**" +:+ nl +:+ nl.

(** The section the consensus text has for a model that answered
    [response]. *)
Definition consensus_section (rt : Runtime) (model : value) (response : string)
    : string :=
  "### " +:+ match model with VStr name => str_upper rt name | _ => "" end
  +:+ " Analysis:" +:+ nl +:+ response +:+ nl +:+ nl.

(** What the provider answers to a call when no call came before, or
    the empty text if it fails. *)
Definition first_answer (rt : Runtime) (c : Call) : string :=
  match generate_response rt [] c with
  | Ok text => text
  | Raise _ => ""
  end.

(** The agent a custom task names: its "agent" entry if it has one,
    else its "type". *)
Definition task_agent_name (task : dict) : value :=
  dict_get task "agent" (dict_get task "type" VNone).

(** The entries of a task that [_execute_single_task] reads. *)
Definition task_keys_read : list string :=
  ["type"; "agent"; "prompt"; "thinking_mode"; "theme"; "difficulty"; "variations";
   "player_data"; "current_difficulty"; "metrics"; "tone"; "length"; "assets";
   "target_size"; "requirements"].

(** The agents that take a prompt and files. *)
Definition prompt_files_agent_names : list string :=
  ["architecture"; "implementation"; "optimization"; "content"].

(** The title under which each named workflow reports. *)
Definition workflow_title (workflow_type : string) : string :=
  if bool_decide (workflow_type = "game_development") then "Game Development"
  else if bool_decide (workflow_type = "puzzle_generation") then "Puzzle Generation"
  else if bool_decide (workflow_type = "content_creation") then "Content Creation"
  else "Optimization".

(** [[name] if included else []] *)
Definition name_if (included : bool) (name : string) : list string :=
  if included then [name] else [].

(** The names of the steps a named workflow includes, in order, for a
    shared context and a task list. *)
Definition expected_step_names (workflow_type : string) (ctx : dict) (tasks : list dict)
    : list string :=
  if bool_decide (workflow_type = "game_development") then
    name_if (any_of_type "architecture" tasks) "Architecture Planning"
    ++ name_if (any_of_type "implementation" tasks) "Implementation"
    ++ name_if (any_of_type "content" tasks) "Content Creation"
    ++ name_if (any_of_type "optimization" tasks) "Performance Optimization"
  else if bool_decide (workflow_type = "puzzle_generation") then
    ["Theme Analysis"; "Puzzle Generation"]
    ++ name_if (bool_decide (is_Some (ctx !! "difficulty_adjustment"))) "Difficulty Balancing"
    ++ name_if (bool_decide (is_Some (ctx !! "narrative"))) "Narrative Integration"
  else if bool_decide (workflow_type = "content_creation") then
    ["Story Development"]
    ++ name_if (bool_decide (is_Some (ctx !! "characters"))) "Character Creation"
    ++ ["Scene Writing"]
    ++ name_if (bool_decide (is_Some (ctx !! "assets"))) "Asset Generation"
  else
    ["Performance Analysis"; "Bottleneck Identification";
     "Optimization Recommendations"; "Implementation Strategy"].

(** The task type the first step of each workflow with unconditional
    steps looks for. *)
Definition first_required_type : list (string * string) :=
  [("puzzle_generation", "theme_analysis");
   ("content_creation", "story_development");
   ("optimization", "performance_analysis")].

(** The task types the steps of game_development look for. *)
Definition game_development_types : list string :=
  ["architecture"; "implementation"; "content"; "optimization"].


(** What holds of a suspended coroutine [p] while [coros] are gathered
    from state [s0], at the log [log]: it stands for the coroutine at
    its position, its pending call has been issued, and whatever it
    completes with from there, the coroutine it stands for completes
    with. *)
Definition suspended_ok (rt : Runtime) {A} (coros : list (coroutine A)) (s0 : State)
    (log : list Call) (p : Suspended A) : Prop :=
  ∃ co, coros !! position p = Some co ∧
        (issued_before p ++ [pending_call p])%list `prefix_of` log ∧
        ∀ final outcome,
          completes rt final (issued_before p ++ [pending_call p])%list
            (resume_with p (generate_response rt (issued_before p) (pending_call p)))
            outcome →
          completes rt final (calls s0) co outcome.

(** The slot at position [i] holds an outcome the coroutine [co]
    completes with. *)
Definition slot_ok (rt : Runtime) {A} (s0 : State) (log : list Call)
    (slots : list (option (result A))) (i : nat) (co : coroutine A) : Prop :=
  ∃ outcome, slots !! i = Some (Some outcome) ∧
             ∀ final, log `prefix_of` final → completes rt final (calls s0) co outcome.

(** The invariant of the event loop: every suspended coroutine is in
    order, and each coroutine at a position in [covered] has filled its
    slot or is suspended. *)
Definition loop_invariant (rt : Runtime) {A} (coros : list (coroutine A)) (s0 : State)
    (covered : nat → Prop) (pending : list (Suspended A))
    (slots : list (option (result A))) (s : State) : Prop :=
  length slots = length coros ∧
  calls s0 `prefix_of` calls s ∧
  (∀ p, p ∈ pending → suspended_ok rt coros s0 (calls s) p) ∧
  (∀ i co, covered i → coros !! i = Some co →
     slot_ok rt s0 (calls s) slots i co ∨ ∃ p, p ∈ pending ∧ position p = i).

(** [[(name, step)] if included else []] *)
Definition step_if (included : bool) (name : string) (step : M string)
    : list (string * M string) :=
  if included then [(name, step)] else [].

(** The steps a named workflow includes, in order, each under the name
    it is reported with, for a shared context and a task list. *)
Definition included_steps (rt : Runtime) (workflow_type : string) (ctx : dict)
    (tasks : list dict) (model_strategy : string) : list (string * M string) :=
  if bool_decide (workflow_type = "game_development") then
    step_if (any_of_type "architecture" tasks) "Architecture Planning"
            (_execute_architecture_step rt tasks model_strategy)
    ++ step_if (any_of_type "implementation" tasks) "Implementation"
               (_execute_implementation_step rt tasks model_strategy)
    ++ step_if (any_of_type "content" tasks) "Content Creation"
               (_execute_content_step rt tasks model_strategy)
    ++ step_if (any_of_type "optimization" tasks) "Performance Optimization"
               (_execute_optimization_step rt tasks model_strategy)
  else if bool_decide (workflow_type = "puzzle_generation") then
    [("Theme Analysis", _analyze_puzzle_theme rt tasks);
     ("Puzzle Generation", _generate_puzzle_variations rt tasks model_strategy)]
    ++ step_if (bool_decide (is_Some (ctx !! "difficulty_adjustment")))
               "Difficulty Balancing" (_balance_difficulty rt tasks model_strategy)
    ++ step_if (bool_decide (is_Some (ctx !! "narrative")))
               "Narrative Integration" (_integrate_narrative rt tasks model_strategy)
  else if bool_decide (workflow_type = "content_creation") then
    [("Story Development", _develop_story rt tasks model_strategy)]
    ++ step_if (bool_decide (is_Some (ctx !! "characters")))
               "Character Creation" (_create_characters rt tasks model_strategy)
    ++ [("Scene Writing", _write_scenes rt tasks model_strategy)]
    ++ step_if (bool_decide (is_Some (ctx !! "assets")))
               "Asset Generation" (_generate_assets rt tasks model_strategy)
  else
    [("Performance Analysis", _analyze_performance rt tasks model_strategy);
     ("Bottleneck Identification", _identify_bottlenecks rt tasks model_strategy);
     ("Optimization Recommendations", _generate_optimizations rt tasks model_strategy);
     ("Implementation Strategy", _create_implementation_plan rt tasks model_strategy)].

(** Awaiting steps one after the other with no handler around them:
    each step that returns is recorded after [recorded], and the first
    one that raises ends the run. *)
Fixpoint run_steps (steps : list (string * M string)) (recorded : list (value * string))
    (s : State) : result (list (value * string)) * State :=
  match steps with
  | [] => (Ok recorded, s)
  | (name, step) :: rest =>
      match step s with
      | (Ok text, s') => run_steps rest (recorded ++ [(VStr name, text)]) s'
      | (Raise e, s') => (Raise e, s')
      end
  end.

(** What a named workflow returns once its steps have been awaited: the
    report of the recorded steps, or the failure that ended the run. *)
Definition report_unless_raised (rt : Runtime) (title : string)
    (run : result (list (value * string)) * State) : result string * State :=
  match run with
  | (Ok steps, s') => _generate_workflow_report rt title steps s'
  | (Raise e, s') => (Raise e, s')
  end.

(** What a step that looks its task up sends to the provider of that
    task: the task's prompt; for the asset step the task's assets; for
    the difficulty step nothing. *)
Definition task_input (rt : Runtime) (ty : string) (task : dict) : result string :=
  if bool_decide (ty = "difficulty_balancing") then Ok ""
  else if bool_decide (ty = "asset_generation") then
    str_join ", " (dict_get task "assets" (VList []))
  else match dict_item task "prompt" with
       | Ok prompt => Ok (py_str rt prompt)
       | Raise e => Raise e
       end.

(** [one_round_trip rt input s run]: from state [s] the run [run] made
    exactly one provider call, with a prompt that carries [input], and
    returned the provider's answer if there was one. *)
Definition one_round_trip (rt : Runtime) (input : string) (s : State)
    (run : result string * State) : Prop :=
  ∃ context model thinking,
    occurs input context = true ∧
    calls run.2 = (calls s ++ [mkCall context model thinking])%list ∧
    ∀ text, generate_response rt (calls s) (mkCall context model thinking) = Ok text →
            run.1 = Ok text.

(** *** Sample runtimes and inputs *)

(** [s.upper()] for a string of ASCII characters. *)
Definition ascii_upper (c : ascii) : ascii :=
  let n := nat_of_ascii c in
  if (97 <=? n)%nat && (n <=? 122)%nat then ascii_of_nat (n - 32) else c.

Fixpoint ascii_str_upper (s : string) : string :=
  match s with
  | EmptyString => EmptyString
  | String c s' => String (ascii_upper c) (ascii_str_upper s')
  end.

(** A runtime whose registry resolves every model, with the given
    provider answers and completion order; every call yields to the
    event loop and the clock stands still.  The sample inputs are ASCII
    strings. *)
Definition sample_runtime (answer : list Call -> Call -> result string)
    (order : list nat) : Runtime :=
  mkRuntime (fun _ => "[...]") (fun _ => "{}") ascii_str_upper (fun _ => true) answer
            (fun _ _ d => d) (fun _ _ => true) order.

(** The same, with a provider whose calls never yield to the event
    loop. *)
Definition unyielding_runtime (answer : list Call -> Call -> result string) : Runtime :=
  mkRuntime (fun _ => "[...]") (fun _ => "{}") ascii_str_upper (fun _ => true) answer
            (fun _ _ d => d) (fun _ _ => false) [].

(** A provider that numbers its answers by the calls made before. *)
Definition answering : list Call -> Call -> result string :=
  fun log _ => Ok ("answer " +:+ pretty (length log)).

(** A provider whose every round-trip times out. *)
Definition failing : list Call -> Call -> result string :=
  fun _ _ => Raise (ProviderError "timeout").

(** A provider that answers with the name of the model it was asked
    for, whatever came before. *)
Definition echoing : list Call -> Call -> result string :=
  fun _ c => Ok ("answer from " +:+ match call_model c with
                                    | VStr model => model
                                    | _ => "?"
                                    end).

(** A provider whose second round-trip times out. *)
Definition second_fails : list Call -> Call -> result string :=
  fun log c => if bool_decide (length log = 1) then Raise (ProviderError "timeout")
               else answering log c.

(** A runtime whose registry resolves a provider for no model. *)
Definition offline_runtime : Runtime :=
  mkRuntime (fun _ => "[...]") (fun _ => "{}") ascii_str_upper (fun _ => false) answering
            (fun _ _ d => d) (fun _ _ => true) [].

(** The prompt the consensus workflow sends for the question "which
    engine?" put to two models, with no files. *)
Definition sample_consensus_prompt : string :=
  Eval vm_compute in
    match _build_consensus_context (sample_runtime failing []) (VStr "which engine?")
            (VList []) (VList [VStr "gemini-pro"; VStr "gpt-5"]) with
    | Ok context => context
    | Raise _ => ""
    end.

(** The same for the three models the consensus agent asks by default. *)
Definition sample_consensus_prompt3 : string :=
  Eval vm_compute in
    match _build_consensus_context (sample_runtime failing []) (VStr "which engine?")
            (VList []) (VList [VStr "gemini-pro"; VStr "gpt-5"; VStr "claude-haiku"]) with
    | Ok context => context
    | Raise _ => ""
    end.

Definition sample_state : State :=
  mkState ∅ [] (mkDatetime 2026 1 2 3 4 5).

Definition sample_task (type prompt : string) : dict :=
  list_to_map [("type", VStr type); ("prompt", VStr prompt)].

(** ** Model selection *)

Lemma select_model_unfold agent_type strategy :
  _select_model agent_type strategy =
  let base_model := default "gemini-flash" (model_map !! agent_type) in
  default base_model (assoc base_model (strategy_substitutions strategy)).
Proof.
  unfold _select_model, strategy_substitutions. cbv zeta.
  generalize (default "gemini-flash" (model_map !! agent_type)). intros base.
  repeat case_bool_decide; simpl; repeat case_bool_decide; simplify_eq; done.
Qed.

(** C2: [_select_model] returns the value of the fixed substitution
    table for every agent type and strategy: the three listed values
    hold, an agent type outside the base table gets the fallback base
    model, and a base model without an entry for the strategy is
    returned unchanged. *)
Theorem select_model_table :
  _select_model "architecture" "auto" = "gemini-pro" ∧
  _select_model "architecture" "cost_optimized" = "gemini-flash" ∧
  _select_model "implementation" "performance_optimized" = "gemini-pro" ∧
  (∀ agent_type strategy,
     _select_model agent_type strategy =
     let base_model := default "gemini-flash" (model_map !! agent_type) in
     default base_model (assoc base_model (strategy_substitutions strategy))) ∧
  (∀ agent_type strategy,
     model_map !! agent_type = None →
     _select_model agent_type strategy =
     default "gemini-flash" (assoc "gemini-flash" (strategy_substitutions strategy))) ∧
  (∀ agent_type strategy base_model,
     model_map !! agent_type = Some base_model →
     assoc base_model (strategy_substitutions strategy) = None →
     _select_model agent_type strategy = base_model).
Proof.
  split_and!; try reflexivity.
  - apply select_model_unfold.
  - intros agent_type strategy Hnone.
    rewrite select_model_unfold, Hnone. reflexivity.
  - intros agent_type strategy base_model Hbase Hpass.
    rewrite select_model_unfold, Hbase. simpl. rewrite Hpass. reflexivity.
Qed.

Lemma select_model_table_witness :
  (model_map !! "consensus" = None ∧
   _select_model "consensus" "performance_optimized" = "gemini-pro") ∧
  (model_map !! "optimization" = Some "ollama" ∧
   assoc "ollama" (strategy_substitutions "cost_optimized") = None ∧
   _select_model "optimization" "cost_optimized" = "ollama").
Proof.
  destruct select_model_table as (_ & _ & _ & _ & Hfallback & Hpass).
  split.
  - split; [reflexivity |].
    exact (Hfallback "consensus" "performance_optimized" eq_refl).
  - split; [reflexivity |]. split; [reflexivity |].
    exact (Hpass "optimization" "cost_optimized" "ollama" eq_refl eq_refl).
Defined.

(** ** Report rendering *)

Lemma string_app_assoc (a b c : string) : (a +:+ b) +:+ c = a +:+ b +:+ c.
Proof.
  induction a as [|x a IH]; [reflexivity |].
  change (String x ((a +:+ b) +:+ c) = String x (a +:+ b +:+ c)).
  by rewrite IH.
Qed.

Lemma prefix_app needle rest : String.prefix needle (needle +:+ rest) = true.
Proof.
  induction needle as [|c needle IH]; simpl; [by destruct rest |].
  destruct (ascii_dec c c); [exact IH | congruence].
Qed.

Lemma occurs_here needle rest : occurs needle (needle +:+ rest) = true.
Proof.
  assert (Hunfold : ∀ text, occurs needle text = true ↔
            String.prefix needle text = true ∨
            match text with
            | EmptyString => false
            | String _ text' => occurs needle text'
            end = true).
  { intros [|c text]; simpl; apply orb_true_iff. }
  apply Hunfold. left. apply prefix_app.
Qed.

Lemma occurs_later needle before text :
  occurs needle text = true → occurs needle (before +:+ text) = true.
Proof.
  intros H. induction before as [|c before IH]; simpl; [exact H |].
  rewrite IH. apply orb_true_r.
Qed.

(** C5: whatever the workflow name and the steps (error texts
    included), the report is produced and its summary carries the
    status literal "Completed Successfully". *)
Theorem report_status_unconditional (rt : Runtime) (workflow_name : string)
    (steps : list (value * string)) (s : State) :
  ∃ text, _generate_workflow_report rt workflow_name steps s = (Ok text, s) ∧
          occurs "- **Status:** Completed Successfully" text = true.
Proof.
  eexists. split; [reflexivity |].
  repeat first [apply occurs_here | apply occurs_later].
Qed.


(** C8: two renderings of the same workflow name and steps are the same
    text but for the one timestamp field, which each rendering reads
    from the clock: the report is a fixed text before the timestamp and
    a fixed text after it, and two renderings are byte-identical
    whenever the clock reads the same. *)
Theorem report_same_up_to_timestamp (rt : Runtime) (workflow_name : string)
    (steps : list (value * string)) :
  (∃ before after, ∀ s,
     _generate_workflow_report rt workflow_name steps s =
     (Ok (before +:+ strftime (clock s) +:+ after), s)) ∧
  (∀ s1 s2, clock s1 = clock s2 →
     (_generate_workflow_report rt workflow_name steps s1).1 =
     (_generate_workflow_report rt workflow_name steps s2).1).
Proof.
  split.
  - exists ("# " +:+ workflow_name +:+ " Workflow Report" +:+ nl +:+ nl
            +:+ "**Generated:** "). eexists. intros s.
    unfold _generate_workflow_report, _get_timestamp, bind, ret.
    rewrite !string_app_assoc. reflexivity.
  - intros s1 s2 Hclock.
    unfold _generate_workflow_report, _get_timestamp, bind, ret. simpl.
    by rewrite Hclock.
Qed.

Lemma report_same_up_to_timestamp_witness :
  clock sample_state = clock (mkState {["theme" := VStr "horror"]} [] (clock sample_state)) ∧
  (_generate_workflow_report (sample_runtime answering []) "Custom Workflow"
     [(VStr "Task", "done")] sample_state).1 =
  (_generate_workflow_report (sample_runtime answering []) "Custom Workflow"
     [(VStr "Task", "done")]
     (mkState {["theme" := VStr "horror"]} [] (clock sample_state))).1.
Proof.
  split; [reflexivity |].
  apply (proj2 (report_same_up_to_timestamp (sample_runtime answering [])
                  "Custom Workflow" [(VStr "Task", "done")])).
  reflexivity.
Defined.

(** ** Dispatch on the workflow type *)

(** C7: a workflow type outside the five known ones makes [execute]
    raise the unknown-workflow-type error at once: the state is
    untouched (no step ran, no provider call was made) and no report is
    returned. *)
Theorem execute_unknown_workflow_type (rt : Runtime) (workflow_type : string)
    (tasks : list dict) (parallel : bool) (model_strategy : string) (s : State) :
  workflow_type ∉ workflow_types →
  execute rt workflow_type tasks parallel model_strategy s =
  (Raise (ToolExecutionError ("Unknown workflow type: " +:+ workflow_type)), s).
Proof.
  intros Hunknown. unfold execute.
  repeat case_bool_decide; subst;
    try (exfalso; apply Hunknown; unfold workflow_types; by repeat constructor).
  reflexivity.
Qed.

Lemma execute_unknown_workflow_type_witness :
  ("nonsense" ∉ workflow_types) ∧
  execute (sample_runtime answering []) "nonsense" [] false "auto" sample_state =
  (Raise (ToolExecutionError "Unknown workflow type: nonsense"), sample_state).
Proof.
  assert (Hunknown : "nonsense" ∉ workflow_types).
  { apply (bool_decide_eq_false _). vm_compute. reflexivity. }
  split; [exact Hunknown |].
  exact (execute_unknown_workflow_type (sample_runtime answering []) "nonsense"
           [] false "auto" sample_state Hunknown).
Defined.

(** ** The shared context is only read *)

Lemma frame_ret {A} (a : A) : preserves_context (ret a).
Proof. intros s. reflexivity. Qed.

Lemma frame_raise {A} (e : exn) : preserves_context (@raise A e).
Proof. intros s. reflexivity. Qed.

Lemma frame_lift {A} (r : result A) : preserves_context (lift r).
Proof. intros s. reflexivity. Qed.

Lemma frame_bind {A B} (m : M A) (k : A → M B) :
  preserves_context m → (∀ a, preserves_context (k a)) →
  preserves_context (bind m k).
Proof.
  intros Hm Hk s. unfold bind. specialize (Hm s).
  destruct (m s) as [[a|e] s']; simpl in *; [| exact Hm].
  by rewrite Hk.
Qed.

Lemma frame_try_except {A} (m : M A) (h : exn → M A) :
  preserves_context m → (∀ e, preserves_context (h e)) →
  preserves_context (try_except m h).
Proof.
  intros Hm Hh s. unfold try_except. specialize (Hm s).
  destruct (m s) as [[a|e] s']; simpl in *; [exact Hm |].
  by rewrite Hh.
Qed.

Lemma frame_provider rt (c : Call) :
  preserves_context (provider_generate_response rt c).
Proof. intros s. reflexivity. Qed.

Lemma frame_context_get key default : preserves_context (context_get key default).
Proof. intros s. reflexivity. Qed.

Lemma frame_context_contains key : preserves_context (context_contains key).
Proof. intros s. reflexivity. Qed.

Lemma frame_get_timestamp : preserves_context _get_timestamp.
Proof. intros s. reflexivity. Qed.

Lemma frame_agents_item name : preserves_context (agents_item name).
Proof.
  unfold agents_item. destruct (agents !! name); [apply frame_ret | apply frame_raise].
Qed.

Lemma frame_next_task tasks ty : preserves_context (next_task tasks ty).
Proof.
  unfold next_task. destruct (List.find _ tasks); [apply frame_ret | apply frame_raise].
Qed.

Create HintDb frame.
#[local] Hint Resolve frame_ret frame_raise frame_lift frame_provider
  frame_context_get frame_context_contains frame_get_timestamp
  frame_agents_item frame_next_task : frame.

(** One step of the syntax-directed argument: a computation already
    known to preserve the context is discharged, any other is split
    along its shape. *)
Ltac frame_step :=
  first
    [ solve [auto 1 with frame nocore]
    | apply frame_bind | apply frame_try_except
    | progress intros
    | match goal with
      | |- preserves_context (if ?b then _ else _) => destruct b
      | |- preserves_context (match ?x with _ => _ end) => destruct x
      end ].

Ltac frame := repeat frame_step.

Lemma frame_execute_with_model rt model context thinking :
  preserves_context (_execute_with_model rt model context thinking).
Proof. unfold _execute_with_model. frame. Qed.

Lemma frame_analyze_consensus rt responses :
  preserves_context (_analyze_consensus rt responses).
Proof. unfold _analyze_consensus. frame. Qed.

Lemma frame_consensus_responses rt prompt files models thinking todo :
  preserves_context (consensus_responses rt prompt files models thinking todo).
Proof.
  pose proof frame_analyze_consensus.
  induction todo as [|model todo IH]; simpl; frame.
Qed.

#[local] Hint Resolve frame_execute_with_model frame_analyze_consensus
  frame_consensus_responses : frame.

Lemma frame_execute_consensus_workflow rt prompt files models thinking :
  preserves_context (_execute_consensus_workflow rt prompt files models thinking).
Proof. unfold _execute_consensus_workflow. frame. Qed.

#[local] Hint Resolve frame_execute_consensus_workflow : frame.

Lemma frame_agent_execute rt a arguments :
  preserves_context (agent_execute rt a arguments).
Proof.
  destruct a; simpl;
    unfold ArchitectureAgent_execute, ImplementationAgent_execute,
      OptimizationAgent_execute, ContentAgent_execute,
      ConsensusAgent_execute, ProceduralPuzzleAgent_execute,
      DynamicDifficultyAgent_execute, NarrativeAgent_execute,
      AssetOptimizationAgent_execute;
    frame.
Qed.

#[local] Hint Resolve frame_agent_execute : frame.

Lemma frame_execute_single_task rt task model_strategy :
  preserves_context (_execute_single_task rt task model_strategy).
Proof. unfold _execute_single_task. frame. Qed.

Lemma frame_generate_workflow_report rt workflow_name steps :
  preserves_context (_generate_workflow_report rt workflow_name steps).
Proof. unfold _generate_workflow_report. frame. Qed.

#[local] Hint Resolve frame_execute_single_task frame_generate_workflow_report : frame.

Lemma frame_implementation_results rt impl_tasks model_strategy :
  preserves_context (implementation_results rt impl_tasks model_strategy).
Proof. induction impl_tasks as [|task rest IH]; simpl; frame. Qed.

Lemma frame_sequential_steps rt tasks model_strategy :
  preserves_context (sequential_steps rt tasks model_strategy).
Proof. induction tasks as [|task rest IH]; simpl; frame. Qed.

Lemma frame_parallel_steps tasks i results :
  preserves_context (parallel_steps tasks i results).
Proof. revert i. induction results as [|result rest IH]; intros i; simpl; frame. Qed.

Lemma frame_await rt {A} (co : coroutine A) : preserves_context (await rt co).
Proof.
  induction co as [outcome|c resume IH]; intros s; [reflexivity |].
  simpl. by rewrite IH.
Qed.

Lemma frame_run_until_suspended rt {A} i (co : coroutine A) pending slots s :
  shared_context (run_until_suspended rt i co pending slots s).2 = shared_context s.
Proof.
  revert s. induction co as [outcome|c resume IH]; intros s; simpl; [reflexivity |].
  destruct (suspends rt (calls s) c); [reflexivity |]. by rewrite IH.
Qed.

Lemma frame_start_all rt {A} i (coros : list (coroutine A)) pending slots s :
  shared_context (start_all rt i coros pending slots s).2 = shared_context s.
Proof.
  revert i pending slots s.
  induction coros as [|co rest IH]; intros i pending slots s; simpl; [reflexivity |].
  pose proof (frame_run_until_suspended rt i co pending slots s) as Hrun.
  destruct (run_until_suspended rt i co pending slots s) as [[pending' slots'] s'].
  simpl in Hrun. by rewrite IH.
Qed.

Lemma frame_complete_all rt {A} (pending : list (Suspended A)) slots s :
  shared_context (complete_all rt pending slots s).2 = shared_context s.
Proof.
  revert slots s. induction pending as [|p rest IH]; intros slots s; simpl;
    [reflexivity |].
  pose proof (frame_await rt (resume_with p (generate_response rt (issued_before p)
                                               (pending_call p)))
                (mkState (shared_context s) (calls s)
                   (clock_after rt (issued_before p) (pending_call p) (clock s))))
    as Hawait.
  destruct (await rt _ _) as [outcome s2]. simpl in Hawait. by rewrite IH.
Qed.

Lemma frame_event_loop rt {A} order (pending : list (Suspended A)) slots s :
  shared_context (event_loop rt order pending slots s).2 = shared_context s.
Proof.
  revert pending slots s.
  induction order as [|k order IH]; intros pending slots s; simpl;
    [apply frame_complete_all |].
  destruct (pending !! _) as [p|]; [| reflexivity].
  pose proof (frame_run_until_suspended rt (position p)
                (resume_with p (generate_response rt (issued_before p) (pending_call p)))
                (delete (k `mod` length pending) pending) slots
                (mkState (shared_context s) (calls s)
                   (clock_after rt (issued_before p) (pending_call p) (clock s))))
    as Hrun.
  destruct (run_until_suspended rt _ _ _ _ _) as [[pending' slots'] s2].
  simpl in Hrun. by rewrite IH.
Qed.

Lemma frame_gather rt {A} (coros : list (coroutine A)) :
  preserves_context (gather rt coros).
Proof.
  intros s. unfold gather.
  pose proof (frame_start_all rt 0 coros [] (replicate (length coros) None) s) as Hstart.
  destruct (start_all rt _ _ _ _ s) as [[pending slots] s1]. simpl in Hstart.
  pose proof (frame_event_loop rt (completion_order rt) pending slots s1) as Hloop.
  destruct (event_loop _ _ _ _ s1) as [slots' s2]. simpl in *. congruence.
Qed.

#[local] Hint Resolve frame_implementation_results frame_sequential_steps
  frame_parallel_steps : frame.

Lemma frame_execute_custom_workflow rt tasks parallel model_strategy :
  preserves_context (_execute_custom_workflow rt tasks parallel model_strategy).
Proof.
  unfold _execute_custom_workflow. frame. apply frame_gather.
Qed.

Lemma frame_append_step_if included name step workflow_steps :
  preserves_context step →
  preserves_context (append_step_if included name step workflow_steps).
Proof. intros Hstep. unfold append_step_if. frame. Qed.

(** C9: whatever the workflow type, the tasks, the mode and the
    strategy, and whether the run returns a report or raises, the shared
    context mapping is the same after the run as before it; under
    parallel execution this holds for every completion order. *)
Theorem execute_preserves_context (rt : Runtime) (workflow_type : string)
    (tasks : list dict) (parallel : bool) (model_strategy : string) (s : State) :
  shared_context (execute rt workflow_type tasks parallel model_strategy s).2 =
  shared_context s.
Proof.
  revert s. change (preserves_context (execute rt workflow_type tasks parallel model_strategy)).
  pose proof (frame_execute_custom_workflow rt tasks parallel model_strategy).
  unfold execute, _execute_game_development_workflow,
    _execute_puzzle_generation_workflow, _execute_content_creation_workflow,
    _execute_optimization_workflow.
  repeat case_bool_decide; repeat first [frame_step | apply frame_append_step_if].
Qed.

(** ** Computations compared pointwise *)

Lemma agents_item_known name a : agents !! name = Some a → agents_item name = ret a.
Proof. intros Hname. unfold agents_item. by rewrite Hname. Qed.

Lemma bind_ret_l {A B} (a : A) (k : A → M B) : bind (ret a) k = k a.
Proof. reflexivity. Qed.

Lemma bind_pointwise {A B} (m : M A) (k1 k2 : A → M B) s :
  (∀ a s', k1 a s' = k2 a s') → bind m k1 s = bind m k2 s.
Proof. intros Hk. unfold bind. destruct (m s) as [[a|e] s']; [apply Hk | reflexivity]. Qed.

(** Two runs that differ in arguments their agents do not read are
    compared bind by bind. *)
Ltac pointwise :=
  repeat first [ rewrite bind_ret_l; cbv beta
               | apply bind_pointwise; intros ? ? ];
  reflexivity.

Lemma bind_congr {A B} (m1 m2 : M A) (k1 k2 : A → M B) s :
  m1 s = m2 s → (∀ a s', k1 a s' = k2 a s') → bind m1 k1 s = bind m2 k2 s.
Proof.
  intros Hm Hk. unfold bind. rewrite Hm.
  destruct (m2 s) as [[a|e] s']; [apply Hk | reflexivity].
Qed.

Lemma bind_congr_frame {A B} (m1 m2 : M A) (k1 k2 : A → M B) s :
  preserves_context m2 → m1 s = m2 s →
  (∀ a s', shared_context s' = shared_context s → k1 a s' = k2 a s') →
  bind m1 k1 s = bind m2 k2 s.
Proof.
  intros Hframe Hm Hk. unfold bind. rewrite Hm. specialize (Hframe s).
  destruct (m2 s) as [[a|e] s']; [by apply Hk | reflexivity].
Qed.

Lemma bind_context_contains {B} key (k : bool → M B) s :
  bind (context_contains key) k s =
  k (bool_decide (is_Some (shared_context s !! key))) s.
Proof. reflexivity. Qed.

Lemma append_step_if_congr included name (step1 step2 : M string) workflow_steps s :
  step1 s = step2 s →
  append_step_if included name step1 workflow_steps s =
  append_step_if included name step2 workflow_steps s.
Proof.
  intros Hstep. destruct included; [| reflexivity].
  unfold append_step_if. by apply bind_congr.
Qed.

Lemma try_except_congr {A} (m1 m2 : M A) (h1 h2 : exn → M A) s :
  m1 s = m2 s → (∀ e s', h1 e s' = h2 e s') →
  try_except m1 h1 s = try_except m2 h2 s.
Proof.
  intros Hm Hh. unfold try_except. rewrite Hm.
  destruct (m2 s) as [[a|e] s']; [reflexivity | apply Hh].
Qed.

(** ** Awaiting a coroutine *)

Lemma await_bind rt {A B} (co : coroutine A) (k : A → coroutine B) s :
  await rt (Coroutine.bind co k) s = bind (await rt co) (λ a, await rt (k a)) s.
Proof.
  revert s. induction co as [[a|e]|c resume IH]; intros s; [reflexivity | reflexivity |].
  simpl. rewrite IH. reflexivity.
Qed.

Lemma await_try_except rt {A} (co : coroutine A) (h : exn → coroutine A) s :
  await rt (Coroutine.try_except co h) s =
  try_except (await rt co) (λ e, await rt (h e)) s.
Proof.
  revert s. induction co as [[a|e]|c resume IH]; intros s; [reflexivity | reflexivity |].
  simpl. rewrite IH. reflexivity.
Qed.

(** Awaiting the coroutine of a function is the function as a
    computation: the two are compared along their common shape. *)
Ltac agree_step :=
  first
    [ reflexivity
    | rewrite await_bind; apply bind_congr; [| intros ? ?]
    | rewrite await_try_except; apply try_except_congr; [| intros ? ?]
    | match goal with
      | |- context [if ?b then _ else _] => destruct b
      | |- context [match ?x with _ => _ end] => destruct x
      end ].

Lemma await_execute_with_model rt model context thinking s :
  await rt (Coroutine._execute_with_model rt model context thinking) s =
  _execute_with_model rt model context thinking s.
Proof.
  unfold Coroutine._execute_with_model, _execute_with_model. repeat agree_step.
Qed.

Lemma await_consensus_responses rt prompt files models thinking todo s :
  await rt (Coroutine.consensus_responses rt prompt files models thinking todo) s =
  consensus_responses rt prompt files models thinking todo s.
Proof.
  revert s. induction todo as [|model todo IH]; intros s; [reflexivity |].
  cbn [Coroutine.consensus_responses consensus_responses].
  destruct (get_provider_for_model rt model); [| apply IH].
  rewrite await_bind. apply bind_congr; [reflexivity | intros context s1].
  rewrite await_bind. apply bind_congr; [reflexivity | intros response s2].
  rewrite await_bind. apply bind_congr; [apply IH | reflexivity].
Qed.

Lemma await_execute_consensus_workflow rt prompt files models thinking s :
  await rt (Coroutine._execute_consensus_workflow rt prompt files models thinking) s =
  _execute_consensus_workflow rt prompt files models thinking s.
Proof.
  unfold Coroutine._execute_consensus_workflow, _execute_consensus_workflow.
  rewrite await_try_except. apply try_except_congr; [| reflexivity].
  rewrite await_bind. apply bind_congr; [reflexivity | intros todo s1].
  rewrite await_bind. apply bind_congr; [apply await_consensus_responses |].
  intros responses s2. unfold Coroutine._analyze_consensus, _analyze_consensus.
  rewrite await_bind. apply bind_congr; reflexivity.
Qed.

Lemma await_agent_execute rt a arguments s :
  await rt (Coroutine.agent_execute rt a arguments) s = agent_execute rt a arguments s.
Proof.
  destruct a; simpl;
    unfold Coroutine.ArchitectureAgent_execute, ArchitectureAgent_execute,
      Coroutine.ImplementationAgent_execute, ImplementationAgent_execute,
      Coroutine.OptimizationAgent_execute, OptimizationAgent_execute,
      Coroutine.ContentAgent_execute, ContentAgent_execute,
      Coroutine.ConsensusAgent_execute, ConsensusAgent_execute,
      Coroutine.ProceduralPuzzleAgent_execute, ProceduralPuzzleAgent_execute,
      Coroutine.DynamicDifficultyAgent_execute, DynamicDifficultyAgent_execute,
      Coroutine.NarrativeAgent_execute, NarrativeAgent_execute,
      Coroutine.AssetOptimizationAgent_execute, AssetOptimizationAgent_execute;
    (rewrite await_bind; apply bind_congr; [reflexivity | intros required s1]);
    first [ apply await_execute_consensus_workflow
          | rewrite await_bind; apply bind_congr;
            [reflexivity | intros context s2; apply await_execute_with_model] ].
Qed.

Lemma await_execute_single_task rt task model_strategy s :
  await rt (Coroutine._execute_single_task rt task model_strategy) s =
  _execute_single_task rt task model_strategy s.
Proof.
  unfold Coroutine._execute_single_task, _execute_single_task.
  rewrite await_bind. apply bind_congr; [reflexivity | intros [[name a]|] s1];
    [| reflexivity].
  rewrite await_bind. apply bind_congr; [reflexivity | intros prompt s2].
  apply await_agent_execute.
Qed.

(** ** Coroutines that complete *)

Lemma completes_from rt {A} log from from' (co : coroutine A) outcome :
  completes rt log from co outcome → from' `prefix_of` from →
  completes rt log from' co outcome.
Proof.
  intros Hco Hfrom. destruct Hco as [from outcome Hlog|from before c resume outcome Hb Hco].
  - apply completes_finished. by etrans.
  - eapply completes_awaiting; [by etrans | done].
Qed.

Lemma completes_ext rt1 rt2 {A} log from (co : coroutine A) outcome :
  (∀ before c, generate_response rt1 before c = generate_response rt2 before c) →
  completes rt1 log from co outcome → completes rt2 log from co outcome.
Proof.
  intros Hext Hco.
  induction Hco as [from outcome Hfrom|from before c resume outcome Hfrom _ IH].
  - by apply completes_finished.
  - apply completes_awaiting with (before := before); [done |]. by rewrite <- Hext.
Qed.

Lemma await_calls rt {A} (co : coroutine A) s :
  calls s `prefix_of` calls (await rt co s).2.
Proof.
  revert s. induction co as [outcome|c resume IH]; intros s; [done |].
  simpl. etrans; [| apply IH]. simpl. by apply prefix_app_r.
Qed.

Lemma await_completes rt {A} (co : coroutine A) s log :
  calls (await rt co s).2 `prefix_of` log →
  completes rt log (calls s) co (await rt co s).1.
Proof.
  revert s. induction co as [outcome|c resume IH]; intros s Hlog.
  - by apply completes_finished.
  - simpl in *. eapply completes_awaiting; [done |].
    exact (IH (generate_response rt (calls s) c)
              (mkState (shared_context s) (calls s ++ [c])
                       (clock_after rt (calls s) c (clock s))) Hlog).
Qed.

Lemma completes_history_independent rt {A} log from (co : coroutine A) outcome s :
  history_independent rt → completes rt log from co outcome →
  (await rt co s).1 = outcome.
Proof.
  intros Hblind Hco. revert s.
  induction Hco as [from outcome Hfrom|from before c resume outcome Hfrom _ IH];
    intros s; [reflexivity |].
  simpl. rewrite (Hblind (calls s) before). apply IH.
Qed.

(** ** Gathering coroutines *)

Lemma elem_of_delete_other {A} (l : list A) (k : nat) (x y : A) :
  x ∈ l → l !! k = Some y → x ≠ y → x ∈ delete k l.
Proof.
  intros Hin Hk Hne. apply list_elem_of_lookup in Hin as [p Hp].
  destruct (decide (p < k)) as [Hlt|Hge].
  - apply (list_elem_of_lookup_2 _ p). by rewrite list_lookup_delete_lt.
  - assert (p ≠ k) by (intros ->; congruence).
    apply (list_elem_of_lookup_2 _ (pred p)).
    rewrite list_lookup_delete_ge by lia.
    by replace (S (pred p)) with p by lia.
Qed.

Section Gather.

Context (rt : Runtime) {A : Type} (coros : list (coroutine A)) (s0 : State).

Lemma suspended_ok_mono log log' (p : Suspended A) :
  suspended_ok rt coros s0 log p → log `prefix_of` log' →
  suspended_ok rt coros s0 log' p.
Proof.
  intros (co & Hco & Hissued & Hnext) Hlog. exists co. split_and!; [done | by etrans | done].
Qed.

Lemma slot_ok_mono log log' (slots : list (option (result A))) i co :
  slot_ok rt s0 log slots i co → log `prefix_of` log' → slot_ok rt s0 log' slots i co.
Proof.
  intros (outcome & Hslot & Hco) Hlog. exists outcome. split; [done |].
  intros final Hfinal. apply Hco. by etrans.
Qed.

Lemma loop_invariant_mono covered (pending : list (Suspended A)) slots s s' :
  loop_invariant rt coros s0 covered pending slots s →
  calls s `prefix_of` calls s' →
  loop_invariant rt coros s0 covered pending slots s'.
Proof.
  intros (Hlen & Hlog & Hpending & Hslots) Hgrow.
  split_and!; [done | by etrans | |].
  - intros p Hp. eapply suspended_ok_mono; [by apply Hpending | done].
  - intros i co Hcov Hi. destruct (Hslots i co Hcov Hi) as [Hslot|Hp]; [| by right].
    left. by eapply slot_ok_mono.
Qed.

(** The coroutine at position [i] runs on as [co'], from which it
    completes as the coroutine of the list does. *)
Lemma run_until_suspended_invariant covered i co (co' : coroutine A) pending slots s :
  loop_invariant rt coros s0 (λ j, covered j ∧ j ≠ i) pending slots s →
  coros !! i = Some co →
  (∀ final outcome, completes rt final (calls s) co' outcome →
                    completes rt final (calls s0) co outcome) →
  let '(pending', slots', s') := run_until_suspended rt i co' pending slots s in
  loop_invariant rt coros s0 covered pending' slots' s'.
Proof.
  intros Hinv Hi. revert s Hinv.
  induction co' as [outcome|c resume IH]; intros s Hinv Hnext;
    cbn [run_until_suspended].
  - destruct Hinv as (Hlen & Hlog & Hpending & Hslots).
    split_and!; [by rewrite length_insert | done | done |].
    intros j co_j Hcov Hj. destruct (decide (j = i)) as [->|Hne].
    + left. assert (co_j = co) as -> by congruence. exists outcome. split.
      * apply list_lookup_insert_eq. rewrite Hlen. by eapply lookup_lt_Some.
      * intros final Hfinal. apply Hnext. by apply completes_finished.
    + destruct (Hslots j co_j (conj Hcov Hne) Hj) as [(o & Hslot & Hco)|Hp]; [| by right].
      left. exists o. by rewrite list_lookup_insert_ne.
  - assert (Hgrow : calls s `prefix_of` (calls s ++ [c])%list) by by apply prefix_app_r.
    destruct (suspends rt (calls s) c).
    + destruct Hinv as (Hlen & Hlog & Hpending & Hslots).
      split_and!; [done | by etrans | |].
      * intros p Hp. apply elem_of_app in Hp as [Hp|Hp].
        -- eapply suspended_ok_mono; [by apply Hpending | done].
        -- apply list_elem_of_singleton in Hp as ->. exists co. simpl.
           split_and!; [done | done |].
           intros final outcome Hco. apply Hnext.
           by apply completes_awaiting with (before := calls s).
      * intros j co_j Hcov Hj. destruct (decide (j = i)) as [->|Hne].
        -- right. eexists. split; [apply elem_of_app; right; apply list_elem_of_here |].
           reflexivity.
        -- destruct (Hslots j co_j (conj Hcov Hne) Hj) as [Hslot|(p & Hp & Hpos)].
           ++ left. by eapply slot_ok_mono.
           ++ right. exists p. split; [apply elem_of_app; by left | done].
    + cbn [provider_generate_response].
      apply (IH (generate_response rt (calls s) c)
                (mkState (shared_context s) (calls s ++ [c])%list
                         (clock_after rt (calls s) c (clock s)))).
      * by eapply loop_invariant_mono.
      * intros final outcome Hco. apply Hnext.
        by apply completes_awaiting with (before := calls s).
Qed.

Lemma start_all_invariant i rest pending slots s :
  loop_invariant rt coros s0 (λ j, j < i) pending slots s →
  drop i coros = rest →
  let '(pending', slots', s') := start_all rt i rest pending slots s in
  loop_invariant rt coros s0 (λ _, True) pending' slots' s'.
Proof.
  revert i pending slots s.
  induction rest as [|co rest IH]; intros i pending slots s Hinv Hdrop; simpl.
  - destruct Hinv as (Hlen & Hlog & Hpending & Hslots).
    split_and!; [done | done | done |].
    intros j co_j _ Hj. apply Hslots; [| done].
    apply lookup_lt_Some in Hj.
    assert (length (drop i coros) = 0) as Hnil by by rewrite Hdrop.
    rewrite length_drop in Hnil. lia.
  - assert (Hi : coros !! i = Some co).
    { rewrite <- (Nat.add_0_r i), <- lookup_drop, Hdrop. reflexivity. }
    pose proof (run_until_suspended_invariant (λ j, j < S i) i co co pending slots s)
      as Hrun.
    destruct (run_until_suspended rt i co pending slots s) as [[pending' slots'] s'].
    apply IH.
    + apply Hrun; [| done |].
      * destruct Hinv as (Hlen & Hlog & Hpending & Hslots).
        split_and!; [done | done | done |].
        intros j co_j [Hlt Hne] Hj. apply Hslots; [lia | done].
      * intros final outcome Hco. eapply completes_from; [done |].
        by destruct Hinv as (_ & Hlog & _).
    + rewrite (drop_S _ _ _ Hi) in Hdrop. by injection Hdrop.
Qed.

Lemma complete_all_invariant (pending : list (Suspended A)) slots s :
  loop_invariant rt coros s0 (λ _, True) pending slots s →
  let '(slots', s') := complete_all rt pending slots s in
  loop_invariant rt coros s0 (λ _, True) [] slots' s'.
Proof.
  revert slots s. induction pending as [|p rest IH]; intros slots s Hinv; simpl;
    [done |].
  destruct Hinv as (Hlen & Hlog & Hpending & Hslots).
  destruct (Hpending p (list_elem_of_here _ _)) as (co & Hco & Hissued & Hnext).
  set (answer := generate_response rt (issued_before p) (pending_call p)) in *.
  set (s1 := mkState (shared_context s) (calls s)
               (clock_after rt (issued_before p) (pending_call p) (clock s))).
  pose proof (await_calls rt (resume_with p answer) s1) as Hgrow.
  pose proof (await_completes rt (resume_with p answer) s1) as Hawait.
  destruct (await rt (resume_with p answer) s1) as [outcome s2]. simpl in *.
  apply IH. split_and!; [by rewrite length_insert | by etrans | |].
  - intros p' Hp'. eapply suspended_ok_mono; [| done].
    apply Hpending. by apply list_elem_of_further.
  - intros j co_j _ Hj. destruct (decide (j = position p)) as [->|Hne].
    + left. assert (co_j = co) as -> by congruence. exists outcome. split.
      * apply list_lookup_insert_eq. rewrite Hlen. by eapply lookup_lt_Some.
      * intros final Hfinal. apply Hnext.
        eapply completes_from; [by apply Hawait | done].
    + destruct (Hslots j co_j I Hj) as [(o & Hslot & Ho)|(p' & Hp' & Hpos)].
      * left. exists o. rewrite list_lookup_insert_ne by done. split; [done |].
        intros final Hfinal. apply Ho. by etrans.
      * right. exists p'. split; [| done].
        apply elem_of_cons in Hp' as [->|Hp']; [congruence | done].
Qed.

Lemma event_loop_invariant order (pending : list (Suspended A)) slots s :
  loop_invariant rt coros s0 (λ _, True) pending slots s →
  let '(slots', s') := event_loop rt order pending slots s in
  loop_invariant rt coros s0 (λ _, True) [] slots' s'.
Proof.
  revert pending slots s.
  induction order as [|k order IH]; intros pending slots s Hinv; simpl;
    [by apply complete_all_invariant |].
  destruct (pending !! (k `mod` length pending)) as [p|] eqn:Hpick.
  - destruct Hinv as (Hlen & Hlog & Hpending & Hslots).
    pose proof (list_elem_of_lookup_2 _ _ _ Hpick) as Hp.
    destruct (Hpending p Hp) as (co & Hco & Hissued & Hnext).
    set (answer := generate_response rt (issued_before p) (pending_call p)) in *.
    set (s1 := mkState (shared_context s) (calls s)
                 (clock_after rt (issued_before p) (pending_call p) (clock s))).
    pose proof (run_until_suspended_invariant (λ _, True) (position p) co
                  (resume_with p answer) (delete (k `mod` length pending) pending)
                  slots s1) as Hrun.
    destruct (run_until_suspended rt _ _ _ _ s1) as [[pending' slots'] s2].
    apply IH, Hrun; [| done |].
    + split_and!; [done | done | |].
      * intros p' Hp'. apply Hpending. by eapply list_elem_of_delete_inv.
      * intros j co_j [_ Hne] Hj.
        destruct (Hslots j co_j I Hj) as [Hslot|(p' & Hp' & Hpos)]; [by left |].
        right. exists p'. split; [| done].
        eapply elem_of_delete_other; [done | done | congruence].
    + intros final outcome Hfinal. apply Hnext.
      eapply completes_from; [done | done].
  - assert (pending = []) as ->.
    { destruct pending as [|p pending]; [done |].
      apply lookup_ge_None in Hpick.
      pose proof (Nat.mod_upper_bound k (length (p :: pending))) as Hlt.
      simpl in *. lia. }
    done.
Qed.

(** [gather] never raises; it returns one outcome per coroutine, and
    the outcome at position [i] is one the coroutine at position [i]
    completes with, its calls answered at points of the log of the
    run, whatever the completion order. *)
Lemma gather_spec :
  ∃ outcomes s',
    gather rt coros s0 = (Ok outcomes, s') ∧
    length outcomes = length coros ∧
    ∀ i co, coros !! i = Some co →
      ∃ outcome, outcomes !! i = Some outcome ∧
                 completes rt (calls s') (calls s0) co outcome.
Proof.
  unfold gather.
  pose proof (start_all_invariant 0 coros [] (replicate (length coros) None) s0) as Hstart.
  destruct (start_all rt 0 coros [] _ s0) as [[pending slots] s1].
  pose proof (event_loop_invariant (completion_order rt) pending slots s1) as Hloop.
  destruct (event_loop rt _ pending slots s1) as [slots' s2].
  destruct Hloop as (Hlen & Hlog & _ & Hslots).
  { apply Hstart; [| done].
    split_and!; [by rewrite length_replicate | done | |].
    - intros p Hp. by apply elem_of_nil in Hp.
    - intros j co_j Hlt. lia. }
  eexists _, s2. split_and!; [reflexivity | by rewrite length_fmap |].
  intros i co Hi. destruct (Hslots i co I Hi) as [(outcome & Hslot & Hco)|(p & Hp & _)];
    [| by apply elem_of_nil in Hp].
  exists outcome. split; [by rewrite list_lookup_fmap, Hslot | by apply Hco].
Qed.

End Gather.

(** ** The custom workflow *)

Lemma generate_workflow_report_ok rt workflow_name steps s :
  ∃ text, _generate_workflow_report rt workflow_name steps s = (Ok text, s).
Proof. eexists. reflexivity. Qed.

Lemma parallel_steps_spec tasks results i s :
  (i + length results ≤ length tasks)%nat →
  ∃ steps,
    parallel_steps tasks i results s = (Ok steps, s) ∧
    length steps = length results ∧
    ∀ j outcome, results !! j = Some outcome →
      ∃ task, tasks !! (i + j)%nat = Some task ∧
              steps !! j = Some (step_name true (i + j)%nat task, step_text outcome).
Proof.
  revert i. induction results as [|result rest IH]; intros i Hlen; simpl in *.
  - exists []. split_and!; [done | done |]. intros j outcome Hj. done.
  - destruct (lookup_lt_is_Some_2 tasks i) as [task Htask]; [lia |].
    destruct (IH (S i)) as (steps & Hrun & Hsteps & Hall); [lia |].
    unfold bind, lift, list_item. rewrite Htask, Hrun. simpl.
    eexists. split_and!; [reflexivity | simpl; by rewrite Hsteps |].
    intros [|j] outcome Hj; simplify_eq/=.
    + exists task. rewrite Nat.add_0_r. split; [done |]. by destruct outcome.
    + destruct (Hall j outcome Hj) as (task' & Htask' & Hstep).
      exists task'. by replace (i + S j)%nat with (S i + j)%nat by lia.
Qed.

Lemma state_before_context rt model_strategy tasks i s :
  shared_context (state_before rt model_strategy tasks i s) = shared_context s.
Proof.
  revert tasks s. induction i as [|i IH]; intros [|task rest] s; simpl; try reflexivity.
  by rewrite IH, frame_execute_single_task.
Qed.

(** The sequential branch never raises; it records one step per task, in
    order, holding what the task returned or the text of what it raised
    when it ran from the state the tasks before it left. *)
Lemma sequential_steps_spec rt model_strategy tasks s :
  ∃ steps,
    sequential_steps rt tasks model_strategy s =
    (Ok steps, state_before rt model_strategy tasks (length tasks) s) ∧
    length steps = length tasks ∧
    ∀ i task, tasks !! i = Some task →
      steps !! i =
      Some (step_name false i task,
            step_text (_execute_single_task rt task model_strategy
                         (state_before rt model_strategy tasks i s)).1).
Proof.
  revert s. induction tasks as [|task rest IH]; intros s.
  - exists []. split_and!; [done | done |]. intros i task Hi. done.
  - cbn [sequential_steps length state_before].
    unfold bind at 1. unfold try_except, bind at 1.
    destruct (_execute_single_task rt task model_strategy s) as [outcome s1] eqn:Hrun.
    destruct (IH s1) as (steps & Hrest & Hlen & Hall).
    exists ((step_name false 0 task, step_text outcome) :: steps).
    split_and!.
    + destruct outcome as [text|e]; simpl; unfold bind; by rewrite Hrest.
    + simpl. by rewrite Hlen.
    + intros [|i] task' Hi.
      * injection Hi as <-. simpl. by rewrite Hrun.
      * apply (Hall i task' Hi).
Qed.

Lemma sequential_custom_workflow rt tasks model_strategy s :
  ∃ steps,
    _execute_custom_workflow rt tasks false model_strategy s =
    _generate_workflow_report rt "Custom Workflow" steps
      (state_before rt model_strategy tasks (length tasks) s) ∧
    length steps = length tasks ∧
    ∀ i task, tasks !! i = Some task →
      steps !! i =
      Some (step_name false i task,
            step_text (_execute_single_task rt task model_strategy
                         (state_before rt model_strategy tasks i s)).1).
Proof.
  destruct (sequential_steps_spec rt model_strategy tasks s) as (steps & Hrun & Hlen & Hall).
  exists steps. split_and!; [| done | done].
  unfold _execute_custom_workflow. unfold bind at 1. by rewrite Hrun.
Qed.

Lemma parallel_custom_workflow rt tasks model_strategy s :
  ∃ outcomes steps s',
    gather rt ((λ task, Coroutine._execute_single_task rt task model_strategy) <$> tasks) s =
      (Ok outcomes, s') ∧
    _execute_custom_workflow rt tasks true model_strategy s =
      _generate_workflow_report rt "Custom Workflow" steps s' ∧
    length steps = length tasks ∧
    ∀ i task, tasks !! i = Some task →
      ∃ outcome,
        outcomes !! i = Some outcome ∧
        completes rt (calls s') (calls s)
          (Coroutine._execute_single_task rt task model_strategy) outcome ∧
        steps !! i = Some (step_name true i task, step_text outcome).
Proof.
  destruct (gather_spec rt
              ((λ task, Coroutine._execute_single_task rt task model_strategy) <$> tasks) s)
    as (outcomes & s' & Hgather & Hlen & Hall).
  rewrite length_fmap in Hlen.
  destruct (parallel_steps_spec tasks outcomes 0 s') as (steps & Hsteps & Hlen' & Hstep);
    [lia |].
  exists outcomes, steps, s'. split_and!; [done | | lia |].
  - unfold _execute_custom_workflow. unfold bind at 1. unfold bind at 1.
    by rewrite Hgather, Hsteps.
  - intros i task Hi.
    destruct (Hall i (Coroutine._execute_single_task rt task model_strategy))
      as (outcome & Hout & Hco).
    { by rewrite list_lookup_fmap, Hi. }
    destruct (Hstep i _ Hout) as (task' & Htask' & Hstep_i).
    simpl in Htask'. assert (task' = task) as -> by congruence.
    by exists outcome.
Qed.


(** ** Outcomes that do not depend on the call history *)

Lemma blind_ret {A} (a : A) : reads_context_only (ret a).
Proof. intros s1 s2 _. reflexivity. Qed.

Lemma blind_raise {A} (e : exn) : reads_context_only (@raise A e).
Proof. intros s1 s2 _. reflexivity. Qed.

Lemma blind_lift {A} (r : result A) : reads_context_only (lift r).
Proof. intros s1 s2 _. reflexivity. Qed.

Lemma blind_bind {A B} (m : M A) (k : A → M B) :
  preserves_context m → reads_context_only m →
  (∀ a, reads_context_only (k a)) →
  reads_context_only (bind m k).
Proof.
  intros Hframe Hm Hk s1 s2 Hctx. unfold bind.
  pose proof (Hm s1 s2 Hctx) as Hsame.
  pose proof (Hframe s1) as H1. pose proof (Hframe s2) as H2.
  destruct (m s1) as [r1 s1'], (m s2) as [r2 s2']; simpl in *. subst r2.
  destruct r1 as [a|e]; [| reflexivity].
  apply Hk. congruence.
Qed.

Lemma blind_try_except {A} (m : M A) (h : exn → M A) :
  preserves_context m → reads_context_only m →
  (∀ e, reads_context_only (h e)) →
  reads_context_only (try_except m h).
Proof.
  intros Hframe Hm Hh s1 s2 Hctx. unfold try_except.
  pose proof (Hm s1 s2 Hctx) as Hsame.
  pose proof (Hframe s1) as H1. pose proof (Hframe s2) as H2.
  destruct (m s1) as [r1 s1'], (m s2) as [r2 s2']; simpl in *. subst r2.
  destruct r1 as [a|e]; [reflexivity |].
  apply Hh. congruence.
Qed.

Lemma blind_provider rt (c : Call) :
  history_independent rt → reads_context_only (provider_generate_response rt c).
Proof. intros Hrt s1 s2 _. apply Hrt. Qed.

Lemma blind_agents_item name : reads_context_only (agents_item name).
Proof.
  unfold agents_item. destruct (agents !! name); [apply blind_ret | apply blind_raise].
Qed.

Create HintDb blind.
#[local] Hint Resolve blind_ret blind_raise blind_lift blind_provider
  blind_agents_item : blind.

Ltac blind_step :=
  first
    [ solve [auto 2 with blind nocore]
    | apply blind_bind; [solve [frame] | |]
    | apply blind_try_except; [solve [frame] | |]
    | progress intros
    | match goal with
      | |- reads_context_only (if ?b then _ else _) => destruct b
      | |- reads_context_only (match ?x with _ => _ end) => destruct x
      end ].

Ltac blind := repeat blind_step.

Section Blind.

Context (rt : Runtime).
Hypothesis provider_blind : history_independent rt.

Lemma blind_execute_with_model model context thinking :
  reads_context_only (_execute_with_model rt model context thinking).
Proof. unfold _execute_with_model. blind. Qed.

Lemma blind_consensus_responses prompt files models thinking todo :
  reads_context_only (consensus_responses rt prompt files models thinking todo).
Proof. induction todo as [|model todo IH]; simpl; blind. Qed.

Lemma blind_execute_consensus_workflow prompt files models thinking :
  reads_context_only (_execute_consensus_workflow rt prompt files models thinking).
Proof.
  pose proof blind_consensus_responses.
  unfold _execute_consensus_workflow, _analyze_consensus. blind.
Qed.

Lemma blind_agent_execute a arguments :
  reads_context_only (agent_execute rt a arguments).
Proof.
  pose proof blind_execute_with_model. pose proof blind_execute_consensus_workflow.
  destruct a; simpl;
    unfold ArchitectureAgent_execute, ImplementationAgent_execute,
      OptimizationAgent_execute, ContentAgent_execute,
      ConsensusAgent_execute, ProceduralPuzzleAgent_execute,
      DynamicDifficultyAgent_execute, NarrativeAgent_execute,
      AssetOptimizationAgent_execute;
    blind.
Qed.

Lemma blind_execute_single_task task model_strategy :
  reads_context_only (_execute_single_task rt task model_strategy).
Proof.
  pose proof blind_agent_execute.
  unfold _execute_single_task. blind.
Qed.

End Blind.

(** C4: in a sequential custom workflow of three tasks where the second
    task fails and the other two succeed, the run returns the report of
    exactly three steps; the second step's text is "Error: " followed by
    the failure's message, and the first and third steps carry the text
    their tasks returned. *)
Theorem sequential_isolation (rt : Runtime) (t1 t2 t3 : dict) (model_strategy : string)
    (s s1 s2 s3 : State) (r1 r3 : string) (e : exn) :
  _execute_single_task rt t1 model_strategy s = (Ok r1, s1) →
  _execute_single_task rt t2 model_strategy s1 = (Raise e, s2) →
  _execute_single_task rt t3 model_strategy s2 = (Ok r3, s3) →
  execute rt "custom" [t1; t2; t3] false model_strategy s =
    _generate_workflow_report rt "Custom Workflow"
      [(step_name false 0 t1, r1);
       (step_name false 1 t2, "Error: " +:+ str_exn e);
       (step_name false 2 t3, r3)] s3 ∧
  (∃ text, execute rt "custom" [t1; t2; t3] false model_strategy s = (Ok text, s3) ∧
           occurs ("**Total Steps:** 3" +:+ nl) text = true) ∧
  String.prefix "Error:" ("Error: " +:+ str_exn e) = true.
Proof.
  intros H1 H2 H3.
  assert (Hrun : execute rt "custom" [t1; t2; t3] false model_strategy s =
    _generate_workflow_report rt "Custom Workflow"
      [(step_name false 0 t1, r1);
       (step_name false 1 t2, "Error: " +:+ str_exn e);
       (step_name false 2 t3, r3)] s3).
  { unfold execute. simpl. unfold _execute_custom_workflow. simpl.
    unfold bind, try_except, ret. by rewrite H1, H2, H3. }
  split_and!; [exact Hrun | | reflexivity].
  rewrite Hrun. eexists. split; [reflexivity |].
  do 8 apply occurs_later.
  exact (occurs_here ("**Total Steps:** 3" +:+ nl) _).
Qed.

Lemma sequential_isolation_witness :
  ∃ s1 s2 s3,
    _execute_single_task (sample_runtime second_fails [])
      (sample_task "architecture" "design") "auto" sample_state = (Ok "answer 0", s1) ∧
    _execute_single_task (sample_runtime second_fails [])
      (sample_task "implementation" "build") "auto" s1 =
      (Raise (ToolExecutionError "Failed to execute with model gemini-flash: timeout"), s2) ∧
    _execute_single_task (sample_runtime second_fails [])
      (sample_task "content" "write") "auto" s2 = (Ok "answer 2", s3) ∧
    execute (sample_runtime second_fails []) "custom"
      [sample_task "architecture" "design"; sample_task "implementation" "build";
       sample_task "content" "write"] false "auto" sample_state =
    _generate_workflow_report (sample_runtime second_fails []) "Custom Workflow"
      [(VStr "Task", "answer 0");
       (VStr "Task", "Error: Failed to execute with model gemini-flash: timeout");
       (VStr "Task", "answer 2")] s3.
Proof.
  pose (rt := sample_runtime second_fails []).
  pose (s1 := (_execute_single_task rt (sample_task "architecture" "design")
                 "auto" sample_state).2).
  pose (s2 := (_execute_single_task rt (sample_task "implementation" "build") "auto" s1).2).
  pose (s3 := (_execute_single_task rt (sample_task "content" "write") "auto" s2).2).
  assert (H1 : _execute_single_task rt (sample_task "architecture" "design")
                 "auto" sample_state = (Ok "answer 0", s1))
    by (vm_compute; reflexivity).
  assert (H2 : _execute_single_task rt (sample_task "implementation" "build") "auto" s1 =
               (Raise (ToolExecutionError
                         "Failed to execute with model gemini-flash: timeout"), s2))
    by (vm_compute; reflexivity).
  assert (H3 : _execute_single_task rt (sample_task "content" "write") "auto" s2 =
               (Ok "answer 2", s3))
    by (vm_compute; reflexivity).
  exists s1, s2, s3. split; [exact H1 |]. split; [exact H2 |]. split; [exact H3 |].
  exact (proj1 (sequential_isolation rt _ _ _ "auto" sample_state s1 s2 s3 _ _ _ H1 H2 H3)).
Defined.

(** ** The named workflows have no handler *)

Lemma append_step_if_run rt included name (step : M string)
    (workflow_steps : list (value * string)) (k : list (value * string) → M string)
    (rest : list (string * M string)) title s :
  preserves_context step →
  (∀ workflow_steps' s', shared_context s' = shared_context s →
     k workflow_steps' s' =
     report_unless_raised rt title (run_steps rest workflow_steps' s')) →
  bind (append_step_if included name step workflow_steps) k s =
  report_unless_raised rt title
    (run_steps (step_if included name step ++ rest) workflow_steps s).
Proof.
  intros Hframe Hk. destruct included; simpl.
  - unfold append_step_if, bind. specialize (Hframe s).
    destruct (step s) as [[text|e] s1]; [| reflexivity]. by apply Hk.
  - by apply Hk.
Qed.

Lemma named_workflow_fail_fast rt workflow_type tasks parallel model_strategy s :
  workflow_type ∈ named_workflow_types →
  execute rt workflow_type tasks parallel model_strategy s =
  report_unless_raised rt (workflow_title workflow_type)
    (run_steps (included_steps rt workflow_type (shared_context s) tasks model_strategy)
               [] s).
Proof.
  intros Hin. unfold named_workflow_types in Hin.
  repeat (apply elem_of_cons in Hin as [->|Hin]); [ | | | | by apply elem_of_nil in Hin ].
  - change (execute rt "game_development" tasks parallel model_strategy s)
      with (_execute_game_development_workflow rt tasks parallel model_strategy s).
    change (included_steps rt "game_development" (shared_context s) tasks model_strategy)
      with (step_if (any_of_type "architecture" tasks) "Architecture Planning"
              (_execute_architecture_step rt tasks model_strategy)
            ++ step_if (any_of_type "implementation" tasks) "Implementation"
                 (_execute_implementation_step rt tasks model_strategy)
            ++ step_if (any_of_type "content" tasks) "Content Creation"
                 (_execute_content_step rt tasks model_strategy)
            ++ step_if (any_of_type "optimization" tasks) "Performance Optimization"
                 (_execute_optimization_step rt tasks model_strategy))%list.
    rewrite <- (app_nil_r (step_if (any_of_type "optimization" tasks) _ _)).
    unfold _execute_game_development_workflow.
    apply append_step_if_run; [frame | intros steps1 s1 Hs1].
    apply append_step_if_run; [frame | intros steps2 s2 Hs2].
    apply append_step_if_run; [frame | intros steps3 s3 Hs3].
    apply append_step_if_run; [frame | intros steps4 s4 Hs4].
    reflexivity.
  - change (execute rt "puzzle_generation" tasks parallel model_strategy s)
      with (_execute_puzzle_generation_workflow rt tasks parallel model_strategy s).
    change (included_steps rt "puzzle_generation" (shared_context s) tasks model_strategy)
      with (step_if true "Theme Analysis" (_analyze_puzzle_theme rt tasks)
            ++ step_if true "Puzzle Generation"
                 (_generate_puzzle_variations rt tasks model_strategy)
            ++ step_if (bool_decide (is_Some (shared_context s !! "difficulty_adjustment")))
                 "Difficulty Balancing" (_balance_difficulty rt tasks model_strategy)
            ++ step_if (bool_decide (is_Some (shared_context s !! "narrative")))
                 "Narrative Integration" (_integrate_narrative rt tasks model_strategy))%list.
    rewrite <- (app_nil_r (step_if (bool_decide (is_Some (shared_context s !! "narrative")))
                             _ _)).
    unfold _execute_puzzle_generation_workflow.
    apply append_step_if_run; [frame | intros steps1 s1 Hs1].
    apply append_step_if_run; [frame | intros steps2 s2 Hs2].
    rewrite bind_context_contains, Hs2, Hs1.
    apply append_step_if_run; [frame | intros steps3 s3 Hs3].
    rewrite bind_context_contains, Hs3, Hs2, Hs1.
    apply append_step_if_run; [frame | intros steps4 s4 Hs4].
    reflexivity.
  - change (execute rt "content_creation" tasks parallel model_strategy s)
      with (_execute_content_creation_workflow rt tasks parallel model_strategy s).
    change (included_steps rt "content_creation" (shared_context s) tasks model_strategy)
      with (step_if true "Story Development" (_develop_story rt tasks model_strategy)
            ++ step_if (bool_decide (is_Some (shared_context s !! "characters")))
                 "Character Creation" (_create_characters rt tasks model_strategy)
            ++ step_if true "Scene Writing" (_write_scenes rt tasks model_strategy)
            ++ step_if (bool_decide (is_Some (shared_context s !! "assets")))
                 "Asset Generation" (_generate_assets rt tasks model_strategy))%list.
    rewrite <- (app_nil_r (step_if (bool_decide (is_Some (shared_context s !! "assets")))
                             _ _)).
    unfold _execute_content_creation_workflow.
    apply append_step_if_run; [frame | intros steps1 s1 Hs1].
    rewrite bind_context_contains, Hs1.
    apply append_step_if_run; [frame | intros steps2 s2 Hs2].
    apply append_step_if_run; [frame | intros steps3 s3 Hs3].
    rewrite bind_context_contains, Hs3, Hs2, Hs1.
    apply append_step_if_run; [frame | intros steps4 s4 Hs4].
    reflexivity.
  - change (execute rt "optimization" tasks parallel model_strategy s)
      with (_execute_optimization_workflow rt tasks parallel model_strategy s).
    change (included_steps rt "optimization" (shared_context s) tasks model_strategy)
      with (step_if true "Performance Analysis"
              (_analyze_performance rt tasks model_strategy)
            ++ step_if true "Bottleneck Identification"
                 (_identify_bottlenecks rt tasks model_strategy)
            ++ step_if true "Optimization Recommendations"
                 (_generate_optimizations rt tasks model_strategy)
            ++ step_if true "Implementation Strategy"
                 (_create_implementation_plan rt tasks model_strategy) ++ [])%list.
    unfold _execute_optimization_workflow.
    apply append_step_if_run; [frame | intros steps1 s1 Hs1].
    apply append_step_if_run; [frame | intros steps2 s2 Hs2].
    apply append_step_if_run; [frame | intros steps3 s3 Hs3].
    apply append_step_if_run; [frame | intros steps4 s4 Hs4].
    reflexivity.
Qed.

(** C1 (as amended): in the custom workflow the run always returns a
    rendered report with one step per task, in task order, and a
    failure raised while a task executes is recorded as that step's
    text "Error: <message>".  In the sequential branch the step of a
    task holds the outcome the task has in the state the tasks before
    it left.  In the parallel branch it holds the outcome [gather]
    collected at the task's position, which the task's coroutine
    completes with when its calls are answered at points of the run's
    call log; awaiting that coroutine is [_execute_single_task].  The
    four named workflows await their steps with no handler: the first
    step that raises ends the run with its exception and no report is
    returned. *)
Theorem custom_workflow_isolates_failures (rt : Runtime) :
  (∀ tasks model_strategy s,
     ∃ steps text,
       execute rt "custom" tasks false model_strategy s =
         (Ok text, state_before rt model_strategy tasks (length tasks) s) ∧
       _generate_workflow_report rt "Custom Workflow" steps
         (state_before rt model_strategy tasks (length tasks) s) =
         (Ok text, state_before rt model_strategy tasks (length tasks) s) ∧
       length steps = length tasks ∧
       ∀ i task, tasks !! i = Some task →
         steps !! i =
         Some (step_name false i task,
               step_text (_execute_single_task rt task model_strategy
                            (state_before rt model_strategy tasks i s)).1)) ∧
  (∀ tasks model_strategy s,
     ∃ outcomes steps s' text,
       gather rt ((λ task, Coroutine._execute_single_task rt task model_strategy)
                  <$> tasks) s = (Ok outcomes, s') ∧
       execute rt "custom" tasks true model_strategy s = (Ok text, s') ∧
       _generate_workflow_report rt "Custom Workflow" steps s' = (Ok text, s') ∧
       length steps = length tasks ∧
       ∀ i task, tasks !! i = Some task →
         ∃ outcome,
           outcomes !! i = Some outcome ∧
           completes rt (calls s') (calls s)
             (Coroutine._execute_single_task rt task model_strategy) outcome ∧
           steps !! i = Some (step_name true i task, step_text outcome)) ∧
  (∀ task model_strategy s,
     await rt (Coroutine._execute_single_task rt task model_strategy) s =
     _execute_single_task rt task model_strategy s) ∧
  (∀ workflow_type tasks parallel model_strategy s,
     workflow_type ∈ named_workflow_types →
     execute rt workflow_type tasks parallel model_strategy s =
     report_unless_raised rt (workflow_title workflow_type)
       (run_steps (included_steps rt workflow_type (shared_context s) tasks
                     model_strategy) [] s)).
Proof.
  split_and!.
  - intros tasks model_strategy s.
    destruct (sequential_custom_workflow rt tasks model_strategy s)
      as (steps & Hrun & Hlen & Hall).
    destruct (generate_workflow_report_ok rt "Custom Workflow" steps
                (state_before rt model_strategy tasks (length tasks) s)) as [text Htext].
    exists steps, text. split_and!; [| done | done | done].
    change (execute rt "custom" tasks false model_strategy s)
      with (_execute_custom_workflow rt tasks false model_strategy s).
    by rewrite Hrun.
  - intros tasks model_strategy s.
    destruct (parallel_custom_workflow rt tasks model_strategy s)
      as (outcomes & steps & s' & Hgather & Hrun & Hlen & Hall).
    destruct (generate_workflow_report_ok rt "Custom Workflow" steps s') as [text Htext].
    exists outcomes, steps, s', text. split_and!; [done | | done | done | done].
    change (execute rt "custom" tasks true model_strategy s)
      with (_execute_custom_workflow rt tasks true model_strategy s).
    by rewrite Hrun.
  - intros task model_strategy s. apply await_execute_single_task.
  - intros workflow_type tasks parallel model_strategy s Hin.
    by apply named_workflow_fail_fast.
Qed.

Lemma custom_workflow_isolates_failures_witness :
  (∃ (steps : list (value * string)) text,
     execute (sample_runtime answering []) "custom"
       [sample_task "architecture" "design"; sample_task "nobody" "idle"]
       false "auto" sample_state =
       (Ok text, state_before (sample_runtime answering []) "auto"
                   [sample_task "architecture" "design"; sample_task "nobody" "idle"]
                   2 sample_state) ∧
     steps !! 0 = Some (VStr "Task", "answer 0") ∧
     steps !! 1 = Some (VStr "Task", "Error: Unknown agent: nobody")) ∧
  (∃ (steps : list (value * string)) text s',
     execute (sample_runtime answering [1]) "custom"
       [sample_task "architecture" "design"; sample_task "nobody" "idle"]
       true "auto" sample_state = (Ok text, s') ∧
     steps !! 0 = Some (VStr "Task 1", "answer 0") ∧
     steps !! 1 = Some (VStr "Task 2", "Error: Unknown agent: nobody")) ∧
  ("optimization" ∈ named_workflow_types) ∧
  (execute (sample_runtime second_fails []) "optimization"
     [sample_task "performance_analysis" "profile";
      sample_task "bottleneck_identification" "find";
      sample_task "optimization_recommendations" "advise";
      sample_task "implementation_plan" "plan"] false "auto" sample_state).1 =
  Raise (ToolExecutionError "Failed to execute with model ollama: timeout") ∧
  length (calls (execute (sample_runtime second_fails []) "optimization"
                   [sample_task "performance_analysis" "profile";
                    sample_task "bottleneck_identification" "find";
                    sample_task "optimization_recommendations" "advise";
                    sample_task "implementation_plan" "plan"] false "auto"
                   sample_state).2) = 2.
Proof.
  assert (Hin : "optimization" ∈ named_workflow_types)
    by (unfold named_workflow_types; by repeat constructor).
  split_and!.
  - destruct (proj1 (custom_workflow_isolates_failures (sample_runtime answering []))
                [sample_task "architecture" "design"; sample_task "nobody" "idle"]
                "auto" sample_state) as (steps & text & Hrun & _ & _ & Hall).
    exists steps, text. split_and!; [exact Hrun | |].
    + refine (eq_trans (Hall 0 _ eq_refl) _). vm_compute. reflexivity.
    + refine (eq_trans (Hall 1 _ eq_refl) _). vm_compute. reflexivity.
  - destruct (proj1 (proj2 (custom_workflow_isolates_failures
                              (sample_runtime answering [1])))
                [sample_task "architecture" "design"; sample_task "nobody" "idle"]
                "auto" sample_state)
      as (outcomes & steps & s' & text & Hgather & Hrun & _ & _ & Hall).
    exists steps, text, s'. split; [exact Hrun |].
    vm_compute in Hgather. injection Hgather as <- _.
    split.
    + destruct (Hall 0 _ eq_refl) as (outcome & Hout & _ & Hstep).
      injection Hout as <-. exact Hstep.
    + destruct (Hall 1 _ eq_refl) as (outcome & Hout & _ & Hstep).
      injection Hout as <-. exact Hstep.
  - exact Hin.
  - rewrite (proj2 (proj2 (proj2 (custom_workflow_isolates_failures
                                    (sample_runtime second_fails []))))
               "optimization" _ false "auto" sample_state Hin).
    vm_compute. reflexivity.
  - rewrite (proj2 (proj2 (proj2 (custom_workflow_isolates_failures
                                    (sample_runtime second_fails []))))
               "optimization" _ false "auto" sample_state Hin).
    vm_compute. reflexivity.
Defined.

(** C1 as stated fails: in the game_development workflow a provider
    failure during the architecture step aborts the run, and no report
    is returned. *)
Lemma named_workflow_failure_aborts :
  (execute (sample_runtime failing []) "game_development"
     [sample_task "architecture" "design"; sample_task "content" "write"]
     false "auto" sample_state).1 =
  Raise (ToolExecutionError "Failed to execute with model gemini-pro: timeout").
Proof. vm_compute. reflexivity. Qed.

(** C3: in a parallel custom workflow no task's failure leaves the
    gather: for every completion order the run returns a report with
    one step per task, and the step at position [i] carries the name of
    the task at position [i] and the outcome (text, or "Error:
    <message>") that [gather] collected at position [i]; that outcome is
    one the coroutine of task [i] completes with when its calls are
    answered at points of the run's call log.  When the provider's
    answers do not depend on the calls issued before, step [i] is the
    outcome task [i] has when run on its own from the initial state, so
    the steps are the same for every completion order. *)
Theorem parallel_steps_follow_task_order (rt : Runtime) (order : list nat)
    (tasks : list dict) (model_strategy : string) (s : State) :
  ∃ outcomes steps s' text,
    gather (with_completion_order rt order)
      ((λ task, Coroutine._execute_single_task rt task model_strategy) <$> tasks) s =
      (Ok outcomes, s') ∧
    execute (with_completion_order rt order) "custom" tasks true model_strategy s =
      (Ok text, s') ∧
    _generate_workflow_report rt "Custom Workflow" steps s' = (Ok text, s') ∧
    length steps = length tasks ∧
    (∀ i task, tasks !! i = Some task →
       ∃ outcome,
         outcomes !! i = Some outcome ∧
         completes rt (calls s') (calls s)
           (Coroutine._execute_single_task rt task model_strategy) outcome ∧
         steps !! i = Some (step_name true i task, step_text outcome)) ∧
    (history_independent rt →
     ∀ i task, tasks !! i = Some task →
       steps !! i = Some (step_name true i task,
                          step_text (_execute_single_task rt task model_strategy s).1)).
Proof.
  destruct (parallel_custom_workflow (with_completion_order rt order) tasks
              model_strategy s) as (outcomes & steps & s' & Hgather & Hrun & Hlen & Hall).
  destruct (generate_workflow_report_ok rt "Custom Workflow" steps s') as [text Htext].
  exists outcomes, steps, s', text. split_and!; [exact Hgather | | done | done | |].
  - change (execute (with_completion_order rt order) "custom" tasks true model_strategy s)
      with (_execute_custom_workflow (with_completion_order rt order) tasks true
              model_strategy s).
    rewrite Hrun. exact Htext.
  - intros i task Hi. destruct (Hall i task Hi) as (outcome & Hout & Hco & Hstep).
    exists outcome. split_and!; [done | | done].
    by apply (completes_ext (with_completion_order rt order) rt).
  - intros Hblind i task Hi. destruct (Hall i task Hi) as (outcome & Hout & Hco & Hstep).
    rewrite Hstep. do 3 f_equal.
    rewrite <- (await_execute_single_task rt task model_strategy s).
    symmetry.
    apply (completes_history_independent rt (calls s') (calls s) _ outcome s Hblind).
    by apply (completes_ext (with_completion_order rt order) rt).
Qed.

(** With a provider whose calls yield to the event loop, the second
    task's call is issued while the first task waits for its first
    answer; with one whose calls never yield, each task runs to its end
    before the next one starts. *)
Example gathered_tasks_interleave_at_calls :
  call_model <$>
    calls (execute (sample_runtime answering []) "custom"
             [sample_task "consensus" "which engine?"; sample_task "implementation" "build"]
             true "auto" sample_state).2 =
  [VStr "gemini-pro"; VStr "gemini-flash"; VStr "gpt-5"; VStr "claude-haiku"] ∧
  call_model <$>
    calls (execute (unyielding_runtime answering) "custom"
             [sample_task "consensus" "which engine?"; sample_task "implementation" "build"]
             true "auto" sample_state).2 =
  [VStr "gemini-pro"; VStr "gpt-5"; VStr "claude-haiku"; VStr "gemini-flash"].
Proof. split; vm_compute; reflexivity. Qed.

(** The calls of gathered tasks are issued in task order, whatever the
    order in which they are answered. *)
Example gathered_calls_issued_in_task_order :
  call_model <$>
    calls (execute (sample_runtime answering [1]) "custom"
             [sample_task "architecture" "design"; sample_task "content" "write"]
             true "auto" sample_state).2 =
  [VStr "gemini-pro"; VStr "claude-haiku"] ∧
  call_model <$>
    calls (execute (sample_runtime answering [0]) "custom"
             [sample_task "architecture" "design"; sample_task "content" "write"]
             true "auto" sample_state).2 =
  [VStr "gemini-pro"; VStr "claude-haiku"].
Proof. split; vm_compute; reflexivity. Qed.

Lemma parallel_steps_follow_task_order_witness :
  history_independent (sample_runtime echoing []) ∧
  ∃ steps s' text,
    execute (with_completion_order (sample_runtime echoing []) [2; 0; 0]) "custom"
      [sample_task "architecture" "design"; sample_task "nobody" "idle";
       sample_task "content" "write"] true "auto" sample_state = (Ok text, s') ∧
    _generate_workflow_report (sample_runtime echoing []) "Custom Workflow" steps s' =
      (Ok text, s') ∧
    steps !! 0 = Some (VStr "Task 1", "answer from gemini-pro") ∧
    steps !! 1 = Some (VStr "Task 2", "Error: Unknown agent: nobody") ∧
    steps !! 2 = Some (VStr "Task 3", "answer from claude-haiku").
Proof.
  assert (Hblind : history_independent (sample_runtime echoing [])).
  { intros log1 log2 c. reflexivity. }
  split; [exact Hblind |].
  destruct (parallel_steps_follow_task_order (sample_runtime echoing []) [2; 0; 0]
              [sample_task "architecture" "design"; sample_task "nobody" "idle";
               sample_task "content" "write"] "auto" sample_state)
    as (outcomes & steps & s' & text & _ & Hrun & Hreport & _ & _ & Hsteps).
  exists steps, s', text. split; [exact Hrun |]. split; [exact Hreport |].
  split_and!.
  - exact (Hsteps Hblind 0 (sample_task "architecture" "design") eq_refl).
  - exact (Hsteps Hblind 1 (sample_task "nobody" "idle") eq_refl).
  - exact (Hsteps Hblind 2 (sample_task "content" "write") eq_refl).
Defined.

(** ** The consensus workflow *)

Lemma consensus_responses_skip rt prompt files models thinking todo :
  consensus_responses rt prompt files models thinking todo =
  consensus_responses rt prompt files models thinking
    (List.filter (get_provider_for_model rt) todo).
Proof.
  induction todo as [|model todo IH]; simpl; [reflexivity |].
  destruct (get_provider_for_model rt model) eqn:Hmodel; simpl.
  - by rewrite Hmodel, IH.
  - exact IH.
Qed.

Lemma filter_none {A} (f : A → bool) (l : list A) :
  (∀ x, x ∈ l → f x = false) → List.filter f l = [].
Proof.
  induction l as [|x l IH]; intros Hall; simpl; [reflexivity |].
  rewrite (Hall x) by apply list_elem_of_here.
  apply IH. intros y Hy. apply Hall. by apply list_elem_of_further.
Qed.

Lemma consensus_responses_cons rt prompt files models thinking context model todo s :
  _build_consensus_context rt prompt files models = Ok context →
  get_provider_for_model rt model = true →
  consensus_responses rt prompt files models thinking (model :: todo) s =
  let c := mkCall context model thinking in
  let s1 := mkState (shared_context s) (calls s ++ [c])%list
                    (clock_after rt (calls s) c (clock s)) in
  match generate_response rt (calls s) c with
  | Ok response =>
      match consensus_responses rt prompt files models thinking todo s1 with
      | (Ok responses, s2) => (Ok ((model, response) :: responses), s2)
      | (Raise e, s2) => (Raise e, s2)
      end
  | Raise e => (Raise e, s1)
  end.
Proof.
  intros Hcontext Hmodel. simpl. rewrite Hmodel.
  unfold bind, lift, provider_generate_response. rewrite Hcontext.
  destruct (generate_response rt (calls s) _) as [response|e]; [| reflexivity].
  cbv zeta.
  by destruct (consensus_responses rt prompt files models thinking todo _) as [[?|?] ?].
Qed.

(** The loop stops at the first call that fails, after the calls before
    it were answered. *)
Lemma consensus_responses_first_failure rt prompt files models thinking context
    answered model rest e s :
  _build_consensus_context rt prompt files models = Ok context →
  (∀ m, m ∈ (answered ++ model :: rest)%list → get_provider_for_model rt m = true) →
  (∀ k m, answered !! k = Some m →
     ∃ text, generate_response rt
               (calls s ++ ((λ m, mkCall context m thinking) <$> take k answered))%list
               (mkCall context m thinking) = Ok text) →
  generate_response rt (calls s ++ ((λ m, mkCall context m thinking) <$> answered))%list
    (mkCall context model thinking) = Raise e →
  (consensus_responses rt prompt files models thinking
     (answered ++ model :: rest)%list s).1 = Raise e ∧
  calls (consensus_responses rt prompt files models thinking
           (answered ++ model :: rest)%list s).2 =
  (calls s ++ ((λ m, mkCall context m thinking) <$> answered)
   ++ [mkCall context model thinking])%list.
Proof.
  intros Hcontext. revert s.
  induction answered as [|m answered IH]; intros s Hresolvable Hanswered Hfail.
  - cbn [app fmap list_fmap] in *. rewrite app_nil_r in Hfail.
    rewrite (consensus_responses_cons _ _ _ _ _ context)
      by (try done; apply Hresolvable, list_elem_of_here).
    cbv zeta. by rewrite Hfail.
  - cbn [app].
    rewrite (consensus_responses_cons _ _ _ _ _ context)
      by (try done; apply Hresolvable, list_elem_of_here).
    cbv zeta. destruct (Hanswered 0 m eq_refl) as [text Htext].
    cbn [take fmap list_fmap] in Htext. rewrite app_nil_r in Htext. rewrite Htext.
    destruct (IH (mkState (shared_context s) (calls s ++ [mkCall context m thinking])%list
                    (clock_after rt (calls s) (mkCall context m thinking) (clock s))))
      as [Hraise Hcalls].
    + intros m' Hm'. apply Hresolvable. by apply list_elem_of_further.
    + intros k m' Hk. destruct (Hanswered (S k) m' Hk) as [text' Htext'].
      exists text'. cbn [take fmap list_fmap calls] in *. by rewrite <- app_assoc.
    + cbn [fmap list_fmap calls] in *. by rewrite <- app_assoc.
    + destruct (consensus_responses rt prompt files models thinking _ _)
        as [[responses|e'] s2]; cbn [fst snd calls fmap list_fmap] in *; [discriminate |].
      split; [done |]. rewrite Hcalls. by rewrite <- app_assoc.
Qed.

(** C6 (as amended): a model for which no provider is resolvable is
    skipped without any error, so the responses collected are those of
    the resolvable models; when no model of the list is resolvable the
    function returns the static synthesis text with no per-model
    section and makes no provider call.  A resolved model whose call
    fails is not skipped: whichever resolvable models answered before
    it, the failure leaves the loop, the function raises "Consensus
    workflow failed: <message>" and the models after it are not
    called. *)
Theorem consensus_skips_unresolvable (rt : Runtime) (prompt files thinking : value)
    (models : list value) :
  (∀ todo, consensus_responses rt prompt files (VList models) thinking todo =
           consensus_responses rt prompt files (VList models) thinking
             (List.filter (get_provider_for_model rt) todo)) ∧
  (∀ s, (∀ model, model ∈ models → get_provider_for_model rt model = false) →
        _execute_consensus_workflow rt prompt files (VList models) thinking s =
        (Ok synthesis_only, s)) ∧
  (∀ s answered model rest context e,
     List.filter (get_provider_for_model rt) models = (answered ++ model :: rest)%list →
     _build_consensus_context rt prompt files (VList models) = Ok context →
     (∀ k m, answered !! k = Some m →
        ∃ text, generate_response rt
                  (calls s ++ ((λ m, mkCall context m thinking) <$> take k answered))%list
                  (mkCall context m thinking) = Ok text) →
     generate_response rt
       (calls s ++ ((λ m, mkCall context m thinking) <$> answered))%list
       (mkCall context model thinking) = Raise e →
     (_execute_consensus_workflow rt prompt files (VList models) thinking s).1 =
       Raise (ToolExecutionError ("Consensus workflow failed: " +:+ str_exn e)) ∧
     calls (_execute_consensus_workflow rt prompt files (VList models) thinking s).2 =
       (calls s ++ ((λ m, mkCall context m thinking) <$> answered)
        ++ [mkCall context model thinking])%list).
Proof.
  split_and!.
  - intros todo. apply consensus_responses_skip.
  - intros s Hnone. unfold _execute_consensus_workflow, try_except, bind, lift. simpl.
    rewrite consensus_responses_skip, (filter_none _ _ Hnone). reflexivity.
  - intros s answered model rest context e Hfilter Hcontext Hanswered Hfail.
    destruct (consensus_responses_first_failure rt prompt files (VList models) thinking
                context answered model rest e s Hcontext) as [Hraise Hcalls];
      [| done | done |].
    { intros m Hm. rewrite <- Hfilter in Hm.
      by apply list_elem_of_In, filter_In in Hm as [_ Hm]. }
    destruct (consensus_responses rt prompt files (VList models) thinking _ s)
      as [[responses|e'] s1] eqn:Hloop; cbn [fst snd] in *; [discriminate |].
    injection Hraise as ->.
    assert (Hrun : _execute_consensus_workflow rt prompt files (VList models) thinking s =
                   (Raise (ToolExecutionError
                             ("Consensus workflow failed: " +:+ str_exn e)), s1)).
    { unfold _execute_consensus_workflow, try_except, bind, lift. simpl.
      by rewrite consensus_responses_skip, Hfilter, Hloop. }
    rewrite Hrun. split; [reflexivity | exact Hcalls].
Qed.

Lemma consensus_skips_unresolvable_witness :
  ((∀ model, model ∈ [VStr "gemini-pro"; VStr "gpt-5"] →
             get_provider_for_model offline_runtime model = false) ∧
   _execute_consensus_workflow offline_runtime (VStr "which engine?") (VList [])
     (VList [VStr "gemini-pro"; VStr "gpt-5"]) (VStr "high") sample_state =
   (Ok synthesis_only, sample_state)) ∧
  (List.filter (get_provider_for_model (sample_runtime second_fails []))
     [VStr "gemini-pro"; VStr "gpt-5"; VStr "claude-haiku"] =
     ([VStr "gemini-pro"] ++ VStr "gpt-5" :: [VStr "claude-haiku"])%list ∧
   _build_consensus_context (sample_runtime second_fails []) (VStr "which engine?")
     (VList []) (VList [VStr "gemini-pro"; VStr "gpt-5"; VStr "claude-haiku"]) =
     Ok sample_consensus_prompt3 ∧
   generate_response (sample_runtime second_fails []) (calls sample_state)
     (mkCall sample_consensus_prompt3 (VStr "gemini-pro") (VStr "high")) = Ok "answer 0" ∧
   generate_response (sample_runtime second_fails [])
     (calls sample_state ++ [mkCall sample_consensus_prompt3 (VStr "gemini-pro")
                               (VStr "high")])%list
     (mkCall sample_consensus_prompt3 (VStr "gpt-5") (VStr "high")) =
     Raise (ProviderError "timeout") ∧
   (_execute_consensus_workflow (sample_runtime second_fails []) (VStr "which engine?")
      (VList []) (VList [VStr "gemini-pro"; VStr "gpt-5"; VStr "claude-haiku"])
      (VStr "high") sample_state).1 =
   Raise (ToolExecutionError "Consensus workflow failed: timeout") ∧
   calls (_execute_consensus_workflow (sample_runtime second_fails [])
            (VStr "which engine?") (VList [])
            (VList [VStr "gemini-pro"; VStr "gpt-5"; VStr "claude-haiku"])
            (VStr "high") sample_state).2 =
   [mkCall sample_consensus_prompt3 (VStr "gemini-pro") (VStr "high");
    mkCall sample_consensus_prompt3 (VStr "gpt-5") (VStr "high")]).
Proof.
  split.
  - assert (Hnone : ∀ model, model ∈ [VStr "gemini-pro"; VStr "gpt-5"] →
                             get_provider_for_model offline_runtime model = false)
      by reflexivity.
    split; [exact Hnone |].
    exact (proj1 (proj2 (consensus_skips_unresolvable offline_runtime
                           (VStr "which engine?") (VList []) (VStr "high")
                           [VStr "gemini-pro"; VStr "gpt-5"])) sample_state Hnone).
  - split; [reflexivity |]. split; [reflexivity |]. split; [reflexivity |].
    split; [reflexivity |].
    apply (proj2 (proj2 (consensus_skips_unresolvable (sample_runtime second_fails [])
                           (VStr "which engine?") (VList []) (VStr "high")
                           [VStr "gemini-pro"; VStr "gpt-5"; VStr "claude-haiku"]))
             sample_state [VStr "gemini-pro"] (VStr "gpt-5") [VStr "claude-haiku"]
             sample_consensus_prompt3 (ProviderError "timeout"));
      [reflexivity | reflexivity | | reflexivity].
    intros [|k] m Hk; [| done]. injection Hk as <-. by exists "answer 0".
Defined.

(** C6 as stated fails: a single resolvable model whose call fails makes
    the consensus workflow raise instead of returning the synthesis
    text. *)
Lemma consensus_failure_aborts :
  (_execute_consensus_workflow (sample_runtime failing []) (VStr "which engine?")
     (VList []) (VList [VStr "gemini-pro"]) (VStr "high") sample_state).1 =
  Raise (ToolExecutionError "Consensus workflow failed: timeout").
Proof. vm_compute. reflexivity. Qed.

(** ** Which tasks a step of a named workflow executes *)

Lemma find_singleton ty tasks task :
  List.find (has_type ty) tasks = Some task →
  List.find (has_type ty) [task] = Some task.
Proof.
  intros Hfind. apply find_some in Hfind as [_ Htype]. simpl. by rewrite Htype.
Qed.

Lemma next_task_first ty tasks task :
  List.find (has_type ty) tasks = Some task →
  next_task tasks ty = next_task [task] ty.
Proof.
  intros Hfind. unfold next_task. by rewrite Hfind, (find_singleton _ _ _ Hfind).
Qed.

Lemma first_match_step_first rt ty step tasks task model_strategy :
  (ty, step) ∈ first_match_steps rt →
  List.find (has_type ty) tasks = Some task →
  step tasks model_strategy = step [task] model_strategy.
Proof.
  intros Hin Hfind. unfold first_match_steps in Hin.
  repeat (apply elem_of_cons in Hin as [Hin|Hin];
          [ injection Hin as -> ->;
            unfold _execute_architecture_step, _execute_content_step,
              _execute_optimization_step, _analyze_puzzle_theme,
              _generate_puzzle_variations, _balance_difficulty,
              _integrate_narrative, _develop_story, _create_characters,
              _write_scenes, _generate_assets, _analyze_performance,
              _identify_bottlenecks, _generate_optimizations,
              _create_implementation_plan;
            by rewrite (next_task_first _ _ _ Hfind)
          | ]).
  by apply elem_of_nil in Hin.
Qed.

Lemma has_type_str ty task ty' :
  dict_get task "type" VNone = VStr ty' → has_type ty task = bool_decide (ty' = ty).
Proof. intros Htype. unfold has_type. by rewrite Htype. Qed.

Lemma has_type_other ty task :
  (∀ ty', dict_get task "type" VNone ≠ VStr ty') → has_type ty task = false.
Proof.
  intros Htype. unfold has_type.
  destruct (dict_get task "type" VNone) as [| | |ty'| |]; try done.
  by destruct (Htype ty').
Qed.

Lemma drop_later_cons seen task rest :
  drop_later_of_type seen (task :: rest) =
  match dict_get task "type" VNone with
  | VStr ty =>
      if bool_decide (ty = "implementation") then task :: drop_later_of_type seen rest
      else if bool_decide (ty ∈ seen) then drop_later_of_type seen rest
      else task :: drop_later_of_type (ty :: seen) rest
  | _ => task :: drop_later_of_type seen rest
  end.
Proof. reflexivity. Qed.

Lemma find_drop_later ty seen tasks :
  ty ∉ seen →
  List.find (has_type ty) (drop_later_of_type seen tasks) =
  List.find (has_type ty) tasks.
Proof.
  revert seen. induction tasks as [|task rest IH]; intros seen Hseen;
    [reflexivity |].
  rewrite drop_later_cons.
  destruct (dict_get task "type" VNone) as [| | |ty'| |] eqn:Htype;
    try (simpl; rewrite has_type_other by (intros ty'; by rewrite Htype); by apply IH).
  pose proof (has_type_str ty task ty' Htype) as Hhead.
  destruct (bool_decide (ty' = "implementation")) eqn:Himpl.
  { simpl. rewrite Hhead. destruct (bool_decide (ty' = ty)); [done | by apply IH]. }
  destruct (bool_decide (ty' ∈ seen)) eqn:Hdup.
  - apply bool_decide_eq_true in Hdup. simpl. rewrite Hhead.
    rewrite bool_decide_eq_false_2 by (intros ->; done). by apply IH.
  - apply bool_decide_eq_false in Hdup. simpl. rewrite Hhead.
    destruct (bool_decide (ty' = ty)) eqn:Heq; [done |].
    apply bool_decide_eq_false in Heq.
    apply IH. intros Hin. apply elem_of_cons in Hin as [->|Hin]; done.
Qed.

Lemma filter_drop_later seen tasks :
  List.filter (has_type "implementation") (drop_later_of_type seen tasks) =
  List.filter (has_type "implementation") tasks.
Proof.
  revert seen. induction tasks as [|task rest IH]; intros seen; [reflexivity |].
  rewrite drop_later_cons.
  destruct (dict_get task "type" VNone) as [| | |ty'| |] eqn:Htype;
    try (simpl; rewrite has_type_other by (intros ty'; by rewrite Htype); by apply IH).
  pose proof (has_type_str "implementation" task ty' Htype) as Hhead.
  destruct (bool_decide (ty' = "implementation")) eqn:Himpl.
  { simpl. rewrite Hhead. by rewrite IH. }
  destruct (bool_decide (ty' ∈ seen)) eqn:Hdup; simpl; rewrite Hhead; by apply IH.
Qed.

Lemma any_of_type_find ty tasks :
  any_of_type ty tasks = bool_decide (is_Some (List.find (has_type ty) tasks)).
Proof.
  unfold any_of_type. induction tasks as [|task rest IH]; simpl; [reflexivity |].
  destruct (has_type ty task); simpl; [done | exact IH].
Qed.

Lemma next_task_drop_later ty tasks :
  next_task (drop_later_of_type [] tasks) ty = next_task tasks ty.
Proof.
  unfold next_task. rewrite find_drop_later; [reflexivity |]. apply not_elem_of_nil.
Qed.

Lemma any_of_type_drop_later ty tasks :
  any_of_type ty (drop_later_of_type [] tasks) = any_of_type ty tasks.
Proof.
  rewrite !any_of_type_find, find_drop_later; [reflexivity |]. apply not_elem_of_nil.
Qed.

Lemma named_workflow_drop_later rt workflow_type tasks parallel model_strategy :
  workflow_type ∈ named_workflow_types →
  execute rt workflow_type (drop_later_of_type [] tasks) parallel model_strategy =
  execute rt workflow_type tasks parallel model_strategy.
Proof.
  intros Hin. unfold named_workflow_types in Hin.
  repeat (apply elem_of_cons in Hin as [->|Hin]);
    [ | | | | by apply elem_of_nil in Hin ];
    unfold execute; simpl;
    unfold _execute_game_development_workflow, _execute_puzzle_generation_workflow,
      _execute_content_creation_workflow, _execute_optimization_workflow,
      _execute_architecture_step, _execute_implementation_step, _execute_content_step,
      _execute_optimization_step, _analyze_puzzle_theme, _generate_puzzle_variations,
      _balance_difficulty, _integrate_narrative, _develop_story, _create_characters,
      _write_scenes, _generate_assets, _analyze_performance, _identify_bottlenecks,
      _generate_optimizations, _create_implementation_plan;
    by rewrite ?any_of_type_drop_later, ?next_task_drop_later, ?filter_drop_later.
Qed.

Lemma implementation_results_runs rt model_strategy tasks s texts s' :
  implementation_runs rt model_strategy tasks s texts s' →
  Forall (λ task, has_type "implementation" task = true) tasks →
  implementation_results rt tasks model_strategy s = (Ok texts, s').
Proof.
  induction 1 as [s|task rest s text s1 texts s2 Hone _ IH]; intros Htypes;
    [reflexivity |].
  apply Forall_cons in Htypes as [Htype Htypes].
  unfold _execute_implementation_step in Hone. simpl in Hone. rewrite Htype in Hone.
  simpl in *. unfold bind in *.
  destruct (agents_item "implementation" s) as [[agent|e] s0]; [| done].
  destruct (lift (dict_item task "prompt") s0) as [[prompt|e] s0']; [| done].
  destruct (agent_execute rt agent _ s0') as [[text'|e] s1']; [| done].
  simpl in Hone. unfold ret in Hone. simplify_eq.
  by rewrite (IH Htypes).
Qed.

(** With a resolvable model, [_execute_with_model] makes exactly one
    round-trip, for the given prompt, model and thinking mode, and its
    value is the provider's text as it came. *)
Lemma execute_with_model_round_trip (rt : Runtime) (model : value)
    (context : string) (thinking : value) (s : State) :
  get_provider_for_model rt model = true →
  calls (_execute_with_model rt model context thinking s).2 =
    (calls s ++ [mkCall context model thinking])%list ∧
  ∀ text, generate_response rt (calls s) (mkCall context model thinking) = Ok text →
          (_execute_with_model rt model context thinking s).1 = Ok text.
Proof.
  intros Hprovider. unfold _execute_with_model, try_except. rewrite Hprovider. simpl.
  unfold provider_generate_response.
  destruct (generate_response rt (calls s) _) as [text|e]; simpl.
  - split; [reflexivity |]. by intros text' [= ->].
  - split; [reflexivity |]. intros text' Hok. discriminate.
Qed.

(** ** What a step sends to the provider *)

Lemma next_task_found tasks ty task :
  List.find (has_type ty) tasks = Some task → next_task tasks ty = ret task.
Proof. intros Hfind. unfold next_task. by rewrite Hfind. Qed.

Lemma bind_lift_ok {A B} (a : A) (k : A → M B) : bind (lift (Ok a)) k = k a.
Proof. reflexivity. Qed.

Lemma bind_context_get {B} key default (k : value → M B) s :
  bind (context_get key default) k s = k (dict_get (shared_context s) key default) s.
Proof. reflexivity. Qed.

Lemma occurs_empty text : occurs "" text = true.
Proof. by destruct text. Qed.

Lemma one_round_trip_with_model rt input model context thinking s :
  get_provider_for_model rt model = true → occurs input context = true →
  one_round_trip rt input s (_execute_with_model rt model context thinking s).
Proof.
  intros Hmodel Hinput. exists context, model, thinking. split; [done |].
  by apply execute_with_model_round_trip.
Qed.

Lemma builder_with_files rt (build : value → value → result string) prompt files listing :
  build ∈ prompt_files_builders rt →
  str_join ", " files = Ok listing →
  ∃ context, build prompt files = Ok context ∧
             occurs (py_str rt prompt) context = true.
Proof.
  intros Hin Hjoin. unfold prompt_files_builders in Hin.
  repeat (apply elem_of_cons in Hin as [->|Hin]);
    [ | | | | by apply elem_of_nil in Hin ];
    unfold _build_architecture_context, _build_implementation_context,
      _build_optimization_context, _build_content_context;
    rewrite Hjoin; destruct (truthy files);
    (eexists; split; [reflexivity |]; apply occurs_later; apply occurs_here).
Qed.

Lemma prompt_files_agent_sends rt a (build : value → value → result string)
    (arguments : dict) prompt files listing s :
  (a, build) ∈ [(ArchitectureAgent, _build_architecture_context rt);
                (ImplementationAgent, _build_implementation_context rt);
                (OptimizationAgent, _build_optimization_context rt);
                (ContentAgent, _build_content_context rt)] →
  arguments !! "prompt" = Some prompt →
  dict_get arguments "files" (VList []) = files →
  str_join ", " files = Ok listing →
  (∀ model, get_provider_for_model rt model = true) →
  one_round_trip rt (py_str rt prompt) s (agent_execute rt a arguments s).
Proof.
  intros Hin Hprompt Hfiles Hjoin Hmodels.
  assert (Hbuild : build ∈ prompt_files_builders rt).
  { unfold prompt_files_builders.
    repeat (apply elem_of_cons in Hin as [[= -> ->]|Hin]; [by repeat constructor |]).
    by apply elem_of_nil in Hin. }
  destruct (builder_with_files rt build prompt files listing Hbuild Hjoin)
    as (context & Hcontext & Hoccurs).
  repeat (apply elem_of_cons in Hin as [[= -> ->]|Hin]);
    [ | | | | by apply elem_of_nil in Hin ];
    cbn [agent_execute];
    unfold ArchitectureAgent_execute, ImplementationAgent_execute,
      OptimizationAgent_execute, ContentAgent_execute, bind, lift, dict_item;
    rewrite Hprompt, Hfiles, Hcontext;
    by apply one_round_trip_with_model.
Qed.

Lemma prompt_agent_sends rt a (arguments : dict) prompt s :
  a ∈ [ProceduralPuzzleAgent; NarrativeAgent] →
  arguments !! "prompt" = Some prompt →
  (∀ model, get_provider_for_model rt model = true) →
  one_round_trip rt (py_str rt prompt) s (agent_execute rt a arguments s).
Proof.
  intros Hin Hprompt Hmodels.
  repeat (apply elem_of_cons in Hin as [->|Hin]); [ | | by apply elem_of_nil in Hin ];
    cbn [agent_execute];
    unfold ProceduralPuzzleAgent_execute, NarrativeAgent_execute, bind, lift, dict_item,
      _build_puzzle_generation_context, _build_narrative_context;
    rewrite Hprompt;
    (apply one_round_trip_with_model; [done |]);
    do 7 apply occurs_later; apply occurs_here.
Qed.

Lemma difficulty_agent_sends rt (arguments : dict) player_data s :
  arguments !! "player_data" = Some player_data →
  (∀ model, get_provider_for_model rt model = true) →
  one_round_trip rt "" s (agent_execute rt DynamicDifficultyAgent arguments s).
Proof.
  intros Hdata Hmodels. cbn [agent_execute].
  unfold DynamicDifficultyAgent_execute, bind, lift, dict_item, _build_difficulty_context.
  rewrite Hdata. apply one_round_trip_with_model; [done | apply occurs_empty].
Qed.

Lemma asset_agent_sends rt (arguments : dict) assets listing s :
  arguments !! "assets" = Some assets →
  str_join ", " assets = Ok listing →
  (∀ model, get_provider_for_model rt model = true) →
  one_round_trip rt listing s (agent_execute rt AssetOptimizationAgent arguments s).
Proof.
  intros Hassets Hjoin Hmodels. cbn [agent_execute].
  unfold AssetOptimizationAgent_execute, bind, lift, dict_item, _build_asset_context.
  rewrite Hassets, Hjoin. cbn [result_bind].
  apply one_round_trip_with_model; [done |]. apply occurs_later. apply occurs_here.
Qed.

Lemma task_input_prompt rt ty task input :
  ty ≠ "difficulty_balancing" → ty ≠ "asset_generation" →
  task_input rt ty task = Ok input →
  ∃ prompt, task !! "prompt" = Some prompt ∧ dict_item task "prompt" = Ok prompt ∧
            input = py_str rt prompt.
Proof.
  intros Hne1 Hne2. unfold task_input.
  rewrite !bool_decide_eq_false_2 by done. unfold dict_item.
  destruct (task !! "prompt") as [prompt|]; [| discriminate].
  intros [= <-]. by exists prompt.
Qed.

(** A step that found its task: the lookups before the agent is called
    are resolved one by one. *)
Ltac found_task Hfind :=
  rewrite (next_task_found _ _ _ Hfind), bind_ret_l; cbv beta;
  erewrite agents_item_known by (vm_compute; reflexivity);
  rewrite bind_ret_l; cbv beta.

Ltac with_prompt Hitem :=
  rewrite Hitem, bind_lift_ok; cbv beta; rewrite ?bind_context_get; cbv beta.

Lemma first_match_step_sends rt ty step tasks task model_strategy input listing s :
  (ty, step) ∈ first_match_steps rt →
  List.find (has_type ty) tasks = Some task →
  task_input rt ty task = Ok input →
  str_join ", " (dict_get task "files" (VList [])) = Ok listing →
  (∀ model, get_provider_for_model rt model = true) →
  one_round_trip rt input s (step tasks model_strategy s).
Proof.
  intros Hin Hfind Hinput Hfiles Hmodels. unfold first_match_steps in Hin.
  assert (Hprompt : ty ≠ "difficulty_balancing" → ty ≠ "asset_generation" →
            ∃ prompt, task !! "prompt" = Some prompt ∧
                      dict_item task "prompt" = Ok prompt ∧ input = py_str rt prompt)
    by (intros; by eapply task_input_prompt).
  repeat (apply elem_of_cons in Hin as [Hin|Hin];
          [ injection Hin as -> ->;
            try (destruct Hprompt as (prompt & Hp & Hitem & ->); [done | done |])
          | ]);
    [ | | | | | | | | | | | | | | | by apply elem_of_nil in Hin ].
  - unfold _execute_architecture_step. found_task Hfind. with_prompt Hitem.
    eapply prompt_files_agent_sends;
      [by repeat constructor | reflexivity | reflexivity | exact Hfiles | done].
  - unfold _execute_content_step. found_task Hfind. with_prompt Hitem.
    eapply prompt_files_agent_sends;
      [by repeat constructor | reflexivity | reflexivity | exact Hfiles | done].
  - unfold _execute_optimization_step. found_task Hfind. with_prompt Hitem.
    eapply prompt_files_agent_sends;
      [by repeat constructor | reflexivity | reflexivity | exact Hfiles | done].
  - unfold _analyze_puzzle_theme. found_task Hfind. with_prompt Hitem.
    eapply (prompt_files_agent_sends _ _ _ _ _ (VList []) "");
      [by repeat constructor | reflexivity | reflexivity | reflexivity | done].
  - unfold _generate_puzzle_variations. found_task Hfind. with_prompt Hitem.
    apply prompt_agent_sends; [by repeat constructor | reflexivity | done].
  - unfold _balance_difficulty. found_task Hfind. rewrite ?bind_context_get. cbv beta.
    unfold task_input in Hinput. simpl in Hinput. injection Hinput as <-.
    eapply difficulty_agent_sends; [reflexivity | done].
  - unfold _integrate_narrative. found_task Hfind. with_prompt Hitem.
    apply prompt_agent_sends; [by repeat constructor | reflexivity | done].
  - unfold _develop_story. found_task Hfind. with_prompt Hitem.
    apply prompt_agent_sends; [by repeat constructor | reflexivity | done].
  - unfold _create_characters. found_task Hfind. with_prompt Hitem.
    eapply (prompt_files_agent_sends _ _ _ _ _ (VList []) "");
      [by repeat constructor | reflexivity | reflexivity | reflexivity | done].
  - unfold _write_scenes. found_task Hfind. with_prompt Hitem.
    apply prompt_agent_sends; [by repeat constructor | reflexivity | done].
  - unfold _generate_assets. found_task Hfind. rewrite ?bind_context_get. cbv beta.
    unfold task_input in Hinput. simpl in Hinput.
    eapply asset_agent_sends; [reflexivity | exact Hinput | done].
  - unfold _analyze_performance. found_task Hfind. with_prompt Hitem.
    eapply prompt_files_agent_sends;
      [by repeat constructor | reflexivity | reflexivity | exact Hfiles | done].
  - unfold _identify_bottlenecks. found_task Hfind. with_prompt Hitem.
    eapply prompt_files_agent_sends;
      [by repeat constructor | reflexivity | reflexivity | exact Hfiles | done].
  - unfold _generate_optimizations. found_task Hfind. with_prompt Hitem.
    eapply prompt_files_agent_sends;
      [by repeat constructor | reflexivity | reflexivity | exact Hfiles | done].
  - unfold _create_implementation_plan. found_task Hfind. with_prompt Hitem.
    eapply prompt_files_agent_sends;
      [by repeat constructor | reflexivity | reflexivity | exact Hfiles | done].
Qed.

Lemma implementation_step_sends rt task model_strategy prompt listing s :
  has_type "implementation" task = true →
  task !! "prompt" = Some prompt →
  str_join ", " (dict_get task "files" (VList [])) = Ok listing →
  (∀ model, get_provider_for_model rt model = true) →
  one_round_trip rt (py_str rt prompt) s
    (_execute_implementation_step rt [task] model_strategy s).
Proof.
  intros Htype Hprompt Hfiles Hmodels.
  assert (Hitem : dict_item task "prompt" = Ok prompt)
    by (unfold dict_item; by rewrite Hprompt).
  destruct (prompt_files_agent_sends rt ImplementationAgent
              (_build_implementation_context rt)
              (list_to_map [("prompt", prompt);
                            ("files", dict_get task "files" (VList []));
                            ("model", VStr (_select_model "implementation" model_strategy));
                            ("thinking_mode", VStr "medium")])
              prompt (dict_get task "files" (VList [])) listing s)
    as (context & model & thinking & Hoccurs & Hcalls & Hanswer);
    [by repeat constructor | reflexivity | reflexivity | exact Hfiles | done |].
  exists context, model, thinking. split; [done |].
  unfold _execute_implementation_step. cbn [List.filter]. rewrite Htype.
  cbn [implementation_results]. unfold bind at 1.
  erewrite agents_item_known by (vm_compute; reflexivity).
  rewrite bind_ret_l. cbv beta. rewrite Hitem, bind_lift_ok. cbv beta.
  unfold bind.
  destruct (agent_execute rt ImplementationAgent _ s) as [[text|e] s1]; simpl in *.
  - split; [done |]. intros text' Htext'. by rewrite (Hanswer text' Htext').
  - split; [done |]. intros text' Htext'. by apply Hanswer.
Qed.

(** C10: a step of a named workflow that looks its task up runs on the
    first task of its type only: it behaves on the task list as on that
    task alone, a named workflow behaves on a task list as on the list
    without the later tasks of each type, and, when every model is
    resolvable and the task's files can be joined, the step makes
    exactly one provider call, whose prompt carries what the first task
    holds for the step (its prompt; its assets for the asset step;
    nothing for the difficulty step), and returns the provider's
    answer.  The implementation step of game_development runs every
    task of type "implementation" in list order, one provider call per
    task carrying the task's prompt, and joins the texts with a blank
    line. *)
Theorem steps_use_first_task_of_type (rt : Runtime) (model_strategy : string) :
  (∀ ty step tasks task,
     (ty, step) ∈ first_match_steps rt →
     List.find (has_type ty) tasks = Some task →
     step tasks model_strategy = step [task] model_strategy) ∧
  (∀ ty step tasks task input listing s,
     (ty, step) ∈ first_match_steps rt →
     List.find (has_type ty) tasks = Some task →
     task_input rt ty task = Ok input →
     str_join ", " (dict_get task "files" (VList [])) = Ok listing →
     (∀ model, get_provider_for_model rt model = true) →
     one_round_trip rt input s (step tasks model_strategy s)) ∧
  (∀ workflow_type tasks parallel,
     workflow_type ∈ named_workflow_types →
     execute rt workflow_type (drop_later_of_type [] tasks) parallel model_strategy =
     execute rt workflow_type tasks parallel model_strategy) ∧
  (∀ tasks s texts s',
     implementation_runs rt model_strategy
       (List.filter (has_type "implementation") tasks) s texts s' →
     _execute_implementation_step rt tasks model_strategy s =
     (Ok (String.concat (nl +:+ nl) texts), s')) ∧
  (∀ task prompt listing s,
     has_type "implementation" task = true →
     task !! "prompt" = Some prompt →
     str_join ", " (dict_get task "files" (VList [])) = Ok listing →
     (∀ model, get_provider_for_model rt model = true) →
     one_round_trip rt (py_str rt prompt) s
       (_execute_implementation_step rt [task] model_strategy s)).
Proof.
  split_and!.
  - intros ty step tasks task Hin Hfind. by eapply first_match_step_first.
  - intros ty step tasks task input listing s Hin Hfind Hinput Hfiles Hmodels.
    by eapply first_match_step_sends.
  - intros workflow_type tasks parallel Hin. by apply named_workflow_drop_later.
  - intros tasks s texts s' Hruns.
    unfold _execute_implementation_step, bind.
    rewrite (implementation_results_runs _ _ _ _ _ _ Hruns); [reflexivity |].
    apply Forall_forall. intros task Hin. apply list_elem_of_In in Hin.
    by apply filter_In in Hin as [_ Htype].
  - intros task prompt listing s Htype Hprompt Hfiles Hmodels.
    by eapply implementation_step_sends.
Qed.

Lemma steps_use_first_task_of_type_witness :
  (List.find (has_type "architecture")
     [sample_task "architecture" "design"; sample_task "implementation" "build";
      sample_task "architecture" "redesign"] = Some (sample_task "architecture" "design") ∧
   _execute_architecture_step (sample_runtime answering [])
     [sample_task "architecture" "design"; sample_task "implementation" "build";
      sample_task "architecture" "redesign"] "auto" =
   _execute_architecture_step (sample_runtime answering [])
     [sample_task "architecture" "design"] "auto") ∧
  (task_input (sample_runtime answering []) "architecture"
     (sample_task "architecture" "design") = Ok "design" ∧
   str_join ", " (dict_get (sample_task "architecture" "design") "files" (VList [])) =
     Ok "" ∧
   one_round_trip (sample_runtime answering []) "design" sample_state
     (_execute_architecture_step (sample_runtime answering [])
        [sample_task "architecture" "design"; sample_task "implementation" "build";
         sample_task "architecture" "redesign"] "auto" sample_state)) ∧
  (drop_later_of_type []
     [sample_task "architecture" "design"; sample_task "implementation" "build";
      sample_task "architecture" "redesign"; sample_task "implementation" "test"] =
   [sample_task "architecture" "design"; sample_task "implementation" "build";
    sample_task "implementation" "test"] ∧
   execute (sample_runtime answering []) "game_development"
     [sample_task "architecture" "design"; sample_task "implementation" "build";
      sample_task "implementation" "test"] false "auto" =
   execute (sample_runtime answering []) "game_development"
     [sample_task "architecture" "design"; sample_task "implementation" "build";
      sample_task "architecture" "redesign"; sample_task "implementation" "test"]
     false "auto") ∧
  (_execute_implementation_step (sample_runtime answering [])
     [sample_task "implementation" "build"; sample_task "architecture" "design";
      sample_task "implementation" "test"] "auto" sample_state).1 =
  Ok ("answer 0" +:+ nl +:+ nl +:+ "answer 1") ∧
  (has_type "implementation" (sample_task "implementation" "build") = true ∧
   one_round_trip (sample_runtime answering []) "build" sample_state
     (_execute_implementation_step (sample_runtime answering [])
        [sample_task "implementation" "build"] "auto" sample_state)).
Proof.
  set (rt := sample_runtime answering []).
  destruct (steps_use_first_task_of_type rt "auto")
    as (Hfirst & Hsends & Hdrop & Himpl & Hone).
  split_and!.
  - reflexivity.
  - apply (Hfirst "architecture" (_execute_architecture_step rt));
      [apply list_elem_of_here | reflexivity].
  - reflexivity.
  - reflexivity.
  - apply (Hsends "architecture" (_execute_architecture_step rt) _
             (sample_task "architecture" "design") "design" "");
      [apply list_elem_of_here | reflexivity | reflexivity | reflexivity | reflexivity].
  - reflexivity.
  - apply (Hdrop "game_development"
             [sample_task "architecture" "design"; sample_task "implementation" "build";
              sample_task "architecture" "redesign"; sample_task "implementation" "test"]
             false).
    apply list_elem_of_here.
  - pose (s1 := (_execute_implementation_step rt [sample_task "implementation" "build"]
                   "auto" sample_state).2).
    pose (s2 := (_execute_implementation_step rt [sample_task "implementation" "test"]
                   "auto" s1).2).
    rewrite (Himpl [sample_task "implementation" "build"; sample_task "architecture" "design";
                    sample_task "implementation" "test"]
               sample_state ["answer 0"; "answer 1"] s2); [reflexivity |].
    change (implementation_runs rt "auto"
              [sample_task "implementation" "build"; sample_task "implementation" "test"]
              sample_state ["answer 0"; "answer 1"] s2).
    apply (implementation_runs_cons rt "auto" _ _ sample_state "answer 0" s1);
      [vm_compute; reflexivity |].
    apply (implementation_runs_cons rt "auto" _ _ s1 "answer 1" s2);
      [vm_compute; reflexivity |].
    apply implementation_runs_nil.
  - reflexivity.
  - apply (Hone (sample_task "implementation" "build") (VStr "build") "");
      [reflexivity | reflexivity | reflexivity | reflexivity].
Defined.

(** ** Further properties of model selection *)

Lemma model_map_values agent_type base_model :
  model_map !! agent_type = Some base_model → base_model ∈ known_models.
Proof.
  intros Hlookup. unfold model_map in Hlookup.
  apply elem_of_list_to_map_2 in Hlookup. unfold known_models.
  repeat (apply elem_of_cons in Hlookup as [Hlookup|Hlookup];
          [injection Hlookup as -> ->; by repeat constructor |]).
  by apply elem_of_nil in Hlookup.
Qed.

(** X1: [_select_model] always returns one of the four known models, and
    each substituting strategy excludes two of them: cost_optimized
    never yields gemini-pro or claude-haiku, performance_optimized never
    yields gemini-flash or ollama, balanced never yields gemini-pro or
    ollama. *)
Theorem select_model_range (agent_type strategy : string) :
  _select_model agent_type strategy ∈ known_models ∧
  (strategy = "cost_optimized" →
   _select_model agent_type strategy ∈ ["gemini-flash"; "ollama"]) ∧
  (strategy = "performance_optimized" →
   _select_model agent_type strategy ∈ ["gemini-pro"; "claude-haiku"]) ∧
  (strategy = "balanced" →
   _select_model agent_type strategy ∈ ["gemini-flash"; "claude-haiku"]).
Proof.
  assert (Hbase : default "gemini-flash" (model_map !! agent_type) ∈ known_models).
  { destruct (model_map !! agent_type) as [base_model|] eqn:Hlookup; simpl.
    - by eapply model_map_values.
    - unfold known_models. by repeat constructor. }
  unfold _select_model. cbv zeta.
  generalize dependent (default "gemini-flash" (model_map !! agent_type)).
  intros base_model Hbase. unfold known_models in *.
  repeat (apply elem_of_cons in Hbase as [->|Hbase]);
    [ | | | | by apply elem_of_nil in Hbase ];
    (split_and!; [| intros -> | intros -> | intros ->]);
    repeat case_bool_decide; simplify_eq; by repeat constructor.
Qed.

Lemma select_model_range_witness :
  "cost_optimized" = "cost_optimized" ∧
  _select_model "narrative" "cost_optimized" ∈ ["gemini-flash"; "ollama"].
Proof.
  split; [reflexivity |].
  exact (proj1 (proj2 (select_model_range "narrative" "cost_optimized")) eq_refl).
Defined.

(** X2: under "auto", or any strategy string that is not one of the
    three substituting ones, every agent the orchestrator registers
    except the consensus agent is given its own preferred model; the
    consensus agent, which has no entry in the base table, is given the
    fallback gemini-flash. *)
Theorem select_model_default_is_preferred (agent_name strategy : string) (a : agent) :
  agents !! agent_name = Some a →
  strategy ∉ substituting_strategies →
  _select_model agent_name strategy =
  match a with
  | ConsensusAgent => "gemini-flash"
  | _ => preferred_model a
  end.
Proof.
  intros Hagent Hstrategy. unfold agents in Hagent.
  apply elem_of_list_to_map_2 in Hagent.
  assert (Hauto : ∀ agent_type,
            _select_model agent_type strategy =
            default "gemini-flash" (model_map !! agent_type)).
  { intros agent_type. unfold _select_model. cbv zeta.
    repeat case_bool_decide; subst; try reflexivity;
      exfalso; apply Hstrategy; unfold substituting_strategies; by repeat constructor. }
  rewrite Hauto.
  repeat (apply elem_of_cons in Hagent as [Hagent|Hagent];
          [injection Hagent as -> ->; vm_compute; reflexivity |]).
  by apply elem_of_nil in Hagent.
Qed.

Lemma select_model_default_is_preferred_witness :
  agents !! "narrative" = Some NarrativeAgent ∧
  ("auto" ∉ substituting_strategies) ∧
  _select_model "narrative" "auto" = "claude-haiku".
Proof.
  assert (Hstrategy : "auto" ∉ substituting_strategies).
  { apply (bool_decide_eq_false _). vm_compute. reflexivity. }
  split; [reflexivity |]. split; [exact Hstrategy |].
  exact (select_model_default_is_preferred "narrative" "auto" NarrativeAgent
           eq_refl Hstrategy).
Defined.

(** ** The agent registry *)

(** X3: looking an agent up by its own name returns that agent, a
    registered key is the name of the agent stored under it, and the
    registry knows exactly the agent names the orchestrator can
    dispatch a custom task to. *)
Theorem registry_round_trip :
  (∀ a, get_specialized_agent (name a) = Some a) ∧
  (∀ agent_type a, get_specialized_agent agent_type = Some a → name a = agent_type) ∧
  (∀ agent_type, get_specialized_agent agent_type = agents !! agent_type).
Proof.
  split_and!.
  - intros a. destruct a; vm_compute; reflexivity.
  - intros agent_type a Hget. unfold get_specialized_agent, SPECIALIZED_AGENTS in Hget.
    apply elem_of_list_to_map_2 in Hget.
    repeat (apply elem_of_cons in Hget as [Hget|Hget];
            [injection Hget as -> ->; reflexivity |]).
    by apply elem_of_nil in Hget.
  - intros agent_type. reflexivity.
Qed.

Lemma registry_round_trip_witness :
  get_specialized_agent "narrative" = Some NarrativeAgent ∧
  name NarrativeAgent = "narrative".
Proof.
  split; [reflexivity |].
  exact (proj1 (proj2 registry_round_trip) "narrative" NarrativeAgent eq_refl).
Defined.

(** ** Further properties of the report *)

Lemma prefix_app_l needle text rest :
  String.prefix needle text = true → String.prefix needle (text +:+ rest) = true.
Proof.
  revert text. induction needle as [|c needle IH]; intros text Hprefix.
  - by destruct (text +:+ rest).
  - destruct text as [|c' text]; [done |].
    change (String c' text +:+ rest) with (String c' (text +:+ rest)).
    simpl in *. destruct (ascii_dec c c'); [by apply IH | done].
Qed.

Lemma occurs_app_l needle text rest :
  occurs needle text = true → occurs needle (text +:+ rest) = true.
Proof.
  induction text as [|c text IH]; intros Hoccurs.
  - simpl in Hoccurs. rewrite orb_false_r in Hoccurs.
    destruct needle; [| done]. by destruct rest.
  - change (String c text +:+ rest) with (String c (text +:+ rest)).
    simpl in *. apply orb_true_iff in Hoccurs as [Hhere|Hlater].
    + apply orb_true_iff. left.
      by apply (prefix_app_l needle (String c text) rest).
    + apply orb_true_iff. right. by apply IH.
Qed.

Lemma prefix_app_both before needle text :
  String.prefix needle text = true →
  String.prefix (before +:+ needle) (before +:+ text) = true.
Proof.
  intros Hprefix. induction before as [|c before IH]; [exact Hprefix |].
  change (String.prefix (String c (before +:+ needle)) (String c (before +:+ text)) = true).
  simpl. destruct (ascii_dec c c); [exact IH | done].
Qed.

Lemma occurs_prefix needle text :
  String.prefix needle text = true → occurs needle text = true.
Proof.
  intros Hprefix. destruct text; cbn [occurs]; apply orb_true_iff; by left.
Qed.

Lemma report_steps_cons rt first step_name text steps :
  report_steps rt first ((step_name, text) :: steps) =
  "## Step " +:+ pretty first +:+ ": " +:+ py_str rt step_name +:+ nl +:+ nl
  +:+ text +:+ nl +:+ nl +:+ "---" +:+ nl +:+ nl +:+ report_steps rt (S first) steps.
Proof. reflexivity. Qed.

Lemma report_steps_lookup rt steps first i step_name text :
  steps !! i = Some (step_name, text) →
  occurs ("## Step " +:+ pretty (first + i)%nat +:+ ": " +:+ py_str rt step_name
          +:+ nl +:+ nl +:+ text +:+ nl +:+ nl +:+ "---" +:+ nl +:+ nl)
         (report_steps rt first steps) = true.
Proof.
  revert first i. induction steps as [|[name0 text0] steps IH]; intros first i Hi;
    [done |].
  rewrite report_steps_cons. destruct i as [|i]; simpl in Hi.
  - injection Hi as -> ->. rewrite Nat.add_0_r.
    apply occurs_prefix. do 11 apply prefix_app_both. apply prefix_app.
  - do 12 apply occurs_later.
    replace (first + S i)%nat with (S first + i)%nat by lia. by apply IH.
Qed.

(** X4: every step of the list is rendered in the report under its own
    heading, numbered from 1 in list order, with its name and its result
    text verbatim, followed by a separator rule. *)
Theorem report_renders_each_step (rt : Runtime) (workflow_name : string)
    (steps : list (value * string)) (s : State) (i : nat) (step_name : value)
    (text : string) :
  steps !! i = Some (step_name, text) →
  ∃ report,
    _generate_workflow_report rt workflow_name steps s = (Ok report, s) ∧
    occurs ("## Step " +:+ pretty (i + 1)%nat +:+ ": " +:+ py_str rt step_name
            +:+ nl +:+ nl +:+ text +:+ nl +:+ nl +:+ "---" +:+ nl +:+ nl)
           report = true.
Proof.
  intros Hi. eexists. split; [reflexivity |].
  do 12 apply occurs_later. apply occurs_app_l.
  replace (i + 1)%nat with (1 + i)%nat by lia. by apply report_steps_lookup.
Qed.

Lemma report_renders_each_step_witness :
  [(VStr "Plan", "draft"); (VStr "Build", "Error: timeout")] !! 1 =
    Some (VStr "Build", "Error: timeout") ∧
  ∃ report,
    _generate_workflow_report (sample_runtime answering []) "Custom Workflow"
      [(VStr "Plan", "draft"); (VStr "Build", "Error: timeout")] sample_state =
      (Ok report, sample_state) ∧
    occurs ("## Step 2: Build" +:+ nl +:+ nl +:+ "Error: timeout" +:+ nl +:+ nl
            +:+ "---" +:+ nl +:+ nl) report = true.
Proof.
  split; [reflexivity |].
  exact (report_renders_each_step (sample_runtime answering []) "Custom Workflow"
           [(VStr "Plan", "draft"); (VStr "Build", "Error: timeout")] sample_state
           1 (VStr "Build") "Error: timeout" eq_refl).
Defined.

(** X5: the report states the number of steps twice, in the header and
    in the summary, and both counts are the length of the step list; it
    opens with the title line of the workflow. *)
Theorem report_counts_steps (rt : Runtime) (workflow_name : string)
    (steps : list (value * string)) (s : State) :
  ∃ report,
    _generate_workflow_report rt workflow_name steps s = (Ok report, s) ∧
    String.prefix ("# " +:+ workflow_name +:+ " Workflow Report" +:+ nl) report = true ∧
    occurs ("**Total Steps:** " +:+ pretty (length steps) +:+ nl) report = true ∧
    occurs ("- **Steps Completed:** " +:+ pretty (length steps) +:+ nl) report = true.
Proof.
  eexists. split; [reflexivity |]. split_and!.
  - do 3 apply prefix_app_both. apply prefix_app.
  - do 8 apply occurs_later. apply occurs_prefix.
    do 2 apply prefix_app_both. apply prefix_app.
  - do 12 apply occurs_later. apply occurs_later. do 6 apply occurs_later.
    apply occurs_prefix. do 2 apply prefix_app_both. apply prefix_app.
Qed.

(** ** Which exceptions leave a computation *)

Lemma raises_ret {A} P (a : A) : raises_only P (ret a).
Proof. intros s e s' Hrun. discriminate. Qed.

Lemma raises_raise {A} (P : exn → Prop) e : P e → raises_only P (@raise A e).
Proof. intros HP s e' s' Hrun. unfold raise in Hrun. by simplify_eq. Qed.

Lemma raises_lift {A} (P : exn → Prop) (r : result A) :
  (∀ e, r = Raise e → P e) → raises_only P (lift r).
Proof. intros HP s e s' Hrun. unfold lift in Hrun. apply HP. by simplify_eq. Qed.

Lemma raises_bind {A B} P (m : M A) (k : A → M B) :
  raises_only P m → (∀ a, raises_only P (k a)) → raises_only P (bind m k).
Proof.
  intros Hm Hk s e s' Hrun. unfold bind in Hrun.
  destruct (m s) as [[a|e0] s0] eqn:Hms.
  - by eapply Hk.
  - simplify_eq. by eapply Hm.
Qed.

Lemma raises_try_except {A} P (m : M A) (h : exn → M A) :
  (∀ e, raises_only P (h e)) → raises_only P (try_except m h).
Proof.
  intros Hh s e s' Hrun. unfold try_except in Hrun.
  destruct (m s) as [[a|e0] s0] eqn:Hms; [discriminate |]. by eapply Hh.
Qed.

Lemma raises_weaken {A} (P Q : exn → Prop) (m : M A) :
  (∀ e, P e → Q e) → raises_only P m → raises_only Q m.
Proof. intros HPQ Hm s e s' Hrun. apply HPQ. by eapply Hm. Qed.



Lemma raises_get_timestamp P : raises_only P _get_timestamp.
Proof. intros s e s' Hrun. discriminate. Qed.

Lemma raises_agents_item P name a :
  agents !! name = Some a → raises_only P (agents_item name).
Proof. intros Hname. unfold agents_item. rewrite Hname. apply raises_ret. Qed.

Lemma str_join_raises sep v e : str_join sep v = Raise e → ∃ msg, e = TypeError msg.
Proof.
  assert (Hitems : ∀ l i, str_items i l = Raise e → ∃ msg, e = TypeError msg).
  { induction l as [|x l IH]; intros i Hl; simpl in Hl; [discriminate |].
    destruct x; try (injection Hl as <-; eauto).
    destruct (str_items (S i) l) eqn:Hrest; [discriminate |].
    injection Hl as <-. by eapply IH. }
  destruct v; simpl; try (intros Hv; by simplify_eq; eauto).
  destruct (str_items 0 l) eqn:Hl; [discriminate |].
  intros Hv. injection Hv as <-. by eapply Hitems.
Qed.

(** ** The model round-trip *)

(** X6: whatever goes wrong inside [_execute_with_model], including an
    unresolvable model, leaves it as a [ToolExecutionError] whose
    message starts "Failed to execute with model <model>: "; when no
    provider is resolvable for the model no round-trip is made. *)
Theorem execute_with_model_wraps_failures (rt : Runtime) (model : value)
    (context : string) (thinking : value) (s : State) :
  (∀ e s', _execute_with_model rt model context thinking s = (Raise e, s') →
     ∃ cause, e = ToolExecutionError
                    ("Failed to execute with model " +:+ py_str rt model +:+ ": " +:+ cause)) ∧
  (get_provider_for_model rt model = false →
   _execute_with_model rt model context thinking s =
   (Raise (ToolExecutionError
             ("Failed to execute with model " +:+ py_str rt model +:+ ": " +:+
              "Model " +:+ py_str rt model +:+ " not available")), s)).
Proof.
  split.
  - intros e s' Hrun. unfold _execute_with_model, try_except in Hrun.
    destruct (get_provider_for_model rt model); simpl in Hrun.
    + unfold provider_generate_response in Hrun.
      destruct (generate_response rt (calls s) _) as [text|cause]; [discriminate |].
      unfold raise in Hrun. simplify_eq. eauto.
    + unfold raise in Hrun. simplify_eq. eauto.
  - intros Hnone. unfold _execute_with_model, try_except. by rewrite Hnone.
Qed.

Lemma execute_with_model_wraps_failures_witness :
  get_provider_for_model offline_runtime (VStr "gpt-5") = false ∧
  _execute_with_model offline_runtime (VStr "gpt-5") "hello" (VStr "low") sample_state =
  (Raise (ToolExecutionError
            "Failed to execute with model gpt-5: Model gpt-5 not available"),
   sample_state).
Proof.
  split; [reflexivity |].
  exact (proj2 (execute_with_model_wraps_failures offline_runtime (VStr "gpt-5")
                  "hello" (VStr "low") sample_state) eq_refl).
Defined.

(** ** The prompt builders and the agents *)

Lemma dict_get_insert_ne (d : dict) key other v default :
  other ≠ key → dict_get (<[other := v]> d) key default = dict_get d key default.
Proof. intros Hne. unfold dict_get. by rewrite lookup_insert_ne. Qed.

Lemma dict_item_insert_ne (d : dict) key other v :
  other ≠ key → dict_item (<[other := v]> d) key = dict_item d key.
Proof. intros Hne. unfold dict_item. by rewrite lookup_insert_ne. Qed.

(** X7: a builder of a prompt-and-files agent fails exactly when files
    are given and joining them fails (an item that is not a string);
    without files it succeeds, says "None provided" and carries the task
    text verbatim. *)
Theorem prompt_files_builder_outcomes (rt : Runtime)
    (build : value → value → result string) (prompt files : value) :
  build ∈ prompt_files_builders rt →
  (truthy files = false →
   ∃ text, build prompt files = Ok text ∧
           occurs "None provided" text = true ∧
           occurs (py_str rt prompt) text = true) ∧
  (∀ e, build prompt files = Raise e ↔
        truthy files = true ∧ str_join ", " files = Raise e).
Proof.
  intros Hin. unfold prompt_files_builders in Hin.
  repeat (apply elem_of_cons in Hin as [->|Hin]);
    [ | | | | by apply elem_of_nil in Hin ];
    unfold _build_architecture_context, _build_implementation_context,
      _build_optimization_context, _build_content_context, result_bind;
    (split;
     [ intros Hfiles; rewrite Hfiles; eexists; split; [reflexivity |]; split;
       [ do 3 apply occurs_later; apply occurs_here
       | apply occurs_later; apply occurs_here ]
     | intros e; destruct (truthy files);
       [ destruct (str_join ", " files) as [listing|e'];
         [ split; [discriminate | intros [_ ?]; discriminate]
         | split; [intros [= ->]; done | intros [_ [= ->]]; done] ]
       | split; [discriminate | intros [? _]; discriminate] ] ]).
Qed.

Lemma prompt_files_builder_outcomes_witness :
  _build_content_context (sample_runtime answering []) ∈
    prompt_files_builders (sample_runtime answering []) ∧
  truthy (VList []) = false ∧
  ∃ text, _build_content_context (sample_runtime answering []) (VStr "write a scene")
            (VList []) = Ok text ∧
          occurs "None provided" text = true ∧
          occurs "write a scene" text = true.
Proof.
  assert (Hin : _build_content_context (sample_runtime answering []) ∈
                prompt_files_builders (sample_runtime answering []))
    by (unfold prompt_files_builders; by repeat constructor).
  split; [exact Hin |]. split; [reflexivity |].
  exact (proj1 (prompt_files_builder_outcomes (sample_runtime answering []) _
                  (VStr "write a scene") (VList []) Hin) eq_refl).
Defined.

Lemma builder_raises_type_error rt (build : value → value → result string) prompt files e :
  build ∈ prompt_files_builders rt → build prompt files = Raise e →
  ∃ msg, e = TypeError msg.
Proof.
  intros Hin Hraise. unfold prompt_files_builders in Hin.
  repeat (apply elem_of_cons in Hin as [->|Hin]);
    [ | | | | by apply elem_of_nil in Hin ];
    unfold _build_architecture_context, _build_implementation_context,
      _build_optimization_context, _build_content_context, result_bind in Hraise;
    (destruct (truthy files); [| discriminate]);
    (destruct (str_join ", " files) eqn:Hjoin; [discriminate |]);
    injection Hraise as <-; by eapply str_join_raises.
Qed.

(** X8: an agent whose required argument is missing raises [KeyError]
    for that key before anything else happens: no prompt is built and no
    round-trip is made.  The required key is "prompt", except
    "player_data" for the difficulty agent and "assets" for the asset
    agent. *)
Theorem agent_missing_required_key (rt : Runtime) (a : agent) (arguments : dict)
    (s : State) :
  arguments !! required_key a = None →
  agent_execute rt a arguments s = (Raise (KeyError (required_key a)), s).
Proof.
  intros Hmissing.
  destruct a; simpl in *;
    unfold ArchitectureAgent_execute, ImplementationAgent_execute,
      OptimizationAgent_execute, ContentAgent_execute, ConsensusAgent_execute,
      ProceduralPuzzleAgent_execute, DynamicDifficultyAgent_execute,
      NarrativeAgent_execute, AssetOptimizationAgent_execute, bind, lift, dict_item;
    by rewrite Hmissing.
Qed.

Lemma agent_missing_required_key_witness :
  ({["prompt" := VStr "tune it"]} : dict) !! required_key DynamicDifficultyAgent = None ∧
  agent_execute (sample_runtime answering []) DynamicDifficultyAgent
    {["prompt" := VStr "tune it"]} sample_state =
  (Raise (KeyError "player_data"), sample_state).
Proof.
  split; [reflexivity |].
  exact (agent_missing_required_key (sample_runtime answering []) DynamicDifficultyAgent
           {["prompt" := VStr "tune it"]} sample_state eq_refl).
Defined.

Lemma raises_execute_with_model rt model context thinking :
  raises_only (λ e, ∃ msg, e = ToolExecutionError msg)
              (_execute_with_model rt model context thinking).
Proof.
  unfold _execute_with_model. apply raises_try_except.
  intros e. apply raises_raise. eauto.
Qed.

Lemma raises_execute_consensus_workflow rt prompt files models thinking :
  raises_only (λ e, ∃ cause, e = ToolExecutionError ("Consensus workflow failed: " +:+ cause))
              (_execute_consensus_workflow rt prompt files models thinking).
Proof.
  unfold _execute_consensus_workflow. apply raises_try_except.
  intros e. apply raises_raise. eauto.
Qed.

Lemma agent_execute_raises rt (a : agent) (arguments : dict) :
  raises_only
    (λ e, (e = KeyError (required_key a) ∧ arguments !! required_key a = None) ∨
          (∃ msg, e = TypeError msg) ∨ (∃ msg, e = ToolExecutionError msg))
    (agent_execute rt a arguments).
Proof.
  assert (Hitem : ∀ key, key = required_key a →
            raises_only
              (λ e, (e = KeyError (required_key a) ∧ arguments !! required_key a = None) ∨
                    (∃ msg, e = TypeError msg) ∨ (∃ msg, e = ToolExecutionError msg))
              (lift (dict_item arguments key))).
  { intros key ->. apply raises_lift. intros e. unfold dict_item.
    destruct (arguments !! required_key a) eqn:Hkey; [discriminate |].
    intros [= <-]. by left. }
  assert (Hmodel : ∀ model context thinking,
            raises_only
              (λ e, (e = KeyError (required_key a) ∧ arguments !! required_key a = None) ∨
                    (∃ msg, e = TypeError msg) ∨ (∃ msg, e = ToolExecutionError msg))
              (_execute_with_model rt model context thinking)).
  { intros. eapply raises_weaken; [| apply raises_execute_with_model].
    intros e [msg ->]. right. right. eauto. }
  assert (Hbuild : ∀ (build : value → value → result string) prompt files,
            build ∈ prompt_files_builders rt →
            raises_only
              (λ e, (e = KeyError (required_key a) ∧ arguments !! required_key a = None) ∨
                    (∃ msg, e = TypeError msg) ∨ (∃ msg, e = ToolExecutionError msg))
              (lift (build prompt files))).
  { intros build prompt files Hin. apply raises_lift. intros e He. right. left.
    by eapply builder_raises_type_error. }
  destruct a; simpl;
    unfold ArchitectureAgent_execute, ImplementationAgent_execute,
      OptimizationAgent_execute, ContentAgent_execute, ConsensusAgent_execute,
      ProceduralPuzzleAgent_execute, DynamicDifficultyAgent_execute,
      NarrativeAgent_execute, AssetOptimizationAgent_execute;
    (apply raises_bind; [by apply Hitem | intros required]).
  - apply raises_bind; [apply Hbuild; unfold prompt_files_builders; by repeat constructor |].
    intros context. apply Hmodel.
  - apply raises_bind; [apply Hbuild; unfold prompt_files_builders; by repeat constructor |].
    intros context. apply Hmodel.
  - apply raises_bind; [apply Hbuild; unfold prompt_files_builders; by repeat constructor |].
    intros context. apply Hmodel.
  - apply raises_bind; [apply Hbuild; unfold prompt_files_builders; by repeat constructor |].
    intros context. apply Hmodel.
  - eapply raises_weaken; [| apply raises_execute_consensus_workflow].
    intros e [cause ->]. right. right. eauto.
  - apply raises_bind; [apply raises_lift; discriminate |]. intros context. apply Hmodel.
  - apply raises_bind; [apply raises_lift; discriminate |]. intros context. apply Hmodel.
  - apply raises_bind; [apply raises_lift; discriminate |]. intros context. apply Hmodel.
  - apply raises_bind; [| intros context; apply Hmodel].
    apply raises_lift. intros e He. right. left.
    unfold _build_asset_context, result_bind in He.
    destruct (str_join ", " required) eqn:Hjoin; [discriminate |].
    injection He as <-. by eapply str_join_raises.
Qed.

(** X9: the failures of an agent's [execute] are of three kinds only: the
    [KeyError] of its missing required argument, a [TypeError] from
    joining files or assets that are not strings, or a
    [ToolExecutionError]; whatever the provider raises never leaves an
    agent unwrapped. *)
Theorem agent_failure_kinds (rt : Runtime) (a : agent) (arguments : dict)
    (s s' : State) (e : exn) :
  agent_execute rt a arguments s = (Raise e, s') →
  (e = KeyError (required_key a) ∧ arguments !! required_key a = None) ∨
  (∃ msg, e = TypeError msg) ∨
  (∃ msg, e = ToolExecutionError msg).
Proof. intros Hrun. by eapply agent_execute_raises. Qed.

Lemma agent_failure_kinds_witness :
  agent_execute (sample_runtime failing []) NarrativeAgent
    {["prompt" := VStr "a cabin"]} sample_state =
    (Raise (ToolExecutionError "Failed to execute with model claude-haiku: timeout"),
     (agent_execute (sample_runtime failing []) NarrativeAgent
        {["prompt" := VStr "a cabin"]} sample_state).2) ∧
  ((ToolExecutionError "Failed to execute with model claude-haiku: timeout" =
      KeyError (required_key NarrativeAgent) ∧
    ({["prompt" := VStr "a cabin"]} : dict) !! required_key NarrativeAgent = None) ∨
   (∃ msg, ToolExecutionError "Failed to execute with model claude-haiku: timeout" =
           TypeError msg) ∨
   (∃ msg, ToolExecutionError "Failed to execute with model claude-haiku: timeout" =
           ToolExecutionError msg)).
Proof.
  assert (Hrun : agent_execute (sample_runtime failing []) NarrativeAgent
    {["prompt" := VStr "a cabin"]} sample_state =
    (Raise (ToolExecutionError "Failed to execute with model claude-haiku: timeout"),
     (agent_execute (sample_runtime failing []) NarrativeAgent
        {["prompt" := VStr "a cabin"]} sample_state).2))
    by (vm_compute; reflexivity).
  split; [exact Hrun |].
  exact (agent_failure_kinds (sample_runtime failing []) NarrativeAgent
           {["prompt" := VStr "a cabin"]} sample_state _ _ Hrun).
Defined.

(** ** Round-trips of the agents and of the consensus workflow *)

Lemma execute_with_model_calls rt model context thinking s :
  ∃ made, calls (_execute_with_model rt model context thinking s).2 =
            (calls s ++ made)%list ∧
          ∀ c, c ∈ made → c = mkCall context model thinking.
Proof.
  unfold _execute_with_model, try_except.
  destruct (get_provider_for_model rt model); simpl.
  - unfold provider_generate_response.
    exists [mkCall context model thinking].
    destruct (generate_response rt (calls s) _); simpl;
      (split; [reflexivity | intros c Hc; by apply list_elem_of_singleton in Hc]).
  - exists []. split; [by rewrite app_nil_r | intros c Hc; by apply elem_of_nil in Hc].
Qed.

(** X10: the puzzle, difficulty, narrative and asset agents ignore the
    "model" and "thinking_mode" entries of their arguments: the outcome
    is the same without them, and every round-trip they make is for the
    agent's own preferred model and thinking mode. *)
Theorem fixed_model_agents_ignore_overrides (rt : Runtime) (a : agent)
    (arguments : dict) (model thinking : value) :
  a ∈ fixed_model_agents →
  agent_execute rt a (<["model" := model]> (<["thinking_mode" := thinking]> arguments)) =
    agent_execute rt a arguments ∧
  ∀ s, ∃ made,
    calls (agent_execute rt a arguments s).2 = (calls s ++ made)%list ∧
    ∀ c, c ∈ made → call_model c = VStr (preferred_model a) ∧
                    call_thinking_mode c = VStr (thinking_mode a).
Proof.
  intros Hin. unfold fixed_model_agents in Hin.
  assert (Hcalls : ∀ (pre : M string) s,
            (∀ s0, (pre s0).2 = s0 ∨
                   ∃ context, pre s0 = _execute_with_model rt (VStr (preferred_model a))
                                         context (VStr (thinking_mode a)) s0) →
            ∃ made, calls (pre s).2 = (calls s ++ made)%list ∧
                    ∀ c, c ∈ made → call_model c = VStr (preferred_model a) ∧
                                    call_thinking_mode c = VStr (thinking_mode a)).
  { intros pre s Hpre. destruct (Hpre s) as [Hsame|[context Hrun]].
    - exists []. rewrite Hsame. split; [by rewrite app_nil_r |].
      intros c Hc. by apply elem_of_nil in Hc.
    - rewrite Hrun.
      destruct (execute_with_model_calls rt (VStr (preferred_model a)) context
                  (VStr (thinking_mode a)) s) as (made & Hmade & Hall).
      exists made. split; [exact Hmade |]. intros c Hc. by rewrite (Hall c Hc). }
  repeat (apply elem_of_cons in Hin as [->|Hin]);
    [ | | | | by apply elem_of_nil in Hin ]; simpl;
    unfold ProceduralPuzzleAgent_execute, DynamicDifficultyAgent_execute,
      NarrativeAgent_execute, AssetOptimizationAgent_execute;
    (split;
     [ by rewrite ?dict_item_insert_ne, ?dict_get_insert_ne by done
     | intros s; apply Hcalls; intros s0; unfold bind, lift;
       repeat match goal with
              | |- context [match ?r with Ok _ => _ | Raise _ => _ end] =>
                  destruct r; simpl
              end; eauto ]).
Qed.

Lemma fixed_model_agents_ignore_overrides_witness :
  NarrativeAgent ∈ fixed_model_agents ∧
  agent_execute (sample_runtime echoing []) NarrativeAgent
    (<["model" := VStr "gemini-pro"]>
       (<["thinking_mode" := VStr "low"]> {["prompt" := VStr "a cabin"]})) =
  agent_execute (sample_runtime echoing []) NarrativeAgent {["prompt" := VStr "a cabin"]}.
Proof.
  assert (Hin : NarrativeAgent ∈ fixed_model_agents)
    by (unfold fixed_model_agents; by repeat constructor).
  split; [exact Hin |].
  exact (proj1 (fixed_model_agents_ignore_overrides (sample_runtime echoing [])
                  NarrativeAgent {["prompt" := VStr "a cabin"]} (VStr "gemini-pro")
                  (VStr "low") Hin)).
Defined.

(** X11: every failure of the consensus workflow leaves it as a
    [ToolExecutionError] whose message starts "Consensus workflow
    failed: "; a [models] argument that cannot be iterated (None, a
    boolean, a number) fails this way without any round-trip. *)
Theorem consensus_wraps_failures (rt : Runtime) (prompt files models thinking : value)
    (s : State) :
  (∀ e s', _execute_consensus_workflow rt prompt files models thinking s = (Raise e, s') →
     ∃ cause, e = ToolExecutionError ("Consensus workflow failed: " +:+ cause)) ∧
  (∀ e, iterate models = Raise e →
     _execute_consensus_workflow rt prompt files models thinking s =
     (Raise (ToolExecutionError
               ("Consensus workflow failed: '" +:+ type_name models +:+
                "' object is not iterable")), s)).
Proof.
  split.
  - intros e s' Hrun. by eapply raises_execute_consensus_workflow.
  - intros e Hiter. unfold _execute_consensus_workflow, try_except, bind, lift.
    destruct models; simpl in *; try discriminate; reflexivity.
Qed.

Lemma consensus_wraps_failures_witness :
  iterate (VInt 3) = Raise (TypeError "'int' object is not iterable") ∧
  _execute_consensus_workflow (sample_runtime answering []) (VStr "which engine?")
    (VList []) (VInt 3) (VStr "high") sample_state =
  (Raise (ToolExecutionError "Consensus workflow failed: 'int' object is not iterable"),
   sample_state).
Proof.
  split; [reflexivity |].
  exact (proj2 (consensus_wraps_failures (sample_runtime answering [])
                  (VStr "which engine?") (VList []) (VInt 3) (VStr "high") sample_state)
           _ eq_refl).
Defined.

Lemma consensus_responses_calls rt prompt files models thinking context todo s :
  _build_consensus_context rt prompt files models = Ok context →
  ∃ made,
    made `prefix_of` (λ model, mkCall context model thinking) <$>
                     List.filter (get_provider_for_model rt) todo ∧
    calls (consensus_responses rt prompt files models thinking todo s).2 =
      (calls s ++ made)%list ∧
    (∀ responses, (consensus_responses rt prompt files models thinking todo s).1 =
                  Ok responses →
       made = (λ model, mkCall context model thinking) <$>
              List.filter (get_provider_for_model rt) todo).
Proof.
  intros Hcontext. revert s.
  induction todo as [|model todo IH]; intros s.
  - exists []. split_and!; [done | by rewrite app_nil_r | done].
  - destruct (get_provider_for_model rt model) eqn:Hmodel.
    + rewrite (consensus_responses_cons _ _ _ _ _ context) by done.
      cbn [List.filter]. rewrite Hmodel. cbv zeta.
      destruct (generate_response rt (calls s) _) as [response|e].
      * destruct (IH (mkState (shared_context s)
                        (calls s ++ [mkCall context model thinking])%list
                        (clock_after rt (calls s) (mkCall context model thinking) (clock s))))
          as (made & Hprefix & Hcalls & Hdone).
        exists (mkCall context model thinking :: made).
        destruct (consensus_responses rt prompt files models thinking todo _)
          as [[responses|e] s2]; simpl in *.
        -- split_and!; [by apply prefix_cons | by rewrite Hcalls, <- app_assoc |].
           intros _ _. f_equal. by eapply Hdone.
        -- split_and!; [by apply prefix_cons | by rewrite Hcalls, <- app_assoc |].
           intros responses' Hok. discriminate Hok.
      * exists [mkCall context model thinking]. simpl.
        split_and!; [apply prefix_cons, prefix_nil | done |].
        intros responses' Hok. discriminate Hok.
    + cbn [List.filter consensus_responses]. rewrite Hmodel. apply IH.
Qed.

(** X12: the consensus workflow sends one and the same prompt, which
    lists every model of the list, to the resolvable models only, in
    list order, with the given thinking mode; it stops at the first
    failing call, and makes no call at all when the prompt cannot be
    built. *)
Theorem consensus_round_trips (rt : Runtime) (prompt files thinking : value)
    (models : list value) (s : State) :
  (∀ context, _build_consensus_context rt prompt files (VList models) = Ok context →
     ∃ made,
       made `prefix_of` (λ model, mkCall context model thinking) <$>
                        List.filter (get_provider_for_model rt) models ∧
       calls (_execute_consensus_workflow rt prompt files (VList models) thinking s).2 =
         (calls s ++ made)%list ∧
       (∀ text, (_execute_consensus_workflow rt prompt files (VList models) thinking s).1 =
                Ok text →
          made = (λ model, mkCall context model thinking) <$>
                 List.filter (get_provider_for_model rt) models)) ∧
  (∀ e, _build_consensus_context rt prompt files (VList models) = Raise e →
     calls (_execute_consensus_workflow rt prompt files (VList models) thinking s).2 =
     calls s).
Proof.
  split.
  - intros context Hcontext.
    destruct (consensus_responses_calls rt prompt files (VList models) thinking context
                models s Hcontext) as (made & Hprefix & Hcalls & Hdone).
    exists made. unfold _execute_consensus_workflow, try_except, bind at 1, lift. simpl.
    unfold bind.
    destruct (consensus_responses rt prompt files (VList models) thinking models s)
      as [[responses|e] s1]; simpl in *.
    + unfold _analyze_consensus, bind, lift.
      destruct (consensus_sections rt responses); simpl;
        (split_and!; [done | done |]); [intros _ _; by eapply Hdone | done].
    + split_and!; [done | done | done].
  - intros e Hcontext.
    unfold _execute_consensus_workflow, try_except, bind at 1, lift. simpl.
    assert (Hloop : ∀ todo s0,
              calls (consensus_responses rt prompt files (VList models) thinking todo s0).2 =
              calls s0).
    { induction todo as [|model todo IH]; intros s0; simpl; [reflexivity |].
      destruct (get_provider_for_model rt model); [| apply IH].
      unfold bind at 1. unfold lift. by rewrite Hcontext. }
    specialize (Hloop models s). unfold bind.
    destruct (consensus_responses rt prompt files (VList models) thinking models s)
      as [[responses|e'] s1]; simpl in *; [| done].
    unfold _analyze_consensus, bind, lift. by destruct (consensus_sections rt responses).
Qed.

Lemma consensus_round_trips_witness :
  _build_consensus_context offline_runtime (VStr "which engine?") (VList [])
    (VList [VStr "gemini-pro"; VInt 3]) =
    Raise (TypeError "sequence item 1: expected str instance, int found") ∧
  calls (_execute_consensus_workflow offline_runtime (VStr "which engine?") (VList [])
           (VList [VStr "gemini-pro"; VInt 3]) (VStr "high") sample_state).2 =
  calls sample_state.
Proof.
  split; [reflexivity |].
  exact (proj2 (consensus_round_trips offline_runtime (VStr "which engine?") (VList [])
                  (VStr "high") [VStr "gemini-pro"; VInt 3] sample_state) _ eq_refl).
Defined.

Lemma str_items_all_str i l ss model :
  str_items i l = Ok ss → model ∈ l → ∃ name, model = VStr name.
Proof.
  revert i ss. induction l as [|x l IH]; intros i ss Hitems Hin;
    [by apply elem_of_nil in Hin |].
  simpl in Hitems. destruct x; try discriminate.
  destruct (str_items (S i) l) as [ss'|] eqn:Hrest; [| discriminate].
  apply elem_of_cons in Hin as [->|Hin]; [eauto | by eapply IH].
Qed.

Lemma consensus_context_all_str rt prompt files models context model :
  _build_consensus_context rt prompt files (VList models) = Ok context →
  model ∈ models → ∃ name, model = VStr name.
Proof.
  unfold _build_consensus_context, result_bind. simpl.
  destruct (str_items 0 models) as [ss|] eqn:Hitems; [| discriminate].
  intros _ Hin. by eapply str_items_all_str.
Qed.

Lemma consensus_sections_all_str rt (responses : list (value * string)) :
  (∀ model response, (model, response) ∈ responses → ∃ name, model = VStr name) →
  consensus_sections rt responses =
  Ok (foldr String.append "" ((λ r, consensus_section rt r.1 r.2) <$> responses)).
Proof.
  induction responses as [|[model response] responses IH]; intros Hall;
    [reflexivity |].
  destruct (Hall model response) as [name ->]; [apply list_elem_of_here |].
  cbn [consensus_sections]. rewrite IH.
  - unfold result_bind. cbn [fmap list_fmap foldr fst snd]. f_equal.
    unfold consensus_section. rewrite !string_app_assoc. reflexivity.
  - intros m r Hin. apply (Hall m r). by apply list_elem_of_further.
Qed.

(** X13: when the provider answers each call the same way whatever came
    before and every resolvable model answers, the consensus text is the
    heading, then one section per resolvable model in list order (the
    model's name as [str.upper] returns it and its answer verbatim),
    then the static synthesis section. *)
Theorem consensus_text_structure (rt : Runtime) (prompt files thinking : value)
    (models : list value) (context : string) (s : State) :
  history_independent rt →
  _build_consensus_context rt prompt files (VList models) = Ok context →
  (∀ model, model ∈ models → get_provider_for_model rt model = true →
            ∃ text, generate_response rt [] (mkCall context model thinking) = Ok text) →
  (_execute_consensus_workflow rt prompt files (VList models) thinking s).1 =
  Ok (consensus_heading
      +:+ foldr String.append ""
            ((λ model, consensus_section rt model
                         (first_answer rt (mkCall context model thinking))) <$>
             List.filter (get_provider_for_model rt) models)
      +:+ synthesis_section).
Proof.
  intros Hblind Hcontext Hanswers.
  assert (Hloop : ∀ todo s0, (∀ model, model ∈ todo → model ∈ models) →
            (consensus_responses rt prompt files (VList models) thinking todo s0).1 =
            Ok ((λ model, (model, first_answer rt (mkCall context model thinking))) <$>
                List.filter (get_provider_for_model rt) todo)).
  { induction todo as [|model todo IH]; intros s0 Hsub; [reflexivity |].
    destruct (get_provider_for_model rt model) eqn:Hmodel.
    - rewrite (consensus_responses_cons _ _ _ _ _ context) by done.
      cbn [List.filter]. rewrite Hmodel. cbv zeta.
      destruct (Hanswers model) as [text Htext]; [apply Hsub, list_elem_of_here | done |].
      rewrite (Hblind (calls s0) []), Htext.
      assert (Hrest : ∀ m, m ∈ todo → m ∈ models)
        by (intros m Hm; by apply Hsub, list_elem_of_further).
      specialize (IH (mkState (shared_context s0)
                        (calls s0 ++ [mkCall context model thinking])%list
                        (clock_after rt (calls s0) (mkCall context model thinking)
                           (clock s0))) Hrest).
      destruct (consensus_responses rt prompt files (VList models) thinking todo _)
        as [[responses|e] s2]; simpl in IH; [| discriminate IH].
      injection IH as ->.
      assert (Hfirst : first_answer rt (mkCall context model thinking) = text)
        by (unfold first_answer; by rewrite Htext).
      cbn [fst fmap list_fmap]. by rewrite Hfirst.
    - cbn [List.filter consensus_responses]. rewrite Hmodel. apply IH.
      intros m Hm. by apply Hsub, list_elem_of_further. }
  specialize (Hloop models s (λ _ H, H)).
  unfold _execute_consensus_workflow, try_except, bind at 1, lift. simpl. unfold bind at 1.
  destruct (consensus_responses rt prompt files (VList models) thinking models s)
    as [[responses|e] s1]; simpl in Hloop; [| discriminate].
  injection Hloop as ->.
  unfold _analyze_consensus, bind, lift.
  rewrite consensus_sections_all_str.
  - simpl. rewrite <- list_fmap_compose. reflexivity.
  - intros model response Hin. apply list_elem_of_fmap in Hin as (m & [= -> ->] & Hm).
    apply list_elem_of_In, filter_In in Hm as [Hm _]. apply list_elem_of_In in Hm.
    by eapply consensus_context_all_str.
Qed.

Lemma consensus_text_structure_witness :
  history_independent (sample_runtime echoing []) ∧
  _build_consensus_context (sample_runtime echoing []) (VStr "which engine?") (VList [])
    (VList [VStr "gemini-pro"; VStr "gpt-5"]) = Ok sample_consensus_prompt ∧
  (_execute_consensus_workflow (sample_runtime echoing []) (VStr "which engine?")
     (VList []) (VList [VStr "gemini-pro"; VStr "gpt-5"]) (VStr "high") sample_state).1 =
  Ok (consensus_heading
      +:+ consensus_section (sample_runtime echoing []) (VStr "gemini-pro")
          "answer from gemini-pro"
      +:+ consensus_section (sample_runtime echoing []) (VStr "gpt-5") "answer from gpt-5"
      +:+ synthesis_section).
Proof.
  assert (Hblind : history_independent (sample_runtime echoing []))
    by (intros log1 log2 c; reflexivity).
  assert (Hcontext : _build_consensus_context (sample_runtime echoing [])
                       (VStr "which engine?") (VList [])
                       (VList [VStr "gemini-pro"; VStr "gpt-5"]) = Ok sample_consensus_prompt)
    by reflexivity.
  split; [exact Hblind |]. split; [exact Hcontext |].
  rewrite (consensus_text_structure (sample_runtime echoing []) (VStr "which engine?")
             (VList []) (VStr "high") [VStr "gemini-pro"; VStr "gpt-5"]
             sample_consensus_prompt sample_state Hblind Hcontext).
  - vm_compute. reflexivity.
  - intros model _ _. eexists. reflexivity.
Defined.

(** ** Single tasks of the custom workflow *)

(** X14: a custom task naming an agent that is not registered fails with
    "Unknown agent: <name>" before its prompt is looked at and without
    any round-trip; a task with neither "agent" nor "type" fails with
    "Unknown agent: None". *)
Theorem single_task_unknown_agent (rt : Runtime) (task : dict) (model_strategy : string)
    (s : State) :
  (∀ agent_name, task_agent_name task = VStr agent_name →
     agents !! agent_name = None →
     _execute_single_task rt task model_strategy s =
     (Raise (ToolExecutionError ("Unknown agent: " +:+ agent_name)), s)) ∧
  (task !! "agent" = None → task !! "type" = None →
   _execute_single_task rt task model_strategy s =
   (Raise (ToolExecutionError "Unknown agent: None"), s)).
Proof.
  split.
  - intros agent_name Hname Hunknown. unfold task_agent_name in Hname.
    unfold _execute_single_task. rewrite Hname. unfold bind, lift. simpl.
    by rewrite Hunknown.
  - intros Hagent Htype. unfold _execute_single_task, dict_get.
    by rewrite Hagent, Htype.
Qed.

Lemma single_task_unknown_agent_witness :
  task_agent_name {["type" := VStr "story_weaver"]} = VStr "story_weaver" ∧
  agents !! "story_weaver" = None ∧
  _execute_single_task (sample_runtime answering []) {["type" := VStr "story_weaver"]}
    "auto" sample_state =
  (Raise (ToolExecutionError "Unknown agent: story_weaver"), sample_state).
Proof.
  split; [reflexivity |]. split; [reflexivity |].
  exact (proj1 (single_task_unknown_agent (sample_runtime answering [])
                  {["type" := VStr "story_weaver"]} "auto" sample_state)
           "story_weaver" eq_refl eq_refl).
Defined.

(** X15: a custom task for a registered agent that has no "prompt" fails
    with [KeyError] for "prompt" and makes no round-trip, whichever the
    agent: also for the difficulty and asset agents, which never read a
    prompt. *)
Theorem single_task_missing_prompt (rt : Runtime) (task : dict) (model_strategy : string)
    (s : State) (agent_name : string) (a : agent) :
  task_agent_name task = VStr agent_name →
  agents !! agent_name = Some a →
  task !! "prompt" = None →
  _execute_single_task rt task model_strategy s = (Raise (KeyError "prompt"), s).
Proof.
  intros Hname Hagent Hprompt. unfold task_agent_name in Hname.
  unfold _execute_single_task. rewrite Hname. unfold bind, lift. simpl.
  rewrite Hagent. simpl. unfold dict_item. by rewrite Hprompt.
Qed.

Lemma single_task_missing_prompt_witness :
  task_agent_name {["type" := VStr "dynamic_difficulty"]} = VStr "dynamic_difficulty" ∧
  agents !! "dynamic_difficulty" = Some DynamicDifficultyAgent ∧
  ({["type" := VStr "dynamic_difficulty"]} : dict) !! "prompt" = None ∧
  _execute_single_task (sample_runtime answering []) {["type" := VStr "dynamic_difficulty"]}
    "auto" sample_state = (Raise (KeyError "prompt"), sample_state).
Proof.
  split; [reflexivity |]. split; [reflexivity |]. split; [reflexivity |].
  exact (single_task_missing_prompt (sample_runtime answering [])
           {["type" := VStr "dynamic_difficulty"]} "auto" sample_state
           "dynamic_difficulty" DynamicDifficultyAgent eq_refl eq_refl eq_refl).
Defined.

Lemma agent_specific_args_insert_ne agent_name (task : dict) key v task_args :
  key ∉ task_keys_read →
  agent_specific_args agent_name (<[key := v]> task) task_args =
  agent_specific_args agent_name task task_args.
Proof.
  intros Hkey. unfold agent_specific_args.
  rewrite !dict_get_insert_ne; [reflexivity | ..];
    intros ->; apply Hkey; unfold task_keys_read; by repeat constructor.
Qed.

(** X16: [_execute_single_task] reads fifteen entries of a task and no
    other: setting any other entry, such as "files" or "models", changes
    neither the outcome nor the round-trips. *)
Theorem single_task_ignores_other_keys (rt : Runtime) (task : dict) (key : string)
    (v : value) (model_strategy : string) :
  key ∉ task_keys_read →
  _execute_single_task rt (<[key := v]> task) model_strategy =
  _execute_single_task rt task model_strategy.
Proof.
  intros Hkey. unfold _execute_single_task.
  assert (Hne : ∀ k, k ∈ task_keys_read → key ≠ k) by (intros k Hk ->; done).
  rewrite !dict_get_insert_ne, !dict_item_insert_ne
    by (apply Hne; unfold task_keys_read; by repeat constructor).
  destruct (agents_find _) as [[[name a]|]|e]; unfold bind, lift; cbv beta iota;
    try reflexivity.
  destruct (dict_item task "prompt") as [prompt|e]; [| reflexivity].
  by rewrite agent_specific_args_insert_ne.
Qed.

Lemma single_task_ignores_other_keys_witness :
  ("files" ∉ task_keys_read) ∧
  _execute_single_task (sample_runtime answering [])
    (<["files" := VList [VStr "main.py"]]> (sample_task "architecture" "design")) "auto" =
  _execute_single_task (sample_runtime answering [])
    (sample_task "architecture" "design") "auto".
Proof.
  assert (Hkey : "files" ∉ task_keys_read).
  { apply (bool_decide_eq_false _). vm_compute. reflexivity. }
  split; [exact Hkey |].
  exact (single_task_ignores_other_keys (sample_runtime answering [])
           (sample_task "architecture" "design") "files" (VList [VStr "main.py"])
           "auto" Hkey).
Defined.

(** X17: a task's "agent" entry overrides its "type": once "agent" is
    set, the type has no effect on what [_execute_single_task] does. *)
Theorem single_task_agent_overrides_type (rt : Runtime) (task : dict)
    (task_type agent_name : value) (model_strategy : string) :
  task !! "agent" = Some agent_name →
  _execute_single_task rt (<["type" := task_type]> task) model_strategy =
  _execute_single_task rt task model_strategy.
Proof.
  intros Hagent. unfold _execute_single_task.
  assert (Hname : ∀ default, dict_get task "agent" default = agent_name)
    by (intros default; unfold dict_get; by rewrite Hagent).
  rewrite (dict_get_insert_ne task "agent") by done. rewrite !Hname.
  rewrite !dict_get_insert_ne, !dict_item_insert_ne by done.
  destruct (agents_find agent_name) as [[[name a]|]|e]; unfold bind, lift;
    cbv beta iota; try reflexivity.
  destruct (dict_item task "prompt") as [prompt|e]; [| reflexivity].
  unfold agent_specific_args.
  by rewrite !dict_get_insert_ne by done.
Qed.

Lemma single_task_agent_overrides_type_witness :
  (<["agent" := VStr "content"]> (sample_task "architecture" "design") : dict) !! "agent" =
    Some (VStr "content") ∧
  _execute_single_task (sample_runtime answering [])
    (<["type" := VStr "nonsense"]>
       (<["agent" := VStr "content"]> (sample_task "architecture" "design"))) "auto" =
  _execute_single_task (sample_runtime answering [])
    (<["agent" := VStr "content"]> (sample_task "architecture" "design")) "auto".
Proof.
  split; [reflexivity |].
  exact (single_task_agent_overrides_type (sample_runtime answering [])
           (<["agent" := VStr "content"]> (sample_task "architecture" "design"))
           (VStr "nonsense") (VStr "content") "auto" eq_refl).
Defined.

Lemma single_task_dispatch rt (task : dict) model_strategy agent_name a prompt :
  task_agent_name task = VStr agent_name →
  agents !! agent_name = Some a →
  task !! "prompt" = Some prompt →
  _execute_single_task rt task model_strategy =
  agent_execute rt a
    (agent_specific_args agent_name task
       (list_to_map [("prompt", prompt);
                     ("model", VStr (_select_model agent_name model_strategy));
                     ("thinking_mode", dict_get task "thinking_mode" (VStr "medium"))])).
Proof.
  intros Hname Hagent Hprompt. unfold task_agent_name in Hname.
  unfold _execute_single_task. rewrite Hname.
  unfold bind, lift, agents_find, dict_item. rewrite Hagent, Hprompt. reflexivity.
Qed.

Lemma builder_without_files rt (build : value → value → result string) prompt :
  build ∈ prompt_files_builders rt →
  ∃ context, build prompt (VList []) = Ok context ∧
             occurs "None provided" context = true ∧
             occurs (py_str rt prompt) context = true.
Proof.
  intros Hin. unfold prompt_files_builders in Hin.
  repeat (apply elem_of_cons in Hin as [->|Hin]);
    [ | | | | by apply elem_of_nil in Hin ];
    (eexists; split; [reflexivity |]; split;
     [ do 3 apply occurs_later; apply occurs_here
     | apply occurs_later; apply occurs_here ]).
Qed.

Lemma prompt_files_agent_round_trip rt a (build : value → value → result string)
    (arguments : dict) prompt model thinking s :
  (a, build) ∈ [(ArchitectureAgent, _build_architecture_context rt);
                (ImplementationAgent, _build_implementation_context rt);
                (OptimizationAgent, _build_optimization_context rt);
                (ContentAgent, _build_content_context rt)] →
  arguments !! "prompt" = Some prompt →
  arguments !! "files" = None →
  arguments !! "model" = Some model →
  arguments !! "thinking_mode" = Some thinking →
  get_provider_for_model rt model = true →
  ∃ context, build prompt (VList []) = Ok context ∧
    calls (agent_execute rt a arguments s).2 =
      (calls s ++ [mkCall context model thinking])%list.
Proof.
  intros Hin Hprompt Hfiles Hmodel Hthinking Hprovider.
  assert (Hbuild : build ∈ prompt_files_builders rt).
  { unfold prompt_files_builders.
    repeat (apply elem_of_cons in Hin as [[= -> ->]|Hin]; [by repeat constructor |]).
    by apply elem_of_nil in Hin. }
  destruct (builder_without_files rt build prompt Hbuild) as (context & Hcontext & _ & _).
  exists context. split; [exact Hcontext |].
  repeat (apply elem_of_cons in Hin as [[= -> ->]|Hin]);
    [ | | | | by apply elem_of_nil in Hin ];
    cbn [agent_execute];
    unfold ArchitectureAgent_execute, ImplementationAgent_execute,
      OptimizationAgent_execute, ContentAgent_execute, bind, lift, dict_item, dict_get;
    rewrite Hprompt, Hfiles, Hmodel, Hthinking, Hcontext;
    apply (execute_with_model_round_trip rt model context thinking s Hprovider).
Qed.

(** X18: a custom task for the architecture, implementation, optimization
    or content agent, with a prompt and a resolvable model, makes
    exactly one round-trip: for the model [_select_model] picks for the
    agent and the strategy, with the task's thinking mode ("medium" when
    it has none, whatever the agent's own default), and with a prompt
    that carries the task text and says that no files were provided,
    since a task's files are not passed on. *)
Theorem single_task_round_trip (rt : Runtime) (task : dict) (model_strategy : string)
    (s : State) (agent_name : string) (prompt : value) :
  task_agent_name task = VStr agent_name →
  agent_name ∈ prompt_files_agent_names →
  task !! "prompt" = Some prompt →
  get_provider_for_model rt (VStr (_select_model agent_name model_strategy)) = true →
  ∃ context,
    occurs "None provided" context = true ∧
    occurs (py_str rt prompt) context = true ∧
    calls (_execute_single_task rt task model_strategy s).2 =
      (calls s ++ [mkCall context (VStr (_select_model agent_name model_strategy))
                          (dict_get task "thinking_mode" (VStr "medium"))])%list.
Proof.
  intros Hname Hin Hprompt Hprovider.
  assert (Hcase : ∃ a build,
            agents !! agent_name = Some a ∧
            (a, build) ∈ [(ArchitectureAgent, _build_architecture_context rt);
                          (ImplementationAgent, _build_implementation_context rt);
                          (OptimizationAgent, _build_optimization_context rt);
                          (ContentAgent, _build_content_context rt)] ∧
            ∀ task_args, agent_specific_args agent_name task task_args = task_args).
  { unfold prompt_files_agent_names in Hin.
    repeat (apply elem_of_cons in Hin as [->|Hin]);
      [ | | | | by apply elem_of_nil in Hin ];
      eexists _, _; (split; [vm_compute; reflexivity |]);
      (split; [by repeat constructor | reflexivity]). }
  destruct Hcase as (a & build & Hagent & Hpair & Hargs).
  rewrite (single_task_dispatch rt task model_strategy agent_name a prompt) by done.
  rewrite Hargs.
  destruct (prompt_files_agent_round_trip rt a build
              (list_to_map [("prompt", prompt);
                            ("model", VStr (_select_model agent_name model_strategy));
                            ("thinking_mode", dict_get task "thinking_mode" (VStr "medium"))])
              prompt (VStr (_select_model agent_name model_strategy))
              (dict_get task "thinking_mode" (VStr "medium")) s Hpair)
    as (context & Hcontext & Hcalls); try done; try (vm_compute; reflexivity).
  assert (Hbuild : build ∈ prompt_files_builders rt).
  { unfold prompt_files_builders.
    repeat (apply elem_of_cons in Hpair as [[= -> ->]|Hpair]; [by repeat constructor |]).
    by apply elem_of_nil in Hpair. }
  destruct (builder_without_files rt build prompt Hbuild) as (context' & Hcontext' & Hnone & Htask).
  assert (context' = context) as -> by congruence.
  exists context. by split_and!.
Qed.

Lemma single_task_round_trip_witness :
  task_agent_name (sample_task "architecture" "design") = VStr "architecture" ∧
  "architecture" ∈ prompt_files_agent_names ∧
  ∃ context,
    occurs "None provided" context = true ∧
    calls (_execute_single_task (sample_runtime answering [])
             (sample_task "architecture" "design") "cost_optimized" sample_state).2 =
    [mkCall context (VStr "gemini-flash") (VStr "medium")].
Proof.
  assert (Hin : "architecture" ∈ prompt_files_agent_names)
    by (unfold prompt_files_agent_names; by repeat constructor).
  split; [reflexivity |]. split; [exact Hin |].
  destruct (single_task_round_trip (sample_runtime answering [])
              (sample_task "architecture" "design") "cost_optimized" sample_state
              "architecture" (VStr "design") eq_refl Hin eq_refl eq_refl)
    as (context & Hnone & _ & Hcalls).
  exists context. split; [exact Hnone | exact Hcalls].
Defined.

(** ** The two modes of the custom workflow *)

(** X19: when the provider answers each call the same way whatever came
    before, the sequential and the parallel custom workflow record the
    same result text for every task, whatever the completion order; the
    two step lists are equal when every task has a "name" (the default
    names differ: "Task" against "Task <position>"). *)
Theorem custom_modes_agree (rt : Runtime) (tasks : list dict) (model_strategy : string)
    (s : State) :
  history_independent rt →
  ∃ steps_seq steps_par s_seq s_par,
    execute rt "custom" tasks false model_strategy s =
      _generate_workflow_report rt "Custom Workflow" steps_seq s_seq ∧
    execute rt "custom" tasks true model_strategy s =
      _generate_workflow_report rt "Custom Workflow" steps_par s_par ∧
    steps_seq.*2 = steps_par.*2 ∧
    ((∀ task, task ∈ tasks → is_Some (task !! "name")) → steps_seq = steps_par).
Proof.
  intros Hblind.
  destruct (sequential_custom_workflow rt tasks model_strategy s)
    as (steps_seq & Hseq & Hlen_seq & Hall_seq).
  destruct (parallel_custom_workflow rt tasks model_strategy s)
    as (outcomes & steps_par & s_par & _ & Hpar & Hlen_par & Hall_par).
  exists steps_seq, steps_par, (state_before rt model_strategy tasks (length tasks) s),
    s_par.
  assert (Hentry_seq : ∀ i (task : dict), tasks !! i = Some task →
            steps_seq !! i =
            Some (step_name false i task,
                  step_text (_execute_single_task rt task model_strategy s).1)).
  { intros i task Hi. rewrite (Hall_seq i task Hi). do 3 f_equal.
    apply (blind_execute_single_task rt Hblind task model_strategy).
    apply state_before_context. }
  assert (Hentry_par : ∀ i (task : dict), tasks !! i = Some task →
            steps_par !! i =
            Some (step_name true i task,
                  step_text (_execute_single_task rt task model_strategy s).1)).
  { intros i task Hi. destruct (Hall_par i task Hi) as (outcome & _ & Hco & Hstep).
    rewrite Hstep. do 3 f_equal.
    rewrite <- (await_execute_single_task rt task model_strategy s). symmetry.
    by eapply completes_history_independent. }
  split_and!.
  - exact Hseq.
  - exact Hpar.
  - apply list_eq. intros i. rewrite !list_lookup_fmap.
    destruct (tasks !! i) as [task|] eqn:Hi.
    + by rewrite (Hentry_seq i task Hi), (Hentry_par i task Hi).
    + apply lookup_ge_None in Hi.
      rewrite (lookup_ge_None_2 steps_seq), (lookup_ge_None_2 steps_par) by lia. done.
  - intros Hnamed. apply list_eq. intros i.
    destruct (tasks !! i) as [task|] eqn:Hi.
    + rewrite (Hentry_seq i task Hi), (Hentry_par i task Hi).
      destruct (Hnamed task (list_elem_of_lookup_2 _ _ _ Hi)) as [task_name Hname].
      unfold step_name, dict_get. by rewrite Hname.
    + apply lookup_ge_None in Hi.
      rewrite (lookup_ge_None_2 steps_seq), (lookup_ge_None_2 steps_par) by lia. done.
Qed.

Lemma custom_modes_agree_witness :
  history_independent (sample_runtime echoing [1]) ∧
  ∃ steps_seq steps_par s_seq s_par,
    execute (sample_runtime echoing [1]) "custom"
      [sample_task "architecture" "design"; sample_task "content" "write"]
      false "auto" sample_state =
      _generate_workflow_report (sample_runtime echoing [1]) "Custom Workflow"
        steps_seq s_seq ∧
    execute (sample_runtime echoing [1]) "custom"
      [sample_task "architecture" "design"; sample_task "content" "write"]
      true "auto" sample_state =
      _generate_workflow_report (sample_runtime echoing [1]) "Custom Workflow"
        steps_par s_par ∧
    steps_seq.*2 = steps_par.*2.
Proof.
  assert (Hblind : history_independent (sample_runtime echoing [1]))
    by (intros log1 log2 c; reflexivity).
  split; [exact Hblind |].
  destruct (custom_modes_agree (sample_runtime echoing [1])
              [sample_task "architecture" "design"; sample_task "content" "write"]
              "auto" sample_state Hblind)
    as (steps_seq & steps_par & s_seq & s_par & Hseq & Hpar & Htexts & _).
  by exists steps_seq, steps_par, s_seq, s_par.
Defined.

(** ** The named workflows *)

(** X20: the named workflows take the [parallel] flag and never use it:
    a run with the flag set is the same as a run without. *)
Theorem named_workflows_ignore_parallel (rt : Runtime) (workflow_type : string)
    (tasks : list dict) (model_strategy : string) :
  workflow_type ∈ named_workflow_types →
  execute rt workflow_type tasks true model_strategy =
  execute rt workflow_type tasks false model_strategy.
Proof.
  intros Hin. unfold named_workflow_types in Hin.
  repeat (apply elem_of_cons in Hin as [->|Hin]); [ | | | | by apply elem_of_nil in Hin ];
    reflexivity.
Qed.

Lemma named_workflows_ignore_parallel_witness :
  ("optimization" ∈ named_workflow_types) ∧
  execute (sample_runtime answering []) "optimization" [] true "auto" =
  execute (sample_runtime answering []) "optimization" [] false "auto".
Proof.
  assert (Hin : "optimization" ∈ named_workflow_types)
    by (unfold named_workflow_types; by repeat constructor).
  split; [exact Hin |].
  exact (named_workflows_ignore_parallel (sample_runtime answering []) "optimization"
           [] "auto" Hin).
Defined.

(** X21: a game_development run whose task list has no task of type
    architecture, implementation, content or optimization (an empty list
    for instance) returns a report with no step and makes no
    round-trip. *)
Theorem game_development_without_tasks (rt : Runtime) (tasks : list dict)
    (parallel : bool) (model_strategy : string) (s : State) :
  (∀ ty, ty ∈ game_development_types → any_of_type ty tasks = false) →
  execute rt "game_development" tasks parallel model_strategy s =
  _generate_workflow_report rt "Game Development" [] s.
Proof.
  intros Hnone. unfold execute. simpl.
  unfold _execute_game_development_workflow, append_step_if.
  rewrite !Hnone by (unfold game_development_types; by repeat constructor).
  reflexivity.
Qed.

Lemma game_development_without_tasks_witness :
  (∀ ty, ty ∈ game_development_types →
         any_of_type ty [sample_task "theme_analysis" "fog"] = false) ∧
  execute (sample_runtime answering []) "game_development"
    [sample_task "theme_analysis" "fog"] false "auto" sample_state =
  _generate_workflow_report (sample_runtime answering []) "Game Development" []
    sample_state.
Proof.
  assert (Hnone : ∀ ty, ty ∈ game_development_types →
                        any_of_type ty [sample_task "theme_analysis" "fog"] = false).
  { intros ty Hin. unfold game_development_types in Hin.
    repeat (apply elem_of_cons in Hin as [->|Hin]); [ | | | | by apply elem_of_nil in Hin ];
      vm_compute; reflexivity. }
  split; [exact Hnone |].
  exact (game_development_without_tasks (sample_runtime answering [])
           [sample_task "theme_analysis" "fog"] false "auto" sample_state Hnone).
Defined.

(** X22: the puzzle_generation, content_creation and optimization
    workflows need a task for their first step: when the list has no
    task of that step's type (an empty list for instance) the run is
    aborted by the [RuntimeError] of an exhausted [next], before any
    round-trip. *)
Theorem workflow_without_first_task (rt : Runtime) (workflow_type ty : string)
    (tasks : list dict) (parallel : bool) (model_strategy : string) (s : State) :
  (workflow_type, ty) ∈ first_required_type →
  List.find (has_type ty) tasks = None →
  execute rt workflow_type tasks parallel model_strategy s =
  (Raise (RuntimeError "coroutine raised StopIteration"), s).
Proof.
  intros Hin Hfind. unfold first_required_type in Hin.
  repeat (apply elem_of_cons in Hin as [[= -> ->]|Hin]);
    [ | | | by apply elem_of_nil in Hin ];
    unfold execute; simpl;
    unfold _execute_puzzle_generation_workflow, _execute_content_creation_workflow,
      _execute_optimization_workflow, append_step_if,
      _analyze_puzzle_theme, _develop_story, _analyze_performance, next_task, bind;
    by rewrite Hfind.
Qed.

Lemma workflow_without_first_task_witness :
  (("optimization", "performance_analysis") ∈ first_required_type) ∧
  List.find (has_type "performance_analysis") [] = None ∧
  execute (sample_runtime answering []) "optimization" [] false "auto" sample_state =
  (Raise (RuntimeError "coroutine raised StopIteration"), sample_state).
Proof.
  assert (Hin : ("optimization", "performance_analysis") ∈ first_required_type)
    by (unfold first_required_type; by repeat constructor).
  split; [exact Hin |]. split; [reflexivity |].
  exact (workflow_without_first_task (sample_runtime answering []) "optimization"
           "performance_analysis" [] false "auto" sample_state Hin eq_refl).
Defined.

(** The steps run by a fixed-model agent do not depend on the strategy:
    the model the step selects is among the arguments the agent does not
    read. *)
Lemma fixed_steps_ignore_strategy rt tasks strategy1 strategy2 s :
  _generate_puzzle_variations rt tasks strategy1 s =
    _generate_puzzle_variations rt tasks strategy2 s ∧
  _balance_difficulty rt tasks strategy1 s = _balance_difficulty rt tasks strategy2 s ∧
  _integrate_narrative rt tasks strategy1 s = _integrate_narrative rt tasks strategy2 s ∧
  _develop_story rt tasks strategy1 s = _develop_story rt tasks strategy2 s ∧
  _write_scenes rt tasks strategy1 s = _write_scenes rt tasks strategy2 s ∧
  _generate_assets rt tasks strategy1 s = _generate_assets rt tasks strategy2 s.
Proof.
  assert (Hpuzzle : agents !! "procedural_puzzle" = Some ProceduralPuzzleAgent)
    by (vm_compute; reflexivity).
  assert (Hdifficulty : agents !! "dynamic_difficulty" = Some DynamicDifficultyAgent)
    by (vm_compute; reflexivity).
  assert (Hnarrative : agents !! "narrative" = Some NarrativeAgent)
    by (vm_compute; reflexivity).
  assert (Hasset : agents !! "asset_optimization" = Some AssetOptimizationAgent)
    by (vm_compute; reflexivity).
  unfold _generate_puzzle_variations, _balance_difficulty, _integrate_narrative,
    _develop_story, _write_scenes, _generate_assets.
  rewrite !(agents_item_known _ _ Hpuzzle), !(agents_item_known _ _ Hnarrative),
    !(agents_item_known _ _ Hasset), !(agents_item_known _ _ Hdifficulty).
  split_and!; pointwise.
Qed.

(** X23: the puzzle_generation workflow takes the model strategy and its
    result never depends on it: the theme step asks for a fixed model and
    the other three steps run agents that use their own preferred
    model. *)
Theorem puzzle_generation_ignores_strategy (rt : Runtime) (tasks : list dict)
    (parallel : bool) (strategy1 strategy2 : string) (s : State) :
  execute rt "puzzle_generation" tasks parallel strategy1 s =
  execute rt "puzzle_generation" tasks parallel strategy2 s.
Proof.
  change (_execute_puzzle_generation_workflow rt tasks parallel strategy1 s =
          _execute_puzzle_generation_workflow rt tasks parallel strategy2 s).
  unfold _execute_puzzle_generation_workflow.
  apply bind_congr; [reflexivity | intros steps1 s1].
  apply bind_congr; [| intros steps2 s2].
  { apply append_step_if_congr, fixed_steps_ignore_strategy. }
  apply bind_congr; [reflexivity | intros with_difficulty s3].
  apply bind_congr; [| intros steps3 s4].
  { apply append_step_if_congr, fixed_steps_ignore_strategy. }
  apply bind_congr; [reflexivity | intros with_narrative s5].
  apply bind_congr; [| reflexivity].
  apply append_step_if_congr, fixed_steps_ignore_strategy.
Qed.

(** X24: the content_creation workflow depends on the model strategy
    through its character step only: when the shared context has no
    "characters" entry, runs under any two strategies are the same. *)
Theorem content_creation_ignores_strategy (rt : Runtime) (tasks : list dict)
    (parallel : bool) (strategy1 strategy2 : string) (s : State) :
  shared_context s !! "characters" = None →
  execute rt "content_creation" tasks parallel strategy1 s =
  execute rt "content_creation" tasks parallel strategy2 s.
Proof.
  intros Hnone.
  change (_execute_content_creation_workflow rt tasks parallel strategy1 s =
          _execute_content_creation_workflow rt tasks parallel strategy2 s).
  unfold _execute_content_creation_workflow.
  apply bind_congr_frame; [| | intros steps1 s1 Hs1].
  { apply frame_append_step_if. frame. }
  { apply append_step_if_congr, fixed_steps_ignore_strategy. }
  rewrite !bind_context_contains, Hs1, Hnone.
  rewrite bool_decide_eq_false_2 by (intros [v Hv]; discriminate).
  change (append_step_if false "Character Creation" ?step steps1) with (ret (A := list (value * string)) steps1).
  rewrite !bind_ret_l.
  apply bind_congr; [| intros steps2 s2].
  { apply append_step_if_congr, fixed_steps_ignore_strategy. }
  apply bind_congr; [reflexivity | intros with_assets s3].
  apply bind_congr; [| reflexivity].
  apply append_step_if_congr, fixed_steps_ignore_strategy.
Qed.

Lemma content_creation_ignores_strategy_witness :
  shared_context sample_state !! "characters" = None ∧
  execute (sample_runtime echoing []) "content_creation"
    [sample_task "story_development" "a lighthouse"; sample_task "scene_writing" "the stairs"]
    false "cost_optimized" sample_state =
  execute (sample_runtime echoing []) "content_creation"
    [sample_task "story_development" "a lighthouse"; sample_task "scene_writing" "the stairs"]
    false "performance_optimized" sample_state.
Proof.
  split; [reflexivity |].
  exact (content_creation_ignores_strategy (sample_runtime echoing [])
           [sample_task "story_development" "a lighthouse";
            sample_task "scene_writing" "the stairs"]
           false "cost_optimized" "performance_optimized" sample_state eq_refl).
Defined.

(** X25: the difficulty step looks for a task of type
    difficulty_balancing and reads nothing from it: for any two task
    lists that each hold such a task, and any two strategies, the step
    gives the same result. *)
Theorem balance_difficulty_ignores_its_task (rt : Runtime) (tasks1 tasks2 : list dict)
    (strategy1 strategy2 : string) (s : State) :
  any_of_type "difficulty_balancing" tasks1 = true →
  any_of_type "difficulty_balancing" tasks2 = true →
  _balance_difficulty rt tasks1 strategy1 s = _balance_difficulty rt tasks2 strategy2 s.
Proof.
  rewrite !any_of_type_find. intros Hfind1 Hfind2.
  apply bool_decide_eq_true in Hfind1 as [task1 Htask1].
  apply bool_decide_eq_true in Hfind2 as [task2 Htask2].
  assert (Hdifficulty : agents !! "dynamic_difficulty" = Some DynamicDifficultyAgent)
    by (vm_compute; reflexivity).
  unfold _balance_difficulty, next_task.
  rewrite Htask1, Htask2, !(agents_item_known _ _ Hdifficulty).
  pointwise.
Qed.

Lemma balance_difficulty_ignores_its_task_witness :
  any_of_type "difficulty_balancing" [sample_task "difficulty_balancing" "easier"] = true ∧
  any_of_type "difficulty_balancing"
    [sample_task "theme_analysis" "fog"; sample_task "difficulty_balancing" "harder"] = true ∧
  _balance_difficulty (sample_runtime echoing [])
    [sample_task "difficulty_balancing" "easier"] "auto" sample_state =
  _balance_difficulty (sample_runtime echoing [])
    [sample_task "theme_analysis" "fog"; sample_task "difficulty_balancing" "harder"]
    "cost_optimized" sample_state.
Proof.
  split; [reflexivity |]. split; [reflexivity |].
  exact (balance_difficulty_ignores_its_task (sample_runtime echoing [])
           [sample_task "difficulty_balancing" "easier"]
           [sample_task "theme_analysis" "fog"; sample_task "difficulty_balancing" "harder"]
           "auto" "cost_optimized" sample_state eq_refl eq_refl).
Defined.

(** What a run that got past a conditional step has recorded. *)
Lemma append_step_if_names included name (step : M string)
    (workflow_steps : list (value * string)) (k : list (value * string) → M string)
    s report s' :
  preserves_context step →
  bind (append_step_if included name step workflow_steps) k s = (Ok report, s') →
  ∃ workflow_steps' s1,
    workflow_steps'.*1 = (workflow_steps.*1 ++ (VStr <$> name_if included name))%list ∧
    shared_context s1 = shared_context s ∧
    k workflow_steps' s1 = (Ok report, s').
Proof.
  intros Hframe Hrun. destruct included; simpl in *.
  - unfold append_step_if, bind in Hrun. specialize (Hframe s).
    destruct (step s) as [[text|e] s1]; [| discriminate]. simpl in *.
    exists (workflow_steps ++ [(VStr name, text)])%list, s1.
    by rewrite fmap_app.
  - exists workflow_steps, s. by rewrite app_nil_r.
Qed.

(** X26: a named workflow that returns a report returns the report, under
    the workflow's title, of a step list whose names are fixed by the
    task types present (game_development) or by the keys of the shared
    context as it was before the run (puzzle_generation and
    content_creation), in the order of the source; the optimization
    workflow always has its four steps. *)
Theorem named_workflow_step_names (rt : Runtime) (workflow_type : string)
    (tasks : list dict) (parallel : bool) (model_strategy : string)
    (s s' : State) (report : string) :
  workflow_type ∈ named_workflow_types →
  execute rt workflow_type tasks parallel model_strategy s = (Ok report, s') →
  ∃ steps s1,
    steps.*1 = VStr <$> expected_step_names workflow_type (shared_context s) tasks ∧
    _generate_workflow_report rt (workflow_title workflow_type) steps s1 = (Ok report, s').
Proof.
  intros Hin Hrun. unfold named_workflow_types in Hin.
  repeat (apply elem_of_cons in Hin as [->|Hin]); [ | | | | by apply elem_of_nil in Hin ].
  - change (_execute_game_development_workflow rt tasks parallel model_strategy s
            = (Ok report, s')) in Hrun.
    unfold _execute_game_development_workflow in Hrun.
    apply append_step_if_names in Hrun as (steps1 & s1 & Hnames1 & Hs1 & Hrun); [| frame].
    apply append_step_if_names in Hrun as (steps2 & s2 & Hnames2 & Hs2 & Hrun); [| frame].
    apply append_step_if_names in Hrun as (steps3 & s3 & Hnames3 & Hs3 & Hrun); [| frame].
    apply append_step_if_names in Hrun as (steps4 & s4 & Hnames4 & Hs4 & Hrun); [| frame].
    exists steps4, s4. split; [| exact Hrun].
    rewrite Hnames4, Hnames3, Hnames2, Hnames1.
    change (expected_step_names "game_development" (shared_context s) tasks)
      with (name_if (any_of_type "architecture" tasks) "Architecture Planning"
            ++ name_if (any_of_type "implementation" tasks) "Implementation"
            ++ name_if (any_of_type "content" tasks) "Content Creation"
            ++ name_if (any_of_type "optimization" tasks) "Performance Optimization")%list.
    rewrite !fmap_app, <- !app_assoc. reflexivity.
  - change (_execute_puzzle_generation_workflow rt tasks parallel model_strategy s
            = (Ok report, s')) in Hrun.
    unfold _execute_puzzle_generation_workflow in Hrun.
    apply append_step_if_names in Hrun as (steps1 & s1 & Hnames1 & Hs1 & Hrun); [| frame].
    apply append_step_if_names in Hrun as (steps2 & s2 & Hnames2 & Hs2 & Hrun); [| frame].
    rewrite bind_context_contains in Hrun.
    apply append_step_if_names in Hrun as (steps3 & s3 & Hnames3 & Hs3 & Hrun); [| frame].
    rewrite bind_context_contains in Hrun.
    apply append_step_if_names in Hrun as (steps4 & s4 & Hnames4 & Hs4 & Hrun); [| frame].
    exists steps4, s4. split; [| exact Hrun].
    rewrite Hnames4, Hnames3, Hnames2, Hnames1, Hs3, Hs2, Hs1.
    change (expected_step_names "puzzle_generation" (shared_context s) tasks)
      with (["Theme Analysis"; "Puzzle Generation"]
            ++ name_if (bool_decide (is_Some (shared_context s !! "difficulty_adjustment")))
                 "Difficulty Balancing"
            ++ name_if (bool_decide (is_Some (shared_context s !! "narrative")))
                 "Narrative Integration")%list.
    rewrite !fmap_app, <- !app_assoc. reflexivity.
  - change (_execute_content_creation_workflow rt tasks parallel model_strategy s
            = (Ok report, s')) in Hrun.
    unfold _execute_content_creation_workflow in Hrun.
    apply append_step_if_names in Hrun as (steps1 & s1 & Hnames1 & Hs1 & Hrun); [| frame].
    rewrite bind_context_contains in Hrun.
    apply append_step_if_names in Hrun as (steps2 & s2 & Hnames2 & Hs2 & Hrun); [| frame].
    apply append_step_if_names in Hrun as (steps3 & s3 & Hnames3 & Hs3 & Hrun); [| frame].
    rewrite bind_context_contains in Hrun.
    apply append_step_if_names in Hrun as (steps4 & s4 & Hnames4 & Hs4 & Hrun); [| frame].
    exists steps4, s4. split; [| exact Hrun].
    rewrite Hnames4, Hnames3, Hnames2, Hnames1, Hs3, Hs2, Hs1.
    change (expected_step_names "content_creation" (shared_context s) tasks)
      with (["Story Development"]
            ++ name_if (bool_decide (is_Some (shared_context s !! "characters")))
                 "Character Creation"
            ++ ["Scene Writing"]
            ++ name_if (bool_decide (is_Some (shared_context s !! "assets")))
                 "Asset Generation")%list.
    rewrite !fmap_app, <- !app_assoc. reflexivity.
  - change (_execute_optimization_workflow rt tasks parallel model_strategy s
            = (Ok report, s')) in Hrun.
    unfold _execute_optimization_workflow in Hrun.
    apply append_step_if_names in Hrun as (steps1 & s1 & Hnames1 & Hs1 & Hrun); [| frame].
    apply append_step_if_names in Hrun as (steps2 & s2 & Hnames2 & Hs2 & Hrun); [| frame].
    apply append_step_if_names in Hrun as (steps3 & s3 & Hnames3 & Hs3 & Hrun); [| frame].
    apply append_step_if_names in Hrun as (steps4 & s4 & Hnames4 & Hs4 & Hrun); [| frame].
    exists steps4, s4. split; [| exact Hrun].
    rewrite Hnames4, Hnames3, Hnames2, Hnames1. reflexivity.
Qed.

Lemma named_workflow_step_names_witness :
  ("puzzle_generation" ∈ named_workflow_types) ∧
  ∃ report s',
    execute (sample_runtime answering []) "puzzle_generation"
      [sample_task "theme_analysis" "fog"; sample_task "procedural_generation" "locks"]
      false "auto" sample_state = (Ok report, s') ∧
    ∃ steps s1,
      steps.*1 = [VStr "Theme Analysis"; VStr "Puzzle Generation"] ∧
      _generate_workflow_report (sample_runtime answering []) "Puzzle Generation" steps s1 =
      (Ok report, s').
Proof.
  assert (Hin : "puzzle_generation" ∈ named_workflow_types)
    by (unfold named_workflow_types; by repeat constructor).
  assert (Hrun : ∃ report s',
    execute (sample_runtime answering []) "puzzle_generation"
      [sample_task "theme_analysis" "fog"; sample_task "procedural_generation" "locks"]
      false "auto" sample_state = (Ok report, s'))
    by (eexists _, _; vm_compute; reflexivity).
  destruct Hrun as (report & s' & Hrun).
  split; [exact Hin |]. exists report, s'. split; [exact Hrun |].
  exact (named_workflow_step_names (sample_runtime answering []) "puzzle_generation"
           [sample_task "theme_analysis" "fog"; sample_task "procedural_generation" "locks"]
           false "auto" sample_state s' report Hin Hrun).
Defined.

(** ** Which exceptions leave a workflow *)










